(** * cpu.py: a one-shot host status report

    A shallow embedding of [src/cpu.py].  The host (the operating system as
    seen through [platform], [psutil], [subprocess], [open] and the clock) is
    a record of observations; every collector is a function of that record.
    Python exceptions are explicit results, dictionaries are insertion-ordered
    association lists, floats are IEEE-754 binary64 values
    ([SpecFloat.spec_float] with [prec = 53], [emax = 1024]), and standard
    output is the list of strings passed to [print]. *)

From Stdlib Require Import ZArith List String Ascii Bool Lia.
From Stdlib Require Import SpecFloat DecimalString DecimalZ DecimalPos.
Import ListNotations.

Local Open Scope string_scope.
Local Open Scope Z_scope.

(* ===================================================================== *)
(** ** Exceptions and fallible computations *)

(** The exception classes the program can meet.  All of them derive from
    [Exception], so a bare [except:] and [except Exception] catch the same
    values here. *)
Inductive exc_class : Type :=
| PermissionError
| FileNotFoundError
| OSError
| ZeroDivisionError
| OverflowError
| ImportError
| AttributeError
| TimeoutExpired
| ValueError
| UnicodeEncodeError
| RuntimeError.

(** An exception instance: its class and [str(e)]. *)
Record exn : Type := mkExn { exn_class : exc_class; exn_str : string }.

Definition is_PermissionError (e : exn) : bool :=
  match exn_class e with PermissionError => true | _ => false end.

Definition is_ImportError (e : exn) : bool :=
  match exn_class e with ImportError => true | _ => false end.

Inductive result (A : Type) : Type :=
| Ok (a : A)
| Raise (e : exn).
Arguments Ok {A} a.
Arguments Raise {A} e.

Definition bind {A B : Type} (r : result A) (k : A -> result B) : result B :=
  match r with
  | Ok a => k a
  | Raise e => Raise e
  end.

Declare Scope py_scope.
Delimit Scope py_scope with py.
Notation "x <- c ;; k" := (bind c (fun x => k))
  (at level 61, c at next level, right associativity) : py_scope.

(** [try: body / except: handler] (the handler sees the exception). *)
Definition try_except {A : Type} (body : result A) (handler : exn -> result A)
  : result A :=
  match body with
  | Ok a => Ok a
  | Raise e => handler e
  end.

(** [try: body / except C: handler], for a class test [C]. *)
Definition try_except_if {A : Type} (C : exn -> bool) (body : result A)
  (handler : exn -> result A) : result A :=
  match body with
  | Ok a => Ok a
  | Raise e => if C e then handler e else Raise e
  end.

(* ===================================================================== *)
(** ** Strings *)

(** Strings are byte strings; the case and whitespace functions below act on
    ASCII, which is where the program's own keys and separators live. *)

Definition LF : ascii := ascii_of_nat 10.
Definition DQUOTE : ascii := ascii_of_nat 34.

Definition is_space (c : ascii) : bool :=
  let n := nat_of_ascii c in
  ((9 <=? n) && (n <=? 13) || (28 <=? n) && (n <=? 32))%nat.

Definition is_upper (c : ascii) : bool :=
  let n := nat_of_ascii c in ((65 <=? n) && (n <=? 90))%nat.

Definition is_lower (c : ascii) : bool :=
  let n := nat_of_ascii c in ((97 <=? n) && (n <=? 122))%nat.

Definition to_lower (c : ascii) : ascii :=
  if is_upper c then ascii_of_nat (nat_of_ascii c + 32) else c.

Definition to_upper (c : ascii) : ascii :=
  if is_lower c then ascii_of_nat (nat_of_ascii c - 32) else c.

Fixpoint str_map (f : ascii -> ascii) (s : string) : string :=
  match s with
  | EmptyString => EmptyString
  | String c s' => String (f c) (str_map f s')
  end.

(** [s.lower()] *)
Definition lower (s : string) : string := str_map to_lower s.

(** [s.replace(a, b)] for single characters. *)
Definition replace_char (a b : ascii) (s : string) : string :=
  str_map (fun c => if Ascii.eqb c a then b else c) s.

(** [s.title()]: a cased character is upper-cased when it follows an uncased
    one and lower-cased otherwise; the cased characters are the ASCII
    letters. *)
Fixpoint title_from (prev_cased : bool) (s : string) : string :=
  match s with
  | EmptyString => EmptyString
  | String c s' =>
      if is_upper c || is_lower c
      then String (if prev_cased then to_lower c else to_upper c)
                  (title_from true s')
      else String c (title_from false s')
  end.

Definition title (s : string) : string := title_from false s.

Fixpoint lstrip (s : string) : string :=
  match s with
  | String c s' => if is_space c then lstrip s' else s
  | EmptyString => EmptyString
  end.

Fixpoint str_rev_onto (s acc : string) : string :=
  match s with
  | EmptyString => acc
  | String c s' => str_rev_onto s' (String c acc)
  end.

Definition str_rev (s : string) : string := str_rev_onto s EmptyString.

Definition rstrip (s : string) : string := str_rev (lstrip (str_rev s)).

(** [s.strip()], for ASCII white space. *)
Definition strip (s : string) : string := rstrip (lstrip s).

(** Python truthiness of a string. *)
Definition str_truthy (s : string) : bool :=
  match s with EmptyString => false | _ => true end.

(** [s.split(sep)] for a one-character separator: never empty. *)
Fixpoint split_char (sep : ascii) (s : string) : list string :=
  match s with
  | EmptyString => [EmptyString]
  | String c s' =>
      if Ascii.eqb c sep then EmptyString :: split_char sep s'
      else match split_char sep s' with
           | w :: ws => String c w :: ws
           | [] => [String c EmptyString]
           end
  end.

(** [s.split(sep, 1)] when [sep in s]: the parts before and after the first
    separator; [None] when the separator does not occur. *)
Fixpoint split_once (sep : ascii) (s : string) : option (string * string) :=
  match s with
  | EmptyString => None
  | String c s' =>
      if Ascii.eqb c sep then Some (EmptyString, s')
      else match split_once sep s' with
           | Some (a, b) => Some (String c a, b)
           | None => None
           end
  end.

(** [sub in s] *)
Fixpoint contains (sub s : string) : bool :=
  String.prefix sub s ||
  match s with
  | EmptyString => false
  | String _ s' => contains sub s'
  end.

(** [str(n)] for an integer. *)
Definition str_of_Z (n : Z) : string := NilZero.string_of_int (Z.to_int n).

(** [c * n] for a one-character string [c]. *)
Fixpoint repeat_char (c : ascii) (n : nat) : string :=
  match n with
  | O => EmptyString
  | S n' => String c (repeat_char c n')
  end.

(* ===================================================================== *)
(** ** Dictionaries *)

(** A Python [dict] with string keys: keys are unique, iteration follows
    insertion order, and assigning to a key that is present replaces its value
    in place. *)
Definition dict (V : Type) : Type := list (string * V).

Fixpoint dict_get {V : Type} (k : string) (d : dict V) : option V :=
  match d with
  | [] => None
  | (k', v) :: d' => if String.eqb k k' then Some v else dict_get k d'
  end.

(** [k in d] *)
Definition dict_mem {V : Type} (k : string) (d : dict V) : bool :=
  match dict_get k d with Some _ => true | None => false end.

(** [d[k] = v] *)
Fixpoint dict_set {V : Type} (k : string) (v : V) (d : dict V) : dict V :=
  match d with
  | [] => [(k, v)]
  | (k', v') :: d' =>
      if String.eqb k k' then (k, v) :: d' else (k', v') :: dict_set k v d'
  end.

Definition dict_keys {V : Type} (d : dict V) : list string := map fst d.

(** Truthiness of a dict: non-empty. *)
Definition dict_truthy {V : Type} (d : dict V) : bool :=
  match d with [] => false | _ => true end.

(** The representation invariant of a dict that comes from the host. *)
Definition wf_dict {V : Type} (d : dict V) : Prop := NoDup (dict_keys d).

(* ===================================================================== *)
(** ** Floats *)

(** A Python [float] is a binary64 value. *)
Definition float : Type := spec_float.

Definition prec : Z := 53.
Definition emax : Z := 1024.

(** The integer [n] as an exact (possibly wide) binary value. *)
Definition exact_Z (n : Z) : float :=
  match n with
  | Z0 => S754_zero false
  | Zpos p => S754_finite false p 0
  | Zneg p => S754_finite true p 0
  end.

(** [float(n)]: the nearest double, ties to even. *)
Definition float_of_Z (n : Z) : float := binary_normalize prec emax n 0 false.

(** [a / b] on integers: the correctly rounded quotient; division by zero and
    a quotient beyond the double range raise. *)
Definition py_truediv (a b : Z) : result float :=
  if b =? 0 then Raise (mkExn ZeroDivisionError "division by zero")
  else match SFdiv prec emax (exact_Z a) (exact_Z b) with
       | S754_infinity _ | S754_nan =>
           Raise (mkExn OverflowError
                    "integer division result too large for a float")
       | q => Ok q
       end.

(** [x * n] for a float [x] and a small integer [n]. *)
Definition py_mul (x : float) (n : Z) : float :=
  SFmul prec emax x (float_of_Z n).

(** The exact comparison of a float with an integer ([None] for NaN). *)
Definition float_compare_Z (x : float) (n : Z) : option comparison :=
  match x with
  | S754_nan => None
  | S754_infinity s => Some (if s then Lt else Gt)
  | S754_zero _ => Some (0 ?= n)
  | S754_finite s m e =>
      let v := if s then Zneg m else Zpos m in
      Some (if 0 <=? e then (v * 2 ^ e ?= n) else (v ?= n * 2 ^ (- e)))
  end.

(** [x > n] *)
Definition float_gt_Z (x : float) (n : Z) : bool :=
  match float_compare_Z x n with Some Gt => true | _ => false end.

(** Truthiness of a float: false exactly for the two zeros. *)
Definition float_truthy (x : float) : bool :=
  match x with S754_zero _ => false | _ => true end.

(** The value of a finite float as sign, numerator and denominator. *)
Definition float_frac (x : float) : option (bool * Z * Z) :=
  match x with
  | S754_zero s => Some (s, 0, 1)
  | S754_finite s m e =>
      Some (if 0 <=? e then (s, Zpos m * 2 ^ e, 1) else (s, Zpos m, 2 ^ (- e)))
  | _ => None
  end.

(** The integer nearest to [n / d], ties to the even one ([0 <= n], [0 < d]). *)
Definition div_round_half_even (n d : Z) : Z :=
  let q := n / d in
  match 2 * (n mod d) ?= d with
  | Lt => q
  | Gt => q + 1
  | Eq => if Z.even q then q else q + 1
  end.

Definition digit_char (n : Z) : ascii := ascii_of_nat (48 + Z.to_nat n).

(** The last [k] decimal digits of [n], zero padded. *)
Fixpoint frac_digits (k : nat) (n : Z) : string :=
  match k with
  | O => EmptyString
  | S k' => frac_digits k' (n / 10) ++ String (digit_char (n mod 10)) EmptyString
  end.

(** The decimal rendering of [n / 10^k] with exactly [k] fractional digits. *)
Definition render_fixed (k : nat) (n : Z) : string :=
  let p := 10 ^ Z.of_nat k in
  match k with
  | O => str_of_Z n
  | _ => str_of_Z (n / p) ++ "." ++ frac_digits k (n mod p)
  end.

Definition sign_str (s : bool) : string := if s then "-" else EmptyString.

(** [format(x, '.kf')] *)
Definition format_fixed (k : nat) (x : float) : string :=
  match x with
  | S754_nan => "nan"
  | S754_infinity s => sign_str s ++ "inf"
  | _ =>
      match float_frac x with
      | Some (s, n, d) =>
          sign_str s ++
          render_fixed k (div_round_half_even (n * 10 ^ Z.of_nat k) d)
      | None => "nan"
      end
  end.

(** *** [repr] of a float: the shortest decimal that reads back as the same
    double, in positional notation for exponents from -4 to 15. *)
Section Repr.
(** The float is [m * 2^e] with a canonical mantissa. *)
Variables (m : positive) (e : Z).

(** Quarter-ulp units [2^(e-2)]: the value and its rounding interval. *)
Definition r_val : Z := 4 * Zpos m.
Definition r_hi : Z := r_val + 2.
Definition r_lo : Z :=
  if (Zpos m =? 2 ^ (prec - 1)) && (3 - emax - prec <? e)
  then r_val - 1 else r_val - 2.

(** [D * 10^p] compared with [X] quarter-ulps. *)
Definition cmp_dec (D p X : Z) : comparison :=
  (D * 10 ^ Z.max p 0 * 2 ^ Z.max (2 - e) 0
     ?= X * 2 ^ Z.max (e - 2) 0 * 10 ^ Z.max (- p) 0).

Definition in_interval (D p : Z) : bool :=
  match cmp_dec D p r_lo, cmp_dec D p r_hi with
  | Gt, Lt => true
  | Eq, (Lt | Eq) | Gt, Eq => Z.even (Zpos m)
  | _, _ => false
  end.

(** [floor (m * 2^e / 10^p)] *)
Definition floor_dec (p : Z) : Z :=
  (Zpos m * 2 ^ Z.max e 0 * 10 ^ Z.max (- p) 0)
    / (2 ^ Z.max (- e) 0 * 10 ^ Z.max p 0).

(** [floor (log10 (m * 2^e))] *)
Definition floor_log10 : Z :=
  let L := Zpos (digits2_pos m) + e - 1 in
  let est := L * 1233 / 4096 - 1 in
  let le10 i := match cmp_dec 1 (est + i) r_val with Gt => false | _ => true end in
  if le10 2 then (if le10 3 then est + 3 else est + 2)
  else if le10 1 then est + 1 else est.

(** The shortest digit string [D] and exponent [p] with [D * 10^p] in the
    rounding interval, trying [k], [k+1], ... significant digits. *)
Fixpoint shortest (fuel : nat) (k : Z) : Z * Z :=
  let p := floor_log10 - k + 1 in
  let Dlo := floor_dec p in
  let Dhi := Dlo + 1 in
  match fuel with
  | O => (Dlo, p)
  | S fuel' =>
      match in_interval Dlo p, in_interval Dhi p with
      | true, false => (Dlo, p)
      | false, true => (Dhi, p)
      | true, true =>
          match cmp_dec (2 * Dlo + 1) p (2 * r_val) with
          | Gt => (Dlo, p)
          | Lt => (Dhi, p)
          | Eq => if Z.even Dlo then (Dlo, p) else (Dhi, p)
          end
      | false, false => shortest fuel' (k + 1)
      end
  end.

Fixpoint strip_zeros (fuel : nat) (D p : Z) : Z * Z :=
  match fuel with
  | O => (D, p)
  | S fuel' =>
      if (D mod 10 =? 0) && negb (D =? 0) then strip_zeros fuel' (D / 10) (p + 1)
      else (D, p)
  end.

Definition repr_digits : string * Z :=
  let '(D, p) := shortest 17 1 in
  let '(D, p) := strip_zeros 20 D p in
  let ds := str_of_Z D in
  (ds, Z.of_nat (String.length ds) + p).
End Repr.

Definition exp_str (x : Z) : string :=
  (if x <? 0 then "-" else "+") ++
  (if Z.abs x <? 10 then "0" else EmptyString) ++ str_of_Z (Z.abs x).

Definition repr_layout (ds : string) (decpt : Z) : string :=
  let n := Z.of_nat (String.length ds) in
  if (decpt <=? -4) || (16 <? decpt) then
    String.substring 0 1 ds ++
    (if 1 <? n then "." ++ String.substring 1 (Z.to_nat n - 1) ds else EmptyString) ++
    "e" ++ exp_str (decpt - 1)
  else if decpt <=? 0 then
    "0." ++ repeat_char "0" (Z.to_nat (- decpt)) ++ ds
  else if n <=? decpt then
    ds ++ repeat_char "0" (Z.to_nat (decpt - n)) ++ ".0"
  else
    String.substring 0 (Z.to_nat decpt) ds ++ "." ++
    String.substring (Z.to_nat decpt) (Z.to_nat (n - decpt)) ds.

(** [repr(x)], which is also [str(x)] and [format(x, '')]. *)
Definition float_repr (x : float) : string :=
  match x with
  | S754_nan => "nan"
  | S754_infinity s => sign_str s ++ "inf"
  | S754_zero s => sign_str s ++ "0.0"
  | S754_finite s m e =>
      match binary_normalize prec emax (Zpos m) e false with
      | S754_finite _ m' e' =>
          let '(ds, decpt) := repr_digits m' e' in
          sign_str s ++ repr_layout ds decpt
      | S754_infinity _ => sign_str s ++ "inf"
      | _ => sign_str s ++ "0.0"
      end
  end.

(* ===================================================================== *)
(** ** Printable values *)

(** The scalar values a collector stores next to its formatted strings. *)
Inductive scalar : Type :=
| SNone
| SInt (n : Z)
| SFloat (x : float)
| SStr (s : string).

(** [str(v)], as an f-string field renders it. *)
Definition py_str (v : scalar) : string :=
  match v with
  | SNone => "None"
  | SInt n => str_of_Z n
  | SFloat x => float_repr x
  | SStr s => s
  end.

Definition hex_digit (n : nat) : ascii :=
  if (n <? 10)%nat then ascii_of_nat (48 + n) else ascii_of_nat (87 + n).

Definition repr_escape (q : ascii) (c : ascii) : string :=
  let n := nat_of_ascii c in
  if Ascii.eqb c "\" then "\\"
  else if Ascii.eqb c q then String "\" (String c EmptyString)
  else if (n =? 10)%nat then "\n"
  else if (n =? 13)%nat then "\r"
  else if (n =? 9)%nat then "\t"
  else if (n <? 32)%nat || (n =? 127)%nat
       then "\x" ++ String (hex_digit (n / 16)) (String (hex_digit (n mod 16)) EmptyString)
  else String c EmptyString.

Fixpoint str_concat_map (f : ascii -> string) (s : string) : string :=
  match s with
  | EmptyString => EmptyString
  | String c s' => f c ++ str_concat_map f s'
  end.

(** [repr(s)] for a string: single quotes unless the text has a single quote
    and no double quote.  Bytes of non-ASCII characters are kept as they
    are, which is what Python does for the printable ones. *)
Definition str_repr (s : string) : string :=
  let q : ascii :=
    if contains "'" s && negb (contains (String DQUOTE EmptyString) s)
    then DQUOTE else "'"%char in
  String q (str_concat_map (repr_escape q) s) ++ String q EmptyString.

(** [", ".join(l)] *)
Fixpoint join_comma (l : list string) : string :=
  match l with
  | [] => EmptyString
  | [x] => x
  | x :: l' => x ++ ", " ++ join_comma l'
  end.

(* ===================================================================== *)
(** ** The host *)

(** [psutil.cpu_freq()] *)
Record scpufreq : Type :=
  { freq_current : float; freq_min : float; freq_max : float }.

(** [psutil.virtual_memory()] *)
Record svmem : Type :=
  { vm_total : Z; vm_available : Z; vm_percent : float }.

(** [psutil.swap_memory()] *)
Record sswap : Type := { sw_total : Z; sw_percent : float }.

(** One temperature sensor; [high] and [critical] are [None] when the sensor
    does not report them, the label is empty when the hardware has none. *)
Record shwtemp : Type :=
  { label : string; current : float;
    high : option float; critical : option float }.

(** [psutil.disk_partitions()] entries. *)
Record sdiskpart : Type :=
  { device : string; mountpoint : string; fstype : string }.

(** [psutil.disk_usage(path)] *)
Record sdiskusage : Type := { total : Z; used : Z; free : Z }.

(** An address of an interface; [family] is [str(address.family)]. *)
Record snicaddr : Type :=
  { family : string; address : string; netmask : option string }.

(** [psutil.net_if_stats()] entries. *)
Record snicstats : Type := { isup : bool; speed : Z }.

(** [subprocess.run(...)] with captured text output. *)
Record completed_process : Type := { returncode : Z; stdout : string }.

(** What one run observes of its host.  The host is a snapshot: a query made
    twice answers the same, so the partitions and usages the health check
    sees are those the disk collector saw.  A query the program guards with
    [try] is a [result]; a query it does not guard is taken to return (a run
    in which [psutil.cpu_freq()], say, raises is not described);
    [getloadavg] is [None] where [psutil] has no such attribute; the clock
    fields are the already formatted date-times. *)
Record Host : Type :=
  { platform_system : string;
    platform_node : string;
    platform_release : string;
    platform_version : string;
    platform_machine : string;
    platform_processor : string;
    platform_architecture : string;
    platform_python_version : string;
    cpu_count_physical : option Z;
    cpu_count_logical : option Z;
    cpu_freq : option scpufreq;
    cpu_percent : float;
    getloadavg : option float;
    virtual_memory : svmem;
    swap_memory : sswap;
    sensors_temperatures : result (dict (list shwtemp));
    disk_partitions : list sdiskpart;
    disk_usage : string -> result sdiskusage;
    net_if_addrs : dict (list snicaddr);
    net_if_stats : dict snicstats;
    run_wmic : result completed_process;
    read_file : string -> result string;
    now_strftime : string;
    uptime_str : string;
    boot_time_strftime : string }.

(* ===================================================================== *)
(** ** Probe collectors *)

Local Open Scope py_scope.

Definition get_system_info (h : Host) : dict string :=
  [ ("System", platform_system h);
    ("Node Name", platform_node h);
    ("Release", platform_release h);
    ("Version", platform_version h);
    ("Machine", platform_machine h);
    ("Processor", platform_processor h);
    ("Architecture", platform_architecture h);
    ("Python Version", platform_python_version h) ].

Definition scalar_of_count (c : option Z) : scalar :=
  match c with Some n => SInt n | None => SNone end.

Definition get_cpu_info (h : Host) : dict scalar :=
  [ ("Physical Cores", scalar_of_count (cpu_count_physical h));
    ("Total Cores", scalar_of_count (cpu_count_logical h));
    ("Max Frequency",
      match cpu_freq h with
      | Some f => SStr (format_fixed 2 (freq_max f) ++ " MHz")
      | None => SStr "N/A"
      end);
    ("Current Frequency",
      match cpu_freq h with
      | Some f => SStr (format_fixed 2 (freq_current f) ++ " MHz")
      | None => SStr "N/A"
      end);
    ("CPU Usage", SStr (format_fixed 1 (cpu_percent h) ++ "%"));
    ("Load Average (1min)",
      match getloadavg h with
      | Some l => SFloat l
      | None => SStr "N/A"
      end) ].

Definition get_memory_info (h : Host) : result (dict string) :=
  let memory := virtual_memory h in
  let swap := swap_memory h in
  total_ram <- py_truediv (vm_total memory) (1024 ^ 3) ;;
  available_ram <- py_truediv (vm_available memory) (1024 ^ 3) ;;
  total_swap <- py_truediv (sw_total swap) (1024 ^ 3) ;;
  Ok [ ("Total RAM", format_fixed 2 total_ram ++ " GB");
       ("Available RAM", format_fixed 2 available_ram ++ " GB");
       ("RAM Usage", format_fixed 1 (vm_percent memory) ++ "%");
       ("Total Swap", format_fixed 2 total_swap ++ " GB");
       ("Swap Usage", format_fixed 1 (sw_percent swap) ++ "%") ].

(** One formatted sensor reading, the dict [temp_data] of the source. *)
Record reading : Type :=
  { r_label : string; r_current : string; r_high : string; r_critical : string }.

Definition degrees : string := "°C".

Definition temp_data (entry : shwtemp) : reading :=
  {| r_label := if str_truthy (label entry) then label entry else "N/A";
     r_current := format_fixed 1 (current entry) ++ degrees;
     r_high :=
       match high entry with
       | Some x => if float_truthy x then format_fixed 1 x ++ degrees else "N/A"
       | None => "N/A"
       end;
     r_critical :=
       match critical entry with
       | Some x => if float_truthy x then format_fixed 1 x ++ degrees else "N/A"
       | None => "N/A"
       end |}.

(** The two shapes [get_temperature_info] returns: the one-entry mapping
    [{"Status": s}], or the mapping from group names to readings. *)
Inductive temp_report : Type :=
| TempStatus (s : string)
| TempGroups (d : dict (list reading)).

(** The loop over [temps.items()]: [temp_info[name] = []] followed by one
    [append] per entry. *)
Fixpoint collect_temps (temps : dict (list shwtemp)) (acc : dict (list reading))
  : dict (list reading) :=
  match temps with
  | [] => acc
  | (name, entries) :: temps' =>
      collect_temps temps' (dict_set name (map temp_data entries) acc)
  end.

Definition get_temperature_info (h : Host) : result temp_report :=
  try_except
    (temps <- sensors_temperatures h ;;
     let temp_info := collect_temps temps [] in
     Ok (if dict_truthy temp_info then TempGroups temp_info
         else TempStatus "No temperature sensors detected"))
    (fun _ => Ok (TempStatus "Temperature monitoring not available")).

Definition permission_denied : dict string := [("Status", "Permission denied")].

(** The body of the loop of [get_disk_info] for one partition. *)
Definition disk_entry (h : Host) (partition : sdiskpart) : result (dict string) :=
  try_except_if is_PermissionError
    (partition_usage <- disk_usage h (mountpoint partition) ;;
     total_gb <- py_truediv (total partition_usage) (1024 ^ 3) ;;
     used_gb <- py_truediv (used partition_usage) (1024 ^ 3) ;;
     free_gb <- py_truediv (free partition_usage) (1024 ^ 3) ;;
     ratio <- py_truediv (used partition_usage) (total partition_usage) ;;
     Ok [ ("Mountpoint", mountpoint partition);
          ("File System", fstype partition);
          ("Total Size", format_fixed 2 total_gb ++ " GB");
          ("Used", format_fixed 2 used_gb ++ " GB");
          ("Free", format_fixed 2 free_gb ++ " GB");
          ("Usage %", format_fixed 1 (py_mul ratio 100) ++ "%") ])
    (fun _ => Ok permission_denied).

Fixpoint disk_loop (h : Host) (partitions : list sdiskpart)
  (disk_info : dict (dict string)) : result (dict (dict string)) :=
  match partitions with
  | [] => Ok disk_info
  | partition :: rest =>
      entry <- disk_entry h partition ;;
      disk_loop h rest (dict_set (device partition) entry disk_info)
  end.

Definition get_disk_info (h : Host) : result (dict (dict string)) :=
  disk_loop h (disk_partitions h) [].

(** One collected address, the dict with keys [family], [address] and
    [netmask] of the source. *)
Record addr_info : Type :=
  { a_family : string; a_address : string; a_netmask : option string }.

(** The value stored per interface, the dict with keys [addresses], [is_up]
    and [speed] of the source. *)
Record iface_info : Type :=
  { addresses : list addr_info; is_up : bool; if_speed : string }.

Definition address_entry (a : snicaddr) : addr_info :=
  {| a_family := family a; a_address := address a; a_netmask := netmask a |}.

Definition iface_entry (stats : dict snicstats) (interface_name : string)
  (interface_addresses : list snicaddr) : iface_info :=
  {| addresses := map address_entry interface_addresses;
     is_up :=
       match dict_get interface_name stats with
       | Some st => isup st
       | None => false
       end;
     if_speed :=
       match dict_get interface_name stats with
       | Some st => if 0 <? speed st then str_of_Z (speed st) ++ " Mbps" else "N/A"
       | None => "N/A"
       end |}.

Fixpoint network_loop (stats : dict snicstats) (interfaces : dict (list snicaddr))
  (network_info : dict iface_info) : dict iface_info :=
  match interfaces with
  | [] => network_info
  | (interface_name, interface_addresses) :: rest =>
      network_loop stats rest
        (dict_set interface_name
           (iface_entry stats interface_name interface_addresses) network_info)
  end.

Definition get_network_info (h : Host) : dict iface_info :=
  network_loop (net_if_stats h) (net_if_addrs h) [].

(** The loop over the lines of the tool's output.  The dictionary being
    filled survives an exception, so the loop returns it together with the
    exception that ended it, if any. *)
Fixpoint bios_parse (lines : list string) (bios_info : dict string)
  : dict string * option exn :=
  match lines with
  | [] => (bios_info, None)
  | line :: rest =>
      if contains "=" line && str_truthy (strip line) then
        match split_once "=" line with
        | Some (key, value) =>
            if str_truthy (strip value)
            then bios_parse rest (dict_set key (strip value) bios_info)
            else bios_parse rest bios_info
        | None =>
            (bios_info,
             Some (mkExn ValueError
                     "not enough values to unpack (expected 2, got 1)"))
        end
      else bios_parse rest bios_info
  end.

(** [try: with open(path) as f: bios_info[key] = f.read().strip()]
    [except: pass] *)
Definition bios_read (h : Host) (path key : string) (bios_info : dict string)
  : dict string :=
  match read_file h path with
  | Ok text => dict_set key (strip text) bios_info
  | Raise _ => bios_info
  end.

(** The body of the outer [try] of [get_bios_info]. *)
Definition bios_body (h : Host) : dict string * option exn :=
  if String.eqb (platform_system h) "Windows" then
    match run_wmic h with
    | Raise e => ([], Some e)
    | Ok result =>
        if returncode result =? 0
        then bios_parse (split_char LF (stdout result)) []
        else ([], None)
    end
  else if String.eqb (platform_system h) "Linux" then
    let bios_info := bios_read h "/sys/class/dmi/id/bios_version" "BIOS Version" [] in
    let bios_info := bios_read h "/sys/class/dmi/id/board_name" "Board Name" bios_info in
    let bios_info := bios_read h "/sys/class/dmi/id/board_vendor" "Board Vendor" bios_info in
    (bios_info, None)
  else ([], None).

Definition bios_not_accessible : dict string :=
  [("Status", "BIOS information not accessible")].

Definition get_bios_info (h : Host) : result (dict string) :=
  let '(bios_info, exc) := bios_body h in
  let bios_info :=
    match exc with
    | Some e =>
        dict_set "Error" ("Could not retrieve BIOS info: " ++ exn_str e) bios_info
    | None => bios_info
    end in
  Ok (if dict_truthy bios_info then bios_info else bios_not_accessible).

(* ===================================================================== *)
(** ** Health evaluator *)

(** [(usage.used / usage.total) * 100] *)
Definition usage_percent (usage : sdiskusage) : result float :=
  ratio <- py_truediv (used usage) (total usage) ;;
  Ok (py_mul ratio 100).

Definition disk_warning_key (partition : sdiskpart) : string :=
  "disk_warning_" ++ device partition.

(** The body of the disk loop of [check_system_health] for one partition. *)
Definition health_disk_step (h : Host) (partition : sdiskpart)
  (health_status : dict string) : result (dict string) :=
  try_except_if is_PermissionError
    (usage <- disk_usage h (mountpoint partition) ;;
     pct <- usage_percent usage ;;
     if float_gt_Z pct 90
     then Ok (dict_set (disk_warning_key partition)
                ("Low disk space: " ++ format_fixed 1 pct ++ "% used")
                health_status)
     else Ok health_status)
    (fun _ => Ok health_status).

Fixpoint health_disk_loop (h : Host) (partitions : list sdiskpart)
  (health_status : dict string) : result (dict string) :=
  match partitions with
  | [] => Ok health_status
  | partition :: rest =>
      health_status' <- health_disk_step h partition health_status ;;
      health_disk_loop h rest health_status'
  end.

Definition health_base (h : Host) : dict string :=
  [ ("timestamp", now_strftime h);
    ("uptime", uptime_str h);
    ("boot_time", boot_time_strftime h) ].

Definition health_cpu (h : Host) (health_status : dict string) : dict string :=
  let cpu_usage := cpu_percent h in
  if float_gt_Z cpu_usage 80
  then dict_set "cpu_warning"
         ("High CPU usage: " ++ float_repr cpu_usage ++ "%") health_status
  else health_status.

Definition health_memory (h : Host) (health_status : dict string) : dict string :=
  let memory := virtual_memory h in
  if float_gt_Z (vm_percent memory) 85
  then dict_set "memory_warning"
         ("High memory usage: " ++ float_repr (vm_percent memory) ++ "%")
         health_status
  else health_status.

Definition check_system_health (h : Host) : result (dict string) :=
  health_disk_loop h (disk_partitions h)
    (health_memory h (health_cpu h (health_base h))).

(* ===================================================================== *)
(** ** Report renderer *)

(** A computation that prints: the texts passed to [print] so far, in order,
    and how it ended.  A text is kept as it was passed: the lines it makes
    on standard output are [stdout_lines] below, and what a stream that can
    refuse a text does with it is [on_stream]; here every text is taken. *)
Definition io (A : Type) : Type := list string * result A.

Definition io_bind {A B : Type} (c : io A) (k : A -> io B) : io B :=
  match c with
  | (out, Ok a) => let '(out', r) := k a in ((out ++ out')%list, r)
  | (out, Raise e) => (out, Raise e)
  end.

Definition print (s : string) : io unit := ([s], Ok tt).

Definition call {A : Type} (r : result A) : io A := ([], r).

Declare Scope io_scope.
Delimit Scope io_scope with io.
Notation "x <- c ;; k" := (io_bind c (fun x => k))
  (at level 61, c at next level, right associativity) : io_scope.
Notation "c ;; k" := (io_bind c (fun _ => k))
  (at level 61, right associativity) : io_scope.

Local Open Scope io_scope.

Fixpoint for_each {A : Type} (l : list A) (body : A -> io unit) : io unit :=
  match l with
  | [] => ([], Ok tt)
  | x :: l' => body x ;; for_each l' body
  end.

Definition banner : string := repeat_char "=" 60.
Definition rule : string := repeat_char "-" 30.

Definition headers : list string :=
  [ "SYSTEM INFORMATION:";
    "BIOS/MOTHERBOARD INFORMATION:";
    "CPU STATUS:";
    "MEMORY STATUS:";
    "TEMPERATURE SENSORS:";
    "DISK STATUS:";
    "NETWORK INTERFACES:";
    "SYSTEM HEALTH CHECK:" ].

(** [for key, value in d.items(): print(f"{key}: {value}")] *)
Definition print_items {V : Type} (str : V -> string) (d : dict V) : io unit :=
  for_each d (fun '(key, value) => print (key ++ ": " ++ str value)).

Definition render_system (h : Host) : io unit :=
  print "SYSTEM INFORMATION:" ;;
  print rule ;;
  print_items (fun s => s) (get_system_info h) ;;
  print EmptyString.

Definition render_bios (h : Host) : io unit :=
  print "BIOS/MOTHERBOARD INFORMATION:" ;;
  print rule ;;
  bios_info <- call (get_bios_info h) ;;
  print_items (fun s => s) bios_info ;;
  print EmptyString.

Definition render_cpu (h : Host) : io unit :=
  print "CPU STATUS:" ;;
  print rule ;;
  print_items py_str (get_cpu_info h) ;;
  print EmptyString.

Definition render_memory (h : Host) : io unit :=
  print "MEMORY STATUS:" ;;
  print rule ;;
  memory_info <- call (get_memory_info h) ;;
  print_items (fun s => s) memory_info ;;
  print EmptyString.

(** [repr] of one reading and of a list of readings, which [print] shows when
    a sensor group is itself called [Status]. *)
Definition reading_repr (r : reading) : string :=
  "{'label': " ++ str_repr (r_label r) ++
  ", 'current': " ++ str_repr (r_current r) ++
  ", 'high': " ++ str_repr (r_high r) ++
  ", 'critical': " ++ str_repr (r_critical r) ++ "}".

Definition readings_repr (l : list reading) : string :=
  "[" ++ join_comma (map reading_repr l) ++ "]".

Definition print_reading (r : reading) : io unit :=
  print ("  " ++ r_label r ++ ": " ++ r_current r ++
         " (High: " ++ r_high r ++ ", Critical: " ++ r_critical r ++ ")").

Definition print_temps (temp_info : temp_report) : io unit :=
  match temp_info with
  | TempStatus s => print s
  | TempGroups d =>
      match dict_get "Status" d with
      | Some readings => print (readings_repr readings)
      | None =>
          for_each d (fun '(sensor_name, readings) =>
            print (sensor_name ++ ":") ;;
            for_each readings print_reading)
      end
  end.

Definition render_temperature (h : Host) : io unit :=
  print "TEMPERATURE SENSORS:" ;;
  print rule ;;
  temp_info <- call (get_temperature_info h) ;;
  print_temps temp_info ;;
  print EmptyString.

Definition print_disks (disk_info : dict (dict string)) : io unit :=
  for_each disk_info (fun '(device, info) =>
    print (device ++ ":") ;;
    for_each info (fun '(key, value) => print ("  " ++ key ++ ": " ++ value)) ;;
    print EmptyString).

Definition render_disk (h : Host) : io unit :=
  print "DISK STATUS:" ;;
  print rule ;;
  disk_info <- call (get_disk_info h) ;;
  print_disks disk_info.

(** The lines of one interface; [info['addresses'][:2]] is [firstn 2]. *)
Definition print_interface (interface : string) (info : iface_info) : io unit :=
  print (interface ++ ":") ;;
  print ("  Status: " ++ (if is_up info then "UP" else "DOWN")) ;;
  print ("  Speed: " ++ if_speed info) ;;
  for_each (firstn 2 (addresses info)) (fun addr =>
    print ("  " ++ a_family addr ++ ": " ++ a_address addr)) ;;
  print EmptyString.

Definition print_network (network_info : dict iface_info) : io unit :=
  for_each network_info (fun '(interface, info) => print_interface interface info).

Definition render_network (h : Host) : io unit :=
  print "NETWORK INTERFACES:" ;;
  print rule ;;
  print_network (get_network_info h).

Definition warning_glyph : string := "⚠️".

Definition print_health_item (key value : string) : io unit :=
  if contains "warning" (lower key)
  then print (warning_glyph ++ "  " ++ title (replace_char "_" " " key) ++ ": " ++ value)
  else print (title (replace_char "_" " " key) ++ ": " ++ value).

Definition render_health (h : Host) : io unit :=
  print "SYSTEM HEALTH CHECK:" ;;
  print rule ;;
  health <- call (check_system_health h) ;;
  for_each health (fun '(key, value) => print_health_item key value) ;;
  print EmptyString.

Definition main (h : Host) : io unit :=
  print banner ;;
  print "MOTHERBOARD & SYSTEM STATUS CHECK" ;;
  print banner ;;
  print ("Scan Time: " ++ now_strftime h) ;;
  print EmptyString ;;
  render_system h ;;
  render_bios h ;;
  render_cpu h ;;
  render_memory h ;;
  render_temperature h ;;
  render_disk h ;;
  render_network h ;;
  render_health h ;;
  print banner ;;
  print "SCAN COMPLETE" ;;
  print banner.

(** The two [except] clauses of the [__main__] block. *)
Definition handler_lines (e : exn) : list string :=
  if is_ImportError e
  then [ "Missing required module: " ++ exn_str e;
         "Install with: pip install psutil" ]
  else [ "Error running system check: " ++ exn_str e;
         "Make sure you're running with appropriate permissions." ].

(** The [__main__] block: what the process writes to standard output. *)
Definition run (h : Host) : list string :=
  match main h with
  | (out, Ok _) => out
  | (out, Raise e) => app out (handler_lines e)
  end.


(* ===================================================================== *)
(** ** Predicates of the specification *)

Local Close Scope io_scope.
Local Close Scope py_scope.

(** *** Decimal renderings *)

Definition is_finite (x : float) : bool :=
  match x with
  | S754_zero _ | S754_finite _ _ _ => true
  | _ => false
  end.

(** [x] is zero or a finite value below [2^B] in magnitude. *)
Definition bounded_float (B : Z) (x : float) : Prop :=
  match x with
  | S754_zero _ => True
  | S754_finite _ m e => Zdigits2 (Z.pos m) + e <= B /\ e <= 971
  | _ => False
  end.

(** [N] is an integer nearest to [n / d], the even one on a tie. *)
Definition nearest_even (n d N : Z) : Prop :=
  2 * Z.abs (d * N - n) <= d /\
  (2 * Z.abs (d * N - n) = d -> Z.even N = true).

Definition is_digit (c : ascii) : bool :=
  let n := nat_of_ascii c in ((48 <=? n) && (n <=? 57))%nat.

Fixpoint all_digits (s : string) : bool :=
  match s with
  | EmptyString => true
  | String c s' => is_digit c && all_digits s'
  end.

Fixpoint digits_value_from (acc : Z) (s : string) : Z :=
  match s with
  | EmptyString => acc
  | String c s' => digits_value_from (10 * acc + (Z.of_nat (nat_of_ascii c) - 48)) s'
  end.

(** The number a string of decimal digits denotes. *)
Definition digits_value (s : string) : Z := digits_value_from 0 s.

(** Reading back [str(n)]. *)
Definition Z_of_str (s : string) : option Z :=
  option_map Z.of_int (NilZero.int_of_string s).

(** [s] shows the finite float [x] to [k] decimal places: a sign, the integer
    part, a point and exactly [k] digits, together the multiple of [10^-k]
    nearest to the magnitude of [x], ties to even. *)
Definition decimal_places (k : nat) (x : float) (s : string) : Prop :=
  exists (sg : bool) (n d N : Z) (frac : string),
    float_frac x = Some (sg, n, d) /\
    nearest_even (n * 10 ^ Z.of_nat k) d N /\
    s = sign_str sg ++ str_of_Z (N / 10 ^ Z.of_nat k) ++ "." ++ frac /\
    String.length frac = k /\
    all_digits frac = true /\
    digits_value frac = N mod 10 ^ Z.of_nat k.

(** The byte-to-gigabyte conversion: divide by [1024^3], two decimal places,
    the suffix [" GB"]. *)
Definition gb (bytes : Z) : result string :=
  bind (py_truediv bytes (1024 ^ 3)) (fun q => Ok (format_fixed 2 q ++ " GB")).

(** *** Hosts on which the collectors return *)

(** Pairwise distinct names. *)
Fixpoint distinct (l : list string) : bool :=
  match l with
  | [] => true
  | k :: l' => negb (existsb (String.eqb k) l') && distinct l'
  end.

(** A byte count whose quotients stay within the double range. *)
Definition in_range (x : Z) : bool := Z.abs x <? 2 ^ 1000.

(** A usage with a total that is not zero. *)
Definition usage_in_range (u : sdiskusage) : bool :=
  negb (total u =? 0) && in_range (total u) && in_range (used u) && in_range (free u).

(** The usage query of a partition returns such a usage, or raises a
    permission error. *)
Definition usage_okb (h : Host) (p : sdiskpart) : bool :=
  match disk_usage h (mountpoint p) with
  | Ok u => usage_in_range u
  | Raise e => is_PermissionError e
  end.

Definition disks_ok (h : Host) : bool := forallb (usage_okb h) (disk_partitions h).

Definition memory_ok (h : Host) : bool :=
  in_range (vm_total (virtual_memory h)) &&
  in_range (vm_available (virtual_memory h)) &&
  in_range (sw_total (swap_memory h)).

(** The usage query of a partition raises. *)
Definition usage_denied (h : Host) (p : sdiskpart) : bool :=
  match disk_usage h (mountpoint p) with Ok _ => false | Raise _ => true end.

(** The entry [get_disk_info] stores for a partition. *)
Definition entry_of (h : Host) (p : sdiskpart) : dict string :=
  match disk_entry h p with Ok e => e | Raise _ => [] end.

Definition is_permission_denied (entry : dict string) : bool :=
  match entry with
  | [(k, v)] => String.eqb k "Status" && String.eqb v "Permission denied"
  | _ => false
  end.

(** The usage of the partition is readable and its percentage, as computed,
    exceeds 90. *)
Definition exceeds_90 (h : Host) (p : sdiskpart) : Prop :=
  exists u pct,
    disk_usage h (mountpoint p) = Ok u /\
    usage_percent u = Ok pct /\ float_gt_Z pct 90 = true.

(** *** What a run writes *)

(** A printed line that is one of the eight section headers. *)
Definition is_header (s : string) : bool := existsb (String.eqb s) headers.

(** The header lines of an output, in the order written. *)
Definition header_lines (out : list string) : list string := filter is_header out.

(** A device, interface or sensor-group name whose line [name:] is not the
    text of a section header. *)
Definition free_name (n : string) : bool := negb (is_header (n ++ ":")).

Definition names_ok (h : Host) : bool :=
  forallb free_name (map device (disk_partitions h)) &&
  forallb free_name (dict_keys (net_if_addrs h)) &&
  match sensors_temperatures h with
  | Ok temps => forallb free_name (dict_keys temps)
  | Raise _ => true
  end.

(** The lines the renderer writes for one interface. *)
Definition interface_lines (interface : string) (info : iface_info) : list string :=
  [ interface ++ ":";
    "  Status: " ++ (if is_up info then "UP" else "DOWN");
    "  Speed: " ++ if_speed info ] ++
  map (fun addr => "  " ++ a_family addr ++ ": " ++ a_address addr)
      (firstn 2 (addresses info)) ++
  [ EmptyString ].

(** [c] returns, and the headers among the lines it writes are [hs]. *)
Definition writes {A : Type} (c : io A) (hs : list string) : Prop :=
  (exists a, snd c = Ok a) /\ header_lines (fst c) = hs.

(** [c] is left by the exception [e], the last lines written being [tail]. *)
Definition aborts_after {A : Type} (c : io A) (tail : list string) (e : exn) : Prop :=
  snd c = Raise e /\ exists pre, fst c = (pre ++ tail)%list.

(** *** Standard output as lines, and as a stream *)

(** The text holds no line feed. *)
Fixpoint single_line (s : string) : bool :=
  match s with
  | EmptyString => true
  | String c s' => negb (Ascii.eqb c LF) && single_line s'
  end.

(** The lines standard output shows for the texts passed to [print], each of
    which is written with a line feed after it: a text that holds line
    feeds is several lines. *)
Definition stdout_lines (out : list string) : list string :=
  flat_map (split_char LF) out.

(** Every character of the text is ASCII.  On such text the case, white
    space and [repr] functions of the model are those of Python. *)
Fixpoint is_ascii (s : string) : bool :=
  match s with
  | EmptyString => true
  | String c s' => (nat_of_ascii c <? 128)%nat && is_ascii s'
  end.

(** What the stream behind standard output does with one text passed to
    [print]: it takes the whole text, or raises and takes nothing of it (an
    encoding that cannot represent the text). *)
Definition stream : Type := string -> result unit.

(** Writing the texts in turn, up to the first the stream refuses. *)
Fixpoint write_all (w : stream) (out : list string) : list string * option exn :=
  match out with
  | [] => ([], None)
  | s :: rest =>
      match w s with
      | Ok _ => let '(written, stop) := write_all w rest in (s :: written, stop)
      | Raise e => ([], Some e)
      end
  end.

(** The computation [c] on the stream [w]: a [print] the stream refuses
    raises, and nothing after it is run. *)
Definition on_stream {A : Type} (w : stream) (c : io A) : io A :=
  match write_all w (fst c) with
  | (written, None) => (written, snd c)
  | (written, Some e) => (written, Raise e)
  end.

(** The [__main__] block on the stream [w]; an exception of a [print] of
    the handler leaves the block. *)
Definition run_on (w : stream) (h : Host) : list string :=
  match on_stream w (main h) with
  | (out, Ok _) => out
  | (out, Raise e) => app out (fst (write_all w (handler_lines e)))
  end.

(** The stream takes every text of the list. *)
Definition takes (w : stream) (out : list string) : Prop :=
  forall s, In s out -> w s = Ok tt.

(** Every text the host supplies to the report is a single line: the
    platform and clock strings, the content of the readable pseudo-files
    once stripped, the message of a failure of the tool, the names and
    labels of the sensors, the device, mount point and file system of the
    partitions, the names and addresses of the interfaces. *)
Definition single_line_host (h : Host) : bool :=
  forallb single_line
    [ platform_system h; platform_node h; platform_release h;
      platform_version h; platform_machine h; platform_processor h;
      platform_architecture h; platform_python_version h;
      now_strftime h; uptime_str h; boot_time_strftime h ] &&
  forallb (fun path =>
             match read_file h path with
             | Ok text => single_line (strip text)
             | Raise _ => true
             end)
    [ "/sys/class/dmi/id/bios_version"; "/sys/class/dmi/id/board_name";
      "/sys/class/dmi/id/board_vendor" ] &&
  match run_wmic h with
  | Ok _ => true
  | Raise e => single_line (exn_str e)
  end &&
  match sensors_temperatures h with
  | Ok temps =>
      forallb (fun group =>
                 single_line (fst group) &&
                 forallb (fun entry => single_line (label entry)) (snd group))
        temps
  | Raise _ => true
  end &&
  forallb (fun p => single_line (device p) && single_line (mountpoint p) &&
                    single_line (fstype p))
    (disk_partitions h) &&
  forallb (fun iface =>
             single_line (fst iface) &&
             forallb (fun a => single_line (family a) && single_line (address a))
               (snd iface))
    (net_if_addrs h).



(* ===================================================================== *)
(** ** The properties under verification *)

(** *** Health evaluator *)

(** What the warning entries of a returned health mapping [d] say. *)
Definition warnings_spec (h : Host) (d : dict string) : Prop :=
  (dict_mem "cpu_warning" d = true <-> float_gt_Z (cpu_percent h) 80 = true) /\
  (dict_mem "memory_warning" d = true <->
   float_gt_Z (vm_percent (virtual_memory h)) 85 = true) /\
  (forall dev,
     dict_mem ("disk_warning_" ++ dev) d = true <->
     exists p, In p (disk_partitions h) /\ device p = dev /\ exceeds_90 h p) /\
  (distinct (map device (disk_partitions h)) = true ->
   forall p, In p (disk_partitions h) ->
     (dict_mem (disk_warning_key p) d = true <-> exceeds_90 h p)).

(** The claim C1 as the specification words it, for a returned mapping [d]:
    the disk warning of every readable partition follows that partition's
    own percentage. *)
Definition health_claim (h : Host) (d : dict string) : Prop :=
  (dict_mem "cpu_warning" d = true <-> float_gt_Z (cpu_percent h) 80 = true) /\
  (dict_mem "memory_warning" d = true <->
   float_gt_Z (vm_percent (virtual_memory h)) 85 = true) /\
  (forall p u, In p (disk_partitions h) ->
     disk_usage h (mountpoint p) = Ok u ->
     (dict_mem (disk_warning_key p) d = true <-> exceeds_90 h p)).

(** *** Disk collector *)

(** The entry of a partition whose usage [u] was read. *)
Definition usage_entry_spec (p : sdiskpart) (u : sdiskusage) (entry : dict string)
  : Prop :=
  exists tot usd fre pct t,
    gb (total u) = Ok tot /\ gb (used u) = Ok usd /\ gb (free u) = Ok fre /\
    usage_percent u = Ok pct /\ decimal_places 1 pct t /\
    entry = [ ("Mountpoint", mountpoint p); ("File System", fstype p);
              ("Total Size", tot); ("Used", usd); ("Free", fre);
              ("Usage %", t ++ "%") ].

Definition count_denied_entries (d : dict (dict string)) : nat :=
  List.length (filter (fun kv => is_permission_denied (snd kv)) d).

Definition count_denied_partitions (h : Host) : nat :=
  List.length (filter (usage_denied h) (disk_partitions h)).

Definition disk_info_spec (h : Host) (d : dict (dict string)) : Prop :=
  dict_keys d = map device (disk_partitions h) /\
  List.length d = List.length (disk_partitions h) /\
  count_denied_entries d = count_denied_partitions h /\
  forall p, In p (disk_partitions h) ->
    match disk_usage h (mountpoint p) with
    | Raise _ => dict_get (device p) d = Some permission_denied
    | Ok u => exists entry, dict_get (device p) d = Some entry /\
                            usage_entry_spec p u entry
    end.

(** The claim C2 as the specification words it: one entry per partition. *)
Definition disk_claim (h : Host) (d : dict (dict string)) : Prop :=
  List.length d = List.length (disk_partitions h).

(** *** Labels *)




(** The pseudo-files the BIOS collector reads on Linux, with their labels. *)
Definition bios_files : list (string * string) :=
  [ ("/sys/class/dmi/id/bios_version", "BIOS Version");
    ("/sys/class/dmi/id/board_name", "Board Name");
    ("/sys/class/dmi/id/board_vendor", "Board Vendor") ].


Definition readable (h : Host) (path : string) : bool :=
  match read_file h path with Ok _ => true | Raise _ => false end.


(** *** Temperature collector *)

Definition no_sensors : temp_report := TempStatus "No temperature sensors detected".
Definition not_available : temp_report := TempStatus "Temperature monitoring not available".

Definition temperature_spec (h : Host) (t : temp_report) : Prop :=
  t <> TempGroups [] /\
  (sensors_temperatures h = Ok [] -> t = no_sensors) /\
  (forall e, sensors_temperatures h = Raise e -> t = not_available) /\
  (forall temps, sensors_temperatures h = Ok temps -> temps <> [] ->
                 exists d, t = TempGroups d).

(** A threshold the sensor does not report, or reports as zero. *)
Definition unreported (x : option float) : Prop :=
  x = None \/ exists v, x = Some v /\ float_truthy v = false.

(** How a threshold is shown. *)
Definition threshold_spec (x : option float) (shown : string) : Prop :=
  (shown = "N/A" <-> unreported x) /\
  (forall v, x = Some v -> float_truthy v = true ->
     shown = format_fixed 1 v ++ degrees /\
     (is_finite v = true -> decimal_places 1 v (format_fixed 1 v))).

Definition reading_spec (entry : shwtemp) (r : reading) : Prop :=
  (label entry = EmptyString -> r_label r = "N/A") /\
  (label entry <> EmptyString -> r_label r = label entry) /\
  r_current r = format_fixed 1 (current entry) ++ degrees /\
  (is_finite (current entry) = true ->
   decimal_places 1 (current entry) (format_fixed 1 (current entry))) /\
  threshold_spec (high entry) (r_high r) /\
  threshold_spec (critical entry) (r_critical r).

(** The claim C8 as the specification words it, for the high threshold. *)
Definition threshold_claim (entry : shwtemp) (r : reading) : Prop :=
  r_high r = "N/A" <-> high entry = None.

(** *** BIOS collector *)

Definition bios_spec (h : Host) (d : dict string) : Prop :=
  d <> [] /\
  (platform_system h <> "Windows" -> platform_system h <> "Linux" ->
   d = bios_not_accessible) /\
  (bios_body h = ([], None) -> d = bios_not_accessible) /\
  (forall e, snd (bios_body h) = Some e ->
     d = [("Error", "Could not retrieve BIOS info: " ++ exn_str e)]) /\
  (platform_system h = "Windows" -> forall e, run_wmic h = Raise e ->
     d = [("Error", "Could not retrieve BIOS info: " ++ exn_str e)]).

(** *** Gigabytes *)

Definition gb_spec (b : Z) : Prop :=
  exists q s, py_truediv b (1024 ^ 3) = Ok q /\ decimal_places 2 q s /\
              gb b = Ok (s ++ " GB").

(** The text for [b] bytes shows the exact quotient [b / 1024^3] to the
    nearest hundredth, ties to even. *)
Definition gb_exact_spec (b : Z) : Prop :=
  exists N frac,
    nearest_even (100 * b) (1024 ^ 3) N /\
    String.length frac = 2%nat /\
    all_digits frac = true /\
    digits_value frac = N mod 100 /\
    gb b = Ok (str_of_Z (N / 100) ++ "." ++ frac ++ " GB").

Definition memory_gb_spec (h : Host) : Prop :=
  exists d total_ram available_ram total_swap,
    get_memory_info h = Ok d /\
    gb (vm_total (virtual_memory h)) = Ok total_ram /\
    gb (vm_available (virtual_memory h)) = Ok available_ram /\
    gb (sw_total (swap_memory h)) = Ok total_swap /\
    dict_get "Total RAM" d = Some total_ram /\
    dict_get "Available RAM" d = Some available_ram /\
    dict_get "Total Swap" d = Some total_swap.

Definition disk_gb_spec (h : Host) (p : sdiskpart) (u : sdiskusage) : Prop :=
  exists entry tot usd fre,
    disk_entry h p = Ok entry /\
    gb (total u) = Ok tot /\ gb (used u) = Ok usd /\ gb (free u) = Ok fre /\
    dict_get "Total Size" entry = Some tot /\
    dict_get "Used" entry = Some usd /\
    dict_get "Free" entry = Some fre.

(** *** Network collector and its rendering *)



(** *** Errors of the usage query *)

Definition abort_spec (h : Host) (p : sdiskpart) (e : exn) : Prop :=
  disk_entry h p = Raise e /\
  (forall hs, health_disk_step h p hs = Raise e) /\
  get_disk_info h = Raise e /\
  check_system_health h = Raise e /\
  aborts_after (main h) ["DISK STATUS:"; rule] e /\
  (exists pre, run h = (pre ++ ["DISK STATUS:"; rule] ++ handler_lines e)%list) /\
  (forall q e', disk_usage h (mountpoint q) = Raise e' ->
     is_PermissionError e' = true ->
     disk_entry h q = Ok permission_denied /\
     forall hs, health_disk_step h q hs = Ok hs).

(** *** Labels of every collector *)

(** The value the tool's answer gives a key: that of the last line
    [key=raw] whose [raw] is not blank, stripped. *)
Fixpoint last_value (lines : list string) (key : string) : option string :=
  match lines with
  | [] => None
  | line :: rest =>
      match last_value rest key with
      | Some v => Some v
      | None =>
          match split_once "=" line with
          | Some (k, raw) =>
              if String.eqb key k && str_truthy (strip raw)
              then Some (strip raw) else None
          | None => None
          end
      end
  end.

Definition wmic_value (out key : string) : option string :=
  last_value (split_char LF out) key.










(** The claim C7 as the specification words it: every run writes the eight
    headers. *)
Definition headers_claim (h : Host) : Prop :=
  header_lines (stdout_lines (run h)) = headers.

(* ===================================================================== *)
(** ** Sample hosts *)

(** [n / 10] as a double. *)
Definition tenths (n : Z) : float :=
  SFdiv prec emax (float_of_Z n) (float_of_Z 10).

Definition GiB : Z := 1024 ^ 3.

Definition root_partition : sdiskpart :=
  {| device := "/dev/sda1"; mountpoint := "/"; fstype := "ext4" |}.

Definition backup_partition : sdiskpart :=
  {| device := "/dev/sdb1"; mountpoint := "/mnt/backup"; fstype := "ext4" |}.

(** A second mount of the root device. *)
Definition data_partition : sdiskpart :=
  {| device := "/dev/sda1"; mountpoint := "/srv/data"; fstype := "ext4" |}.

Definition cpu_sensor : shwtemp :=
  {| label := "Package id 0"; current := tenths 455;
     high := Some (tenths 800); critical := Some (tenths 1000) |}.

(** A sensor without a label whose high threshold reads zero. *)
Definition board_sensor : shwtemp :=
  {| label := EmptyString; current := tenths 278;
     high := Some (S754_zero false); critical := None |}.

Definition loopback : list snicaddr :=
  [ {| family := "AddressFamily.AF_INET"; address := "127.0.0.1";
       netmask := Some "255.0.0.0" |};
    {| family := "AddressFamily.AF_INET6"; address := "::1";
       netmask := Some "ffff:ffff:ffff:ffff:ffff:ffff:ffff:ffff" |};
    {| family := "AddressFamily.AF_PACKET"; address := "00:00:00:00:00:00";
       netmask := None |} ].

Definition ethernet : list snicaddr :=
  [ {| family := "AddressFamily.AF_INET"; address := "192.168.1.20";
       netmask := Some "255.255.255.0" |} ].

(** A Linux host: CPU at 10%, memory at 90%, the root partition 95% full, a
    backup partition that may not be read, and of the three DMI files only
    the board name readable. *)
Definition host_linux : Host :=
  {| platform_system := "Linux";
     platform_node := "build-01";
     platform_release := "6.1.0-18-amd64";
     platform_version := "#1 SMP PREEMPT_DYNAMIC";
     platform_machine := "x86_64";
     platform_processor := EmptyString;
     platform_architecture := "64bit";
     platform_python_version := "3.11.2";
     cpu_count_physical := Some 4;
     cpu_count_logical := Some 8;
     cpu_freq := None;
     cpu_percent := tenths 100;
     getloadavg := Some (tenths 5);
     virtual_memory :=
       {| vm_total := 16 * GiB; vm_available := 1073741824;
          vm_percent := tenths 900 |};
     swap_memory := {| sw_total := 0; sw_percent := S754_zero false |};
     sensors_temperatures :=
       Ok [ ("coretemp", [cpu_sensor]); ("acpitz", [board_sensor]) ];
     disk_partitions := [ root_partition; backup_partition ];
     disk_usage := fun path =>
       if String.eqb path "/"
       then Ok {| total := 100 * GiB; used := 95 * GiB; free := 5 * GiB |}
       else Raise (mkExn PermissionError "[Errno 13] Permission denied");
     net_if_addrs := [ ("lo", loopback); ("eth0", ethernet); ("tun0", []) ];
     net_if_stats :=
       [ ("lo", {| isup := true; speed := 0 |});
         ("eth0", {| isup := true; speed := 1000 |}) ];
     run_wmic := Raise (mkExn FileNotFoundError "[Errno 2] No such file: wmic");
     read_file := fun path =>
       if String.eqb path "/sys/class/dmi/id/board_name"
       then Ok ("PRIME X570-P" ++ String LF EmptyString)
       else Raise (mkExn PermissionError "[Errno 13] Permission denied");
     now_strftime := "2024-03-01 12:00:00";
     uptime_str := "1 day, 2:03:04.000005";
     boot_time_strftime := "2024-02-29 09:56:55" |}.

(** The same host with other partitions and usage answers. *)
Definition with_disks (h : Host) (partitions : list sdiskpart)
  (usage : string -> result sdiskusage) : Host :=
  {| platform_system := platform_system h;
     platform_node := platform_node h;
     platform_release := platform_release h;
     platform_version := platform_version h;
     platform_machine := platform_machine h;
     platform_processor := platform_processor h;
     platform_architecture := platform_architecture h;
     platform_python_version := platform_python_version h;
     cpu_count_physical := cpu_count_physical h;
     cpu_count_logical := cpu_count_logical h;
     cpu_freq := cpu_freq h;
     cpu_percent := cpu_percent h;
     getloadavg := getloadavg h;
     virtual_memory := virtual_memory h;
     swap_memory := swap_memory h;
     sensors_temperatures := sensors_temperatures h;
     disk_partitions := partitions;
     disk_usage := usage;
     net_if_addrs := net_if_addrs h;
     net_if_stats := net_if_stats h;
     run_wmic := run_wmic h;
     read_file := read_file h;
     now_strftime := now_strftime h;
     uptime_str := uptime_str h;
     boot_time_strftime := boot_time_strftime h |}.

Definition data_usage : sdiskusage :=
  {| total := 100 * GiB; used := 50 * GiB; free := 50 * GiB |}.

(** One device mounted twice: the root mount 95% full, the data mount half
    full. *)
Definition host_shared_device : Host :=
  with_disks host_linux [ root_partition; data_partition ]
    (fun path =>
       if String.eqb path "/"
       then Ok {| total := 100 * GiB; used := 95 * GiB; free := 5 * GiB |}
       else Ok data_usage).

Definition vanished : exn :=
  mkExn FileNotFoundError "[Errno 2] No such file or directory: '/mnt/backup'".

(** The backup mount has vanished between the listing and the usage query. *)
Definition host_vanished_mount : Host :=
  with_disks host_linux [ root_partition; backup_partition ]
    (fun path =>
       if String.eqb path "/"
       then Ok {| total := 100 * GiB; used := 95 * GiB; free := 5 * GiB |}
       else Raise vanished).

(** A partition whose device name is the text of a header. *)
Definition odd_partition : sdiskpart :=
  {| device := "DISK STATUS"; mountpoint := "/mnt/odd"; fstype := "vfat" |}.

Definition host_odd_device : Host :=
  with_disks host_linux [ odd_partition ] (fun _ => Ok data_usage).

(** A stream that takes every text, as a UTF-8 terminal does. *)
Definition utf8_stream : stream := fun _ => Ok tt.

(** A stream of an ASCII encoding: it refuses a text with any other
    character. *)
Definition ascii_stream : stream :=
  fun s =>
    if is_ascii s then Ok tt
    else Raise (mkExn UnicodeEncodeError
                  "'ascii' codec can't encode characters: ordinal not in range(128)").


(* ===================================================================== *)
(** ** Further properties of the code *)

(** *** Partitions and devices *)

(** The last partition of the list mounted from [dev]. *)
Fixpoint last_with (dev : string) (ps : list sdiskpart) : option sdiskpart :=
  match ps with
  | [] => None
  | p :: rest =>
      match last_with dev rest with
      | Some q => Some q
      | None => if String.eqb dev (device p) then Some p else None
      end
  end.

(** The usage of the partition is readable and its computed percentage
    exceeds 90, as a test. *)
Definition exceeds_90b (h : Host) (p : sdiskpart) : bool :=
  match disk_usage h (mountpoint p) with
  | Ok u =>
      match usage_percent u with
      | Ok pct => float_gt_Z pct 90
      | Raise _ => false
      end
  | Raise _ => false
  end.

(** The text of the disk warning of a partition. *)
Definition disk_warning_text (h : Host) (p : sdiskpart) : string :=
  match disk_usage h (mountpoint p) with
  | Ok u =>
      match usage_percent u with
      | Ok pct => "Low disk space: " ++ format_fixed 1 pct ++ "% used"
      | Raise _ => EmptyString
      end
  | Raise _ => EmptyString
  end.

(** The warning the disk loop leaves under [key]: that of the last partition
    with this key whose usage exceeds 90. *)
Fixpoint last_warning (h : Host) (ps : list sdiskpart) (key : string)
  : option string :=
  match ps with
  | [] => None
  | p :: rest =>
      match last_warning h rest key with
      | Some m => Some m
      | None =>
          if String.eqb key (disk_warning_key p) && exceeds_90b h p
          then Some (disk_warning_text h p) else None
      end
  end.

(** No threshold of the health evaluator is exceeded. *)
Definition healthy (h : Host) : bool :=
  negb (float_gt_Z (cpu_percent h) 80) &&
  negb (float_gt_Z (vm_percent (virtual_memory h)) 85) &&
  forallb (fun p => negb (exceeds_90b h p)) (disk_partitions h).

(** A key the evaluator adds for a tripped threshold. *)
Definition warning_key (k : string) : Prop :=
  k = "cpu_warning" \/ k = "memory_warning" \/
  exists dev, k = "disk_warning_" ++ dev.

(** The entries after the three base entries are warnings. *)
Definition base_then_warnings (h : Host) (d : dict string) : Prop :=
  exists rest, d = (health_base h ++ rest)%list /\
               Forall (fun kv => warning_key (fst kv)) rest.

(** The line the renderer writes for a warning entry. *)
Definition flagged_line (kv : string * string) : string :=
  warning_glyph ++ "  " ++ title (replace_char "_" " " (fst kv)) ++ ": " ++ snd kv.

(** *** Whole runs *)



(** Every line [c] writes passes the test [P], however [c] ends. *)
Definition all_lines {A : Type} (P : string -> bool) (c : io A) : Prop :=
  forallb P (fst c) = true.


(** The keys and the values of the mapping are single lines. *)
Definition single_line_entries (d : dict string) : Prop :=
  Forall (fun kv => single_line (fst kv) = true /\ single_line (snd kv) = true) d.

(** *** BIOS output of the tool *)

(** Some character of the string is not white space. *)
Fixpoint has_nonspace (s : string) : bool :=
  match s with
  | EmptyString => false
  | String c s' => negb (is_space c) || has_nonspace s'
  end.

(** The entries of the pseudo-files that can be read, in the order they are
    read. *)
Definition dmi_entries (h : Host) : dict string :=
  flat_map (fun '(path, l) =>
              match read_file h path with
              | Ok text => [(l, strip text)]
              | Raise _ => []
              end) bios_files.

(** *** Sections of the report *)

(** The line of one sensor reading. *)
Definition reading_line (r : reading) : string :=
  "  " ++ r_label r ++ ": " ++ r_current r ++
  " (High: " ++ r_high r ++ ", Critical: " ++ r_critical r ++ ")".

(** The lines of one sensor group. *)
Definition group_block (group : string * list shwtemp) : list string :=
  (fst group ++ ":") :: map (fun entry => reading_line (temp_data entry)) (snd group).

(** The lines of one partition. *)
Definition disk_block (h : Host) (p : sdiskpart) : list string :=
  (device p ++ ":") ::
  app (map (fun kv => "  " ++ fst kv ++ ": " ++ snd kv) (entry_of h p))
      [EmptyString].

(** The lines of one interface. *)
Definition interface_block (h : Host) (iface : string * list snicaddr)
  : list string :=
  interface_lines (fst iface) (iface_entry (net_if_stats h) (fst iface) (snd iface)).

Definition overflow : exn :=
  mkExn OverflowError "integer division result too large for a float".

(** *** Sample hosts *)

(** A Windows host whose tool answers three lines, one with a blank value. *)
Definition wmic_answer : string :=
  "Name=ACME BIOS " ++ String (ascii_of_nat 13) (String LF EmptyString) ++
  "SerialNumber=   " ++ String LF EmptyString ++
  "Version=ACME - 1072009" ++ String LF EmptyString.

Definition host_windows : Host :=
  {| platform_system := "Windows";
     platform_node := "desk-07";
     platform_release := "10";
     platform_version := "10.0.19045";
     platform_machine := "AMD64";
     platform_processor := "Intel64 Family 6";
     platform_architecture := "64bit";
     platform_python_version := "3.12.1";
     cpu_count_physical := None;
     cpu_count_logical := Some 8;
     cpu_freq :=
       Some {| freq_current := float_of_Z 2400; freq_min := S754_zero false;
               freq_max := tenths 36005 |};
     cpu_percent := tenths 35;
     getloadavg := None;
     virtual_memory :=
       {| vm_total := 8 * GiB; vm_available := 6 * GiB; vm_percent := tenths 250 |};
     swap_memory := {| sw_total := 2 * GiB; sw_percent := tenths 10 |};
     sensors_temperatures :=
       Raise (mkExn AttributeError
                "module 'psutil' has no attribute 'sensors_temperatures'");
     disk_partitions :=
       [ {| device := "C:\"; mountpoint := "C:\"; fstype := "NTFS" |} ];
     disk_usage := fun _ =>
       Ok {| total := 500 * GiB; used := 200 * GiB; free := 300 * GiB |};
     net_if_addrs := [ ("Ethernet", ethernet) ];
     net_if_stats :=
       [ ("Ethernet", {| isup := true; speed := 1000 |});
         ("Loopback Pseudo-Interface 1", {| isup := true; speed := 1073 |}) ];
     run_wmic := Ok {| returncode := 0; stdout := wmic_answer |};
     read_file := fun _ => Raise (mkExn FileNotFoundError "[Errno 2]");
     now_strftime := "2024-03-01 12:00:00";
     uptime_str := "3:00:00";
     boot_time_strftime := "2024-03-01 09:00:00" |}.

Definition empty_partition : sdiskpart :=
  {| device := "/dev/sr0"; mountpoint := "/media/cdrom"; fstype := "iso9660" |}.

(** A mounted partition that reports a size of zero bytes. *)
Definition host_zero_total : Host :=
  with_disks host_linux [ root_partition; empty_partition ]
    (fun path =>
       if String.eqb path "/"
       then Ok {| total := 100 * GiB; used := 95 * GiB; free := 5 * GiB |}
       else Ok {| total := 0; used := 0; free := 0 |}).

(** A host with one sensor group that is called [Status]. *)
Definition status_sensors : dict (list shwtemp) :=
  [ ("coretemp", [cpu_sensor]); ("Status", [board_sensor]) ].

Definition with_sensors (h : Host) (sensors : result (dict (list shwtemp))) : Host :=
  {| platform_system := platform_system h;
     platform_node := platform_node h;
     platform_release := platform_release h;
     platform_version := platform_version h;
     platform_machine := platform_machine h;
     platform_processor := platform_processor h;
     platform_architecture := platform_architecture h;
     platform_python_version := platform_python_version h;
     cpu_count_physical := cpu_count_physical h;
     cpu_count_logical := cpu_count_logical h;
     cpu_freq := cpu_freq h;
     cpu_percent := cpu_percent h;
     getloadavg := getloadavg h;
     virtual_memory := virtual_memory h;
     swap_memory := swap_memory h;
     sensors_temperatures := sensors;
     disk_partitions := disk_partitions h;
     disk_usage := disk_usage h;
     net_if_addrs := net_if_addrs h;
     net_if_stats := net_if_stats h;
     run_wmic := run_wmic h;
     read_file := read_file h;
     now_strftime := now_strftime h;
     uptime_str := uptime_str h;
     boot_time_strftime := boot_time_strftime h |}.

Definition host_status_group : Host := with_sensors host_linux (Ok status_sensors).

Definition with_memory (h : Host) (memory : svmem) : Host :=
  {| platform_system := platform_system h;
     platform_node := platform_node h;
     platform_release := platform_release h;
     platform_version := platform_version h;
     platform_machine := platform_machine h;
     platform_processor := platform_processor h;
     platform_architecture := platform_architecture h;
     platform_python_version := platform_python_version h;
     cpu_count_physical := cpu_count_physical h;
     cpu_count_logical := cpu_count_logical h;
     cpu_freq := cpu_freq h;
     cpu_percent := cpu_percent h;
     getloadavg := getloadavg h;
     virtual_memory := memory;
     swap_memory := swap_memory h;
     sensors_temperatures := sensors_temperatures h;
     disk_partitions := disk_partitions h;
     disk_usage := disk_usage h;
     net_if_addrs := net_if_addrs h;
     net_if_stats := net_if_stats h;
     run_wmic := run_wmic h;
     read_file := read_file h;
     now_strftime := now_strftime h;
     uptime_str := uptime_str h;
     boot_time_strftime := boot_time_strftime h |}.

(** A host that reports more memory than a float can hold in gigabytes. *)
Definition host_huge_memory : Host :=
  with_memory host_linux
    {| vm_total := 2 ^ 1060; vm_available := 8 * GiB; vm_percent := tenths 500 |}.

(** A partition whose mount point holds a line feed followed by the text of
    a header. *)
Definition line_feed_partition : sdiskpart :=
  {| device := "/dev/sdc1";
     mountpoint := "/mnt/a" ++ String LF "CPU STATUS:";
     fstype := "ext4" |}.

Definition host_line_feed : Host :=
  with_disks host_linux [ line_feed_partition ] (fun _ => Ok data_usage).


(* ===================================================================== *)
(** ** Floats: integer division stays finite *)

Lemma digits2_pos_size (p : positive) : digits2_pos p = Pos.size p.
Proof. induction p; simpl; congruence. Qed.

Lemma Zdigits2_log2 (m : Z) : 0 < m -> Zdigits2 m = Z.log2 m + 1.
Proof.
  destruct m as [|p|p]; try lia. intros _. simpl.
  rewrite digits2_pos_size.
  destruct p; simpl; lia.
Qed.

Lemma shr_1_m (mrs : shr_record) :
  0 <= shr_m mrs -> shr_m (shr_1 mrs) = shr_m mrs / 2.
Proof.
  destruct mrs as [m r s]; simpl. intros Hm.
  destruct m as [|p|p]; try lia; [reflexivity|].
  destruct p; simpl.
  - rewrite Pos2Z.inj_xI. apply Z.div_unique with (r := 1); lia.
  - rewrite Pos2Z.inj_xO. apply Z.div_unique with (r := 0); lia.
  - reflexivity.
Qed.

Lemma iter_pos_shr_1 (p : positive) : forall mrs,
  0 <= shr_m mrs ->
  shr_m (iter_pos shr_1 p mrs) = shr_m mrs / 2 ^ Zpos p.
Proof.
  induction p as [p IH|p IH|]; intros mrs Hm; simpl iter_pos.
  - assert (H1 : 0 <= shr_m (shr_1 mrs)).
    { rewrite shr_1_m by assumption. apply Z.div_pos; lia. }
    assert (H2 : 0 <= shr_m (iter_pos shr_1 p (shr_1 mrs))).
    { rewrite IH by assumption. apply Z.div_pos; [assumption|]. apply Z.pow_pos_nonneg; lia. }
    rewrite IH, IH, shr_1_m by assumption.
    rewrite !Z.div_div by (try apply Z.pow_pos_nonneg; lia).
    f_equal. replace (Z.pos p~1) with (1 + Z.pos p + Z.pos p) by lia.
    rewrite !Z.pow_add_r by lia. rewrite Z.pow_1_r. ring.
  - assert (H2 : 0 <= shr_m (iter_pos shr_1 p mrs)).
    { rewrite IH by assumption. apply Z.div_pos; [assumption|]. apply Z.pow_pos_nonneg; lia. }
    rewrite IH, IH by assumption.
    rewrite !Z.div_div by (try apply Z.pow_pos_nonneg; lia).
    f_equal. replace (Z.pos p~0) with (Z.pos p + Z.pos p) by lia.
    rewrite Z.pow_add_r by lia. reflexivity.
  - rewrite shr_1_m by assumption. reflexivity.
Qed.

Lemma shr_fexp_snd (m e : Z) (l : location) :
  snd (shr_fexp prec emax m e l) = Z.max e (fexp prec emax (Zdigits2 m + e)).
Proof.
  unfold shr_fexp, shr.
  destruct (fexp prec emax (Zdigits2 m + e) - e) eqn:E; simpl; lia.
Qed.

Lemma shr_record_of_loc_m (m : Z) (l : location) :
  shr_m (shr_record_of_loc m l) = m.
Proof. destruct l as [|[| |]]; reflexivity. Qed.

Lemma shr_fexp_fst (m e : Z) (l : location) :
  0 <= m ->
  shr_m (fst (shr_fexp prec emax m e l)) =
  m / 2 ^ (Z.max e (fexp prec emax (Zdigits2 m + e)) - e).
Proof.
  intros Hm. unfold shr_fexp, shr.
  destruct (fexp prec emax (Zdigits2 m + e) - e) eqn:E; simpl fst.
  - rewrite shr_record_of_loc_m. replace (Z.max _ _ - e) with 0 by lia.
    rewrite Z.pow_0_r, Z.div_1_r. reflexivity.
  - rewrite iter_pos_shr_1 by (rewrite shr_record_of_loc_m; assumption).
    rewrite shr_record_of_loc_m. f_equal. f_equal. lia.
  - rewrite shr_record_of_loc_m. replace (Z.max _ _ - e) with 0 by lia.
    rewrite Z.pow_0_r, Z.div_1_r. reflexivity.
Qed.

Lemma round_nearest_even_bounds (m : Z) (l : location) :
  m <= round_nearest_even m l <= m + 1.
Proof.
  unfold round_nearest_even.
  destruct l as [|[| |]]; try destruct (Z.even m); lia.
Qed.

Lemma Zdigits2_nonneg (m : Z) : 0 <= Zdigits2 m.
Proof. destruct m; simpl; lia. Qed.

Lemma Zdigits2_le (m k : Z) : 0 <= m -> 0 <= k -> m < 2 ^ k -> Zdigits2 m <= k.
Proof.
  intros Hm Hk Hlt. destruct (Z.eq_dec m 0) as [->|Hne]; [simpl; lia|].
  rewrite Zdigits2_log2 by lia.
  assert (Z.log2 m < k) by (apply Z.log2_lt_pow2; lia). lia.
Qed.

Lemma Zdigits2_bound (m : Z) : 0 <= m -> m < 2 ^ Zdigits2 m.
Proof.
  intros Hm. destruct (Z.eq_dec m 0) as [->|Hne]; [simpl; lia|].
  rewrite Zdigits2_log2 by lia.
  apply (proj2 (Z.log2_spec m ltac:(lia))).
Qed.

Lemma bounded_float_finite (B : Z) (x : float) :
  bounded_float B x -> is_finite x = true.
Proof. destruct x; simpl; intros H; try contradiction; reflexivity. Qed.

(** Rounding a value below [2^B] gives a float below [2^(B+1)]. *)
Lemma binary_round_aux_bounded (B : Z) (sx : bool) (mx ex : Z) (lx : location) :
  -1074 <= B <= 1023 ->
  0 <= mx -> Zdigits2 mx + ex <= B -> ex <= 971 ->
  bounded_float (B + 1) (binary_round_aux prec emax sx mx ex lx).
Proof.
  intros HB Hm Hd He. unfold binary_round_aux.
  pose proof (shr_fexp_snd mx ex lx) as S1.
  pose proof (shr_fexp_fst mx ex lx Hm) as F1.
  destruct (shr_fexp prec emax mx ex lx) as [mrs' e'] eqn:E1. simpl in S1, F1.
  set (m1 := round_nearest_even (shr_m mrs') (loc_of_shr_record mrs')).
  assert (Hm' : 0 <= shr_m mrs').
  { rewrite F1. apply Z.div_pos; [assumption|]. apply Z.pow_pos_nonneg; lia. }
  pose proof (round_nearest_even_bounds (shr_m mrs') (loc_of_shr_record mrs')) as Bd.
  fold m1 in Bd.
  assert (Hm1 : 0 <= m1) by lia.
  pose proof (shr_fexp_snd m1 e' loc_Exact) as S2.
  pose proof (shr_fexp_fst m1 e' loc_Exact Hm1) as F2.
  destruct (shr_fexp prec emax m1 e' loc_Exact) as [mrs'' e''] eqn:E2.
  simpl in S2, F2.
  pose proof (Zdigits2_nonneg mx) as Hn.
  assert (He' : e' <= 971 /\ e' <= B /\ ex <= e').
  { rewrite S1. unfold fexp, emin, prec, emax. lia. }
  assert (Hle : m1 <= 2 ^ (B - e')).
  { pose proof (Zdigits2_bound mx Hm) as Hb.
    assert (Hp : 2 ^ Zdigits2 mx <= 2 ^ (B - ex))
      by (apply Z.pow_le_mono_r; lia).
    assert (Hs : 2 ^ (B - ex) = 2 ^ (e' - ex) * 2 ^ (B - e')).
    { rewrite <- Z.pow_add_r by lia. f_equal. lia. }
    assert (Hq : shr_m mrs' < 2 ^ (B - e')).
    { rewrite F1, <- S1. apply Z.div_lt_upper_bound.
      - apply Z.pow_pos_nonneg; lia.
      - lia. }
    lia. }
  assert (Hdig : Zdigits2 m1 + e' <= B + 1).
  { assert (Hlt : m1 < 2 ^ (B + 1 - e')).
    { replace (B + 1 - e') with (Z.succ (B - e')) by lia.
      rewrite Z.pow_succ_r by lia.
      assert (0 < 2 ^ (B - e')) by (apply Z.pow_pos_nonneg; lia). lia. }
    assert (Zdigits2 m1 <= B + 1 - e') by (apply Zdigits2_le; lia). lia. }
  assert (He'' : e'' <= 971 /\ e'' <= B /\ e' <= e'').
  { rewrite S2. unfold fexp, emin, prec, emax. lia. }
  assert (Hout : 0 <= shr_m mrs'' <= 2 ^ (B - e'')).
  { rewrite F2, <- S2. split.
    - apply Z.div_pos; [assumption|]. apply Z.pow_pos_nonneg; lia.
    - assert (Hs : 2 ^ (B - e') = 2 ^ (B - e'') * 2 ^ (e'' - e')).
      { rewrite <- Z.pow_add_r by lia. f_equal. lia. }
      rewrite Hs in Hle.
      apply Z.div_le_upper_bound; [apply Z.pow_pos_nonneg; lia|]. lia. }
  destruct (shr_m mrs'') as [|p|p] eqn:Em; [exact I| |lia].
  unfold emax, prec. destruct (e'' <=? 1024 - 53) eqn:L;
    [|apply Z.leb_gt in L; lia].
  unfold bounded_float. split; [|lia].
  assert (Hlt : Z.pos p < 2 ^ (B + 1 - e'')).
  { replace (B + 1 - e'') with (Z.succ (B - e'')) by lia.
    rewrite Z.pow_succ_r by lia.
    assert (0 < 2 ^ (B - e'')) by (apply Z.pow_pos_nonneg; lia). lia. }
  assert (Hfin : Zdigits2 (Z.pos p) <= B + 1 - e'') by (apply Zdigits2_le; lia).
  lia.
Qed.

Lemma SFdiv_core_bounds (pa pb : positive) (mz ez : Z) (lz : location) :
  Z.pos pa < 2 ^ 1000 ->
  SFdiv_core_binary prec emax (Z.pos pa) 0 (Z.pos pb) 0 = (mz, ez, lz) ->
  0 <= mz /\ Zdigits2 mz + ez <= 1000 /\ ez <= 971.
Proof.
  intros Hd1 E. unfold SFdiv_core_binary in E.
  set (d1 := Zdigits2 (Z.pos pa)) in *.
  set (d2 := Zdigits2 (Z.pos pb)) in *.
  set (e' := Z.min (fexp prec emax (d1 + 0 - (d2 + 0))) (0 - 0)) in *.
  set (s := 0 - 0 - e') in *.
  set (m' := match s with
             | Z.pos _ => Z.shiftl (Z.pos pa) s
             | Z0 => Z.pos pa
             | Z.neg _ => 0
             end) in *.
  assert (He' : e' <= 0) by (unfold e'; lia).
  assert (Hs : 0 <= s) by (unfold s; lia).
  assert (Hm' : m' = Z.pos pa * 2 ^ s).
  { unfold m'. generalize s Hs. intros [|ps|ps] Hps; try lia.
    rewrite Z.shiftl_mul_pow2 by lia. reflexivity. }
  pose proof (Z_div_mod m' (Z.pos pb) ltac:(lia)) as DM.
  destruct (Z.div_eucl m' (Z.pos pb)) as [q r] eqn:Ed.
  inversion E; subst mz ez lz; clear E.
  assert (Hp : 0 < 2 ^ s) by (apply Z.pow_pos_nonneg; lia).
  assert (Hq0 : 0 <= q) by nia.
  assert (Hqm : q <= m') by nia.
  assert (Hlt : q < 2 ^ (1000 - e')).
  { replace (1000 - e') with (1000 + s) by (unfold s; lia).
    rewrite Z.pow_add_r by lia. nia. }
  assert (Zdigits2 q <= 1000 - e') by (apply Zdigits2_le; lia).
  lia.
Qed.

Lemma SFdiv_exact_bounded (sx sy : bool) (pa pb : positive) :
  Z.pos pa < 2 ^ 1000 ->
  bounded_float 1001
    (SFdiv prec emax (S754_finite sx pa 0) (S754_finite sy pb 0)).
Proof.
  intros Ha. unfold SFdiv.
  destruct (SFdiv_core_binary prec emax (Z.pos pa) 0 (Z.pos pb) 0)
    as [[mz ez] lz] eqn:E.
  destruct (SFdiv_core_bounds pa pb mz ez lz Ha E) as (H1 & H2 & H3).
  apply (binary_round_aux_bounded 1000); try assumption. lia.
Qed.

(** Integer division returns a finite float whenever the dividend is below
    [2^1000] in magnitude and the divisor is not zero. *)
Lemma py_truediv_returns (a b : Z) :
  Z.abs a < 2 ^ 1000 -> b <> 0 ->
  exists q, py_truediv a b = Ok q /\ bounded_float 1001 q.
Proof.
  intros Ha Hb. unfold py_truediv.
  destruct (b =? 0) eqn:Eb; [apply Z.eqb_eq in Eb; lia|].
  destruct a as [|pa|pa].
  - destruct b; try lia; eexists; (split; [reflexivity|exact I]).
  - destruct b as [|pb|pb]; try lia; unfold exact_Z;
      match goal with |- context [SFdiv _ _ (S754_finite ?sx _ _) (S754_finite ?sy _ _)] =>
        pose proof (SFdiv_exact_bounded sx sy pa pb ltac:(lia)) as F;
        destruct (SFdiv prec emax (S754_finite sx pa 0) (S754_finite sy pb 0));
        try contradiction; eexists; (split; [reflexivity|exact F])
      end.
  - destruct b as [|pb|pb]; try lia; unfold exact_Z;
      match goal with |- context [SFdiv _ _ (S754_finite ?sx _ _) (S754_finite ?sy _ _)] =>
        pose proof (SFdiv_exact_bounded sx sy pa pb ltac:(lia)) as F;
        destruct (SFdiv prec emax (S754_finite sx pa 0) (S754_finite sy pb 0));
        try contradiction; eexists; (split; [reflexivity|exact F])
      end.
Qed.

Lemma py_truediv_finite (a b : Z) (q : float) :
  py_truediv a b = Ok q -> is_finite q = true.
Proof.
  unfold py_truediv. destruct (b =? 0); [discriminate|].
  destruct (SFdiv prec emax (exact_Z a) (exact_Z b)); intros [= <-]; reflexivity.
Qed.

Lemma Zdigits2_mul (a b : positive) :
  Zdigits2 (Z.pos (a * b)) <= Zdigits2 (Z.pos a) + Zdigits2 (Z.pos b).
Proof.
  pose proof (Zdigits2_bound (Z.pos a) ltac:(lia)) as Ha.
  pose proof (Zdigits2_bound (Z.pos b) ltac:(lia)) as Hb.
  pose proof (Zdigits2_nonneg (Z.pos a)). pose proof (Zdigits2_nonneg (Z.pos b)).
  apply Zdigits2_le; try lia.
  rewrite Pos2Z.inj_mul, Z.pow_add_r by lia. nia.
Qed.

(** Scaling a quotient to a percentage stays finite. *)
Lemma float_of_Z_100 : float_of_Z 100 = S754_finite false 7036874417766400 (-46).
Proof. vm_compute. reflexivity. Qed.

Lemma py_mul_100_bounded (x : float) :
  bounded_float 1001 x -> bounded_float 1009 (py_mul x 100).
Proof.
  unfold py_mul. rewrite float_of_Z_100.
  destruct x as [s|s| |s m e]; unfold bounded_float at 1; try contradiction.
  - intros _. exact I.
  - intros [Hd He]. unfold SFmul.
    pose proof (Zdigits2_mul m 7036874417766400) as Hm.
    change (Zdigits2 (Z.pos 7036874417766400)) with 53 in Hm.
    pose proof (Zdigits2_nonneg (Z.pos m)).
    apply (binary_round_aux_bounded 1008); lia.
Qed.


(* ===================================================================== *)
(** ** Fixed-point formatting *)

Lemma Z_of_str_of_Z (n : Z) : Z_of_str (str_of_Z n) = Some n.
Proof.
  unfold Z_of_str, str_of_Z. rewrite NilZero.isi.
  - simpl. f_equal. apply DecimalZ.of_to.
  - destruct n; simpl; try discriminate.
    intros [= H]. revert H. apply Unsigned.to_uint_nonnil.
  - destruct n; simpl; try discriminate.
    intros [= H]. revert H. apply Unsigned.to_uint_nonnil.
Qed.

Lemma div_round_half_even_spec (n d : Z) :
  0 <= n -> 0 < d -> nearest_even n d (div_round_half_even n d).
Proof.
  intros Hn Hd. unfold nearest_even, div_round_half_even.
  pose proof (Z.div_mod n d ltac:(lia)) as E.
  pose proof (Z.mod_pos_bound n d Hd) as B.
  destruct (2 * (n mod d) ?= d) eqn:C.
  - apply Z.compare_eq in C.
    destruct (Z.even (n / d)) eqn:Ev.
    + split; [lia|]. intros _. exact Ev.
    + split; [lia|]. intros _. rewrite Z.even_add, Ev. reflexivity.
  - rewrite Z.compare_lt_iff in C. split; lia.
  - rewrite Z.compare_gt_iff in C. split; lia.
Qed.

Lemma div_round_half_even_nonneg (n d : Z) :
  0 <= n -> 0 < d -> 0 <= div_round_half_even n d.
Proof.
  intros Hn Hd. unfold div_round_half_even.
  assert (0 <= n / d) by (apply Z.div_pos; lia).
  destruct (2 * (n mod d) ?= d); try destruct (Z.even (n / d)); lia.
Qed.

Lemma length_app (s t : string) :
  String.length (s ++ t) = (String.length s + String.length t)%nat.
Proof. induction s; simpl; congruence. Qed.

Lemma append_assoc (a b c : string) : (a ++ b) ++ c = a ++ b ++ c.
Proof. induction a as [|x a IH]; cbn [append]; congruence. Qed.

Lemma all_digits_app (s t : string) :
  all_digits (s ++ t) = all_digits s && all_digits t.
Proof.
  induction s as [|c s IH]; simpl; [reflexivity|].
  rewrite IH, andb_assoc. reflexivity.
Qed.

Lemma digits_value_from_app (s : string) : forall acc c,
  digits_value_from acc (s ++ String c EmptyString) =
  10 * digits_value_from acc s + (Z.of_nat (nat_of_ascii c) - 48).
Proof.
  induction s as [|c' s IH]; intros acc c; simpl; [reflexivity|].
  apply IH.
Qed.

Lemma digit_char_code (n : Z) :
  0 <= n < 10 -> nat_of_ascii (digit_char n) = (48 + Z.to_nat n)%nat.
Proof.
  intros H. unfold digit_char. apply nat_ascii_embedding. lia.
Qed.

Lemma frac_digits_length (k : nat) : forall n, String.length (frac_digits k n) = k.
Proof.
  induction k as [|k IH]; intros n; simpl; [reflexivity|].
  rewrite length_app, IH. simpl. lia.
Qed.

Lemma frac_digits_all_digits (k : nat) : forall n, all_digits (frac_digits k n) = true.
Proof.
  induction k as [|k IH]; intros n; cbn [frac_digits]; [reflexivity|].
  rewrite all_digits_app, IH. cbn [all_digits andb].
  unfold is_digit. rewrite digit_char_code by (apply Z.mod_pos_bound; lia).
  pose proof (Z.mod_pos_bound n 10 ltac:(lia)).
  rewrite andb_true_r. apply andb_true_intro; split; apply Nat.leb_le; lia.
Qed.

Lemma frac_digits_value (k : nat) : forall n,
  0 <= n -> digits_value (frac_digits k n) = n mod 10 ^ Z.of_nat k.
Proof.
  unfold digits_value.
  induction k as [|k IH]; intros n Hn.
  - simpl. rewrite Z.mod_1_r. reflexivity.
  - simpl frac_digits. rewrite digits_value_from_app, IH
      by (apply Z.div_pos; lia).
    rewrite digit_char_code by (apply Z.mod_pos_bound; lia).
    pose proof (Z.mod_pos_bound n 10 ltac:(lia)).
    rewrite Nat2Z.inj_succ, Z.pow_succ_r by lia.
    rewrite Z.rem_mul_r by (try apply Z.pow_nonzero; lia).
    lia.
Qed.

Lemma float_frac_bounds (x : float) (sg : bool) (n d : Z) :
  float_frac x = Some (sg, n, d) -> 0 <= n /\ 0 < d.
Proof.
  destruct x as [s|s| |s m e]; cbn [float_frac]; try discriminate.
  - intros [= _ <- <-]. lia.
  - assert (H1 : 0 <= e -> 0 <= Z.pos m * 2 ^ e).
    { intros He. apply Z.mul_nonneg_nonneg; [lia|]. apply Z.pow_nonneg. lia. }
    assert (H2 : e < 0 -> 0 < 2 ^ (- e)).
    { intros He. apply Z.pow_pos_nonneg; lia. }
    destruct (0 <=? e) eqn:E; intros [= _ <- <-].
    + apply Z.leb_le in E. split; [exact (H1 E)|reflexivity].
    + apply Z.leb_gt in E. split; [discriminate|exact (H2 E)].
Qed.

Lemma float_frac_finite (x : float) :
  is_finite x = true -> exists sg n d, float_frac x = Some (sg, n, d).
Proof.
  destruct x as [s|s| |s m e]; cbn [float_frac is_finite];
    try discriminate; intros _.
  - eauto.
  - destruct (0 <=? e); eauto.
Qed.

(** Fixed-point formatting of a finite float shows the nearest decimal with
    the requested number of places. *)
Lemma format_fixed_places (k : nat) (x : float) :
  is_finite x = true -> (0 < k)%nat -> decimal_places k x (format_fixed k x).
Proof.
  intros Hf Hk.
  destruct (float_frac_finite x Hf) as (sg & n & d & E).
  destruct (float_frac_bounds x sg n d E) as [Hn Hd].
  assert (Hp : 0 < 10 ^ Z.of_nat k) by (apply Z.pow_pos_nonneg; lia).
  set (N := div_round_half_even (n * 10 ^ Z.of_nat k) d).
  assert (HN : 0 <= N) by (apply div_round_half_even_nonneg; nia).
  exists sg, n, d, N, (frac_digits k (N mod 10 ^ Z.of_nat k)).
  split; [exact E|]. split; [apply div_round_half_even_spec; nia|].
  split.
  - unfold format_fixed. rewrite E.
    destruct x; try discriminate; fold N;
      unfold render_fixed; destruct k; try lia; reflexivity.
  - split; [apply frac_digits_length|]. split; [apply frac_digits_all_digits|].
    rewrite frac_digits_value by (apply Z.mod_pos_bound; lia).
    apply Z.mod_mod. lia.
Qed.


(* ===================================================================== *)
(** ** Exact gigabytes *)

Lemma Zdigits2_eq (m k : Z) : 0 < k -> 2 ^ (k - 1) <= m < 2 ^ k -> Zdigits2 m = k.
Proof.
  intros Hk Hm.
  assert (0 < 2 ^ (k - 1)) by (apply Z.pow_pos_nonneg; lia).
  rewrite Zdigits2_log2 by lia.
  rewrite (Z.log2_unique m (k - 1)); [lia|lia|].
  replace (Z.succ (k - 1)) with k by lia. exact Hm.
Qed.

Lemma Zdigits2_lower (m : Z) : 0 < m -> 2 ^ (Zdigits2 m - 1) <= m.
Proof.
  intros Hm. rewrite Zdigits2_log2 by lia.
  replace (Z.log2 m + 1 - 1) with (Z.log2 m) by lia.
  apply (proj1 (Z.log2_spec m Hm)).
Qed.

(** Dividing a byte count below [2^53] by [2^30] is exact: the quotient is
    [pa * 2^-30], with the mantissa scaled to 53 bits. *)
Lemma truediv_gib_exact (pa : positive) :
  Z.pos pa < 2 ^ 53 ->
  exists p, Z.pos p = Z.pos pa * 2 ^ (53 - Zdigits2 (Z.pos pa)) /\
            Zdigits2 (Z.pos pa) <= 53 /\
            py_truediv (Z.pos pa) (1024 ^ 3) =
            Ok (S754_finite false p (Zdigits2 (Z.pos pa) - 83)).
Proof.
  intros Hlt.
  set (d1 := Zdigits2 (Z.pos pa)).
  assert (Hd1 : 1 <= d1 <= 53).
  { split.
    - unfold d1. cbn [Zdigits2]. lia.
    - apply Zdigits2_le; lia. }
  pose proof (Zdigits2_lower (Z.pos pa) ltac:(lia)) as Hlo. fold d1 in Hlo.
  pose proof (Zdigits2_bound (Z.pos pa) ltac:(lia)) as Hhi. fold d1 in Hhi.
  set (c := 2 ^ (53 - d1)).
  assert (Hc : 0 < c) by (apply Z.pow_pos_nonneg; lia).
  assert (Hq2 : 2 ^ 52 <= Z.pos pa * c < 2 ^ 53).
  { assert (E1 : 2 ^ 52 = 2 ^ (d1 - 1) * c).
    { unfold c. rewrite <- Z.pow_add_r by lia. f_equal. lia. }
    assert (E2 : 2 ^ 53 = 2 ^ d1 * c).
    { unfold c. rewrite <- Z.pow_add_r by lia. f_equal. lia. }
    rewrite E1, E2. nia. }
  destruct (Z.pos pa * c) as [|p|p] eqn:Ep; try lia.
  exists p. split; [|split; [lia|]].
  - reflexivity.
  - unfold py_truediv. change (1024 ^ 3 =? 0) with false. cbv iota.
    change (1024 ^ 3) with 1073741824. unfold exact_Z, SFdiv.
    assert (Ecore :
      SFdiv_core_binary prec emax (Z.pos pa) 0 1073741824 0 =
      (Z.pos p~0, d1 - 84, loc_Exact)).
    { unfold SFdiv_core_binary. fold d1.
      change (Zdigits2 1073741824) with 31.
      assert (Ee : Z.min (fexp prec emax (d1 + 0 - (31 + 0))) (0 - 0) = d1 - 84).
      { unfold fexp, emin, prec, emax. lia. }
      rewrite Ee.
      assert (Es : 0 - 0 - (d1 - 84) = 84 - d1) by lia. rewrite Es.
      assert (Em : match 84 - d1 with
                   | 0 => Z.pos pa
                   | Z.pos _ => Z.shiftl (Z.pos pa) (84 - d1)
                   | Z.neg _ => 0
                   end = Z.pos p~0 * 1073741824).
      { remember (84 - d1) as s eqn:Hse.
        destruct s as [|ps|ps]; try lia.
        rewrite Z.shiftl_mul_pow2 by lia. rewrite Hse.
        replace (84 - d1) with ((53 - d1) + 31) by lia.
        rewrite Z.pow_add_r by lia. fold c.
        change (Z.pos p~0) with (2 * Z.pos p). rewrite <- Ep.
        change (2 ^ 31) with 2147483648. ring. }
      rewrite Em.
      pose proof (Z_div_mod (Z.pos p~0 * 1073741824) 1073741824 ltac:(lia)) as DM.
      destruct (Z.div_eucl (Z.pos p~0 * 1073741824) 1073741824) as [q r].
      assert (q = Z.pos p~0 /\ r = 0) as [-> ->] by lia.
      reflexivity. }
    rewrite Ecore. cbn [xorb].
    unfold binary_round_aux.
    assert (Hdq : Zdigits2 (Z.pos p~0) = 54).
    { apply Zdigits2_eq; [lia|].
      change (Z.pos p~0) with (2 * Z.pos p).
      change (2 ^ (54 - 1)) with (2 * 2 ^ 52). change (2 ^ 54) with (2 * 2 ^ 53).
      lia. }
    assert (Hdp : Zdigits2 (Z.pos p) = 53).
    { apply Zdigits2_eq; [lia|]. change (53 - 1) with 52. lia. }
    assert (S1 : shr_fexp prec emax (Z.pos p~0) (d1 - 84) loc_Exact =
                 ({| shr_m := Z.pos p; shr_r := false; shr_s := false |}, d1 - 83)).
    { unfold shr_fexp. rewrite Hdq.
      assert (E : fexp prec emax (54 + (d1 - 84)) - (d1 - 84) = 1).
      { unfold fexp, emin, prec, emax. lia. }
      rewrite E. cbn [shr shr_record_of_loc iter_pos shr_1 orb].
      f_equal. lia. }
    rewrite S1. cbn [shr_m loc_of_shr_record round_nearest_even].
    assert (S2 : shr_fexp prec emax (Z.pos p) (d1 - 83) loc_Exact =
                 ({| shr_m := Z.pos p; shr_r := false; shr_s := false |}, d1 - 83)).
    { unfold shr_fexp. rewrite Hdp.
      assert (E : fexp prec emax (53 + (d1 - 83)) - (d1 - 83) = 0).
      { unfold fexp, emin, prec, emax. lia. }
      rewrite E. reflexivity. }
    rewrite S2. cbn [shr_m].
    assert (L : (d1 - 83 <=? emax - prec) = true).
    { apply Z.leb_le. unfold emax, prec. lia. }
    rewrite L. reflexivity.
Qed.

Lemma div_round_half_even_scale (x y c : Z) :
  0 < y -> 0 < c ->
  div_round_half_even (x * c) (y * c) = div_round_half_even x y.
Proof.
  intros Hy Hc. unfold div_round_half_even.
  rewrite Z.div_mul_cancel_r by lia.
  rewrite Z.mul_mod_distr_r by lia.
  replace (2 * (x mod y * c)) with (2 * (x mod y) * c) by ring.
  rewrite <- Zmult_compare_compat_r by lia. reflexivity.
Qed.

(** Below [2^53] bytes the text is the exact quotient by [1024^3], rounded to
    the nearest hundredth. *)
Lemma gb_exact (b : Z) :
  0 <= b < 2 ^ 53 ->
  gb b = Ok (render_fixed 2 (div_round_half_even (100 * b) (1024 ^ 3)) ++ " GB").
Proof.
  intros [Hb Hlt]. destruct b as [|pa|pa]; try lia.
  - vm_compute. reflexivity.
  - destruct (truediv_gib_exact pa Hlt) as (p & Ep & Hd & E).
    unfold gb. rewrite E. cbn [bind]. do 2 f_equal.
    pose proof (Zdigits2_nonneg (Z.pos pa)) as Hn.
    unfold format_fixed, float_frac.
    assert (L : (0 <=? Zdigits2 (Z.pos pa) - 83) = false) by (apply Z.leb_gt; lia).
    rewrite L. cbn [sign_str append]. f_equal.
    rewrite Ep.
    replace (- (Zdigits2 (Z.pos pa) - 83))
      with (30 + (53 - Zdigits2 (Z.pos pa))) by lia.
    rewrite Z.pow_add_r by lia.
    change (10 ^ Z.of_nat 2) with 100. change (2 ^ 30) with (1024 ^ 3).
    replace (Z.pos pa * 2 ^ (53 - Zdigits2 (Z.pos pa)) * 100)
      with (100 * Z.pos pa * 2 ^ (53 - Zdigits2 (Z.pos pa))) by ring.
    apply div_round_half_even_scale; [reflexivity|].
    apply Z.pow_pos_nonneg; lia.
Qed.

Lemma gb_exact_shown (b : Z) : 0 <= b < 2 ^ 53 -> gb_exact_spec b.
Proof.
  intros Hb. unfold gb_exact_spec.
  set (N := div_round_half_even (100 * b) (1024 ^ 3)).
  assert (HN : 0 <= N) by (apply div_round_half_even_nonneg; lia).
  exists N, (frac_digits 2 (N mod 100)).
  split; [apply div_round_half_even_spec; lia|].
  split; [apply frac_digits_length|]. split; [apply frac_digits_all_digits|].
  split.
  - rewrite frac_digits_value by (apply Z.mod_pos_bound; lia).
    change (10 ^ Z.of_nat 2) with 100. apply Z.mod_mod. lia.
  - rewrite (gb_exact b Hb). fold N. unfold render_fixed.
    change (10 ^ Z.of_nat 2) with 100.
    rewrite !append_assoc. reflexivity.
Qed.


(* ===================================================================== *)
(** ** Dictionaries and the disk loop *)

Lemma existsb_eqb_In (k : string) (l : list string) :
  existsb (String.eqb k) l = true <-> In k l.
Proof.
  rewrite existsb_exists. split.
  - intros (x & Hin & E). apply String.eqb_eq in E. subst. exact Hin.
  - intros Hin. exists k. split; [exact Hin|apply String.eqb_refl].
Qed.

Lemma distinct_NoDup (l : list string) : distinct l = true <-> NoDup l.
Proof.
  induction l as [|k l IH]; simpl.
  - split; [constructor|reflexivity].
  - rewrite andb_true_iff, negb_true_iff, IH. split.
    + intros [Hn Hd]. constructor; [|exact Hd].
      intros Hin. apply existsb_eqb_In in Hin. congruence.
    + intros Hnd. inversion Hnd as [|? ? Hn Hd]; subst. split; [|exact Hd].
      destruct (existsb (String.eqb k) l) eqn:E; [|reflexivity].
      apply existsb_eqb_In in E. contradiction.
Qed.

Section DictFacts.
Context {V : Type}.
Implicit Types (d : dict V) (k : string) (v : V).

Lemma dict_get_set_same k v d : dict_get k (dict_set k v d) = Some v.
Proof.
  induction d as [|[k' v'] d IH]; simpl.
  - rewrite String.eqb_refl. reflexivity.
  - destruct (String.eqb k k') eqn:E; simpl.
    + rewrite String.eqb_refl. reflexivity.
    + rewrite E. exact IH.
Qed.

Lemma dict_get_set_other k k' v d :
  k <> k' -> dict_get k (dict_set k' v d) = dict_get k d.
Proof.
  intros Hne. induction d as [|[k2 v2] d IH]; simpl.
  - apply String.eqb_neq in Hne. rewrite Hne. reflexivity.
  - destruct (String.eqb k' k2) eqn:E; simpl.
    + apply String.eqb_eq in E. subst k2.
      apply String.eqb_neq in Hne. rewrite Hne. reflexivity.
    + destruct (String.eqb k k2); [reflexivity|exact IH].
Qed.

Lemma dict_mem_set k k' v d :
  dict_mem k (dict_set k' v d) = String.eqb k k' || dict_mem k d.
Proof.
  unfold dict_mem. destruct (String.eqb k k') eqn:E.
  - apply String.eqb_eq in E. subst. rewrite dict_get_set_same. reflexivity.
  - apply String.eqb_neq in E. rewrite dict_get_set_other by exact E. reflexivity.
Qed.

Lemma dict_get_None k d : dict_get k d = None <-> ~ In k (dict_keys d).
Proof.
  induction d as [|[k' v'] d IH]; simpl.
  - tauto.
  - destruct (String.eqb k k') eqn:E.
    + apply String.eqb_eq in E. subst. split; [discriminate|tauto].
    + apply String.eqb_neq in E. rewrite IH. split; [intros H [H'|H']|]; try tauto.
      congruence.
Qed.

Lemma dict_set_fresh k v d :
  ~ In k (dict_keys d) -> dict_set k v d = (d ++ [(k, v)])%list.
Proof.
  induction d as [|[k' v'] d IH]; simpl; intros Hn; [reflexivity|].
  destruct (String.eqb k k') eqn:E.
  - apply String.eqb_eq in E. subst. tauto.
  - rewrite IH by tauto. reflexivity.
Qed.

Lemma dict_get_In k v d :
  NoDup (dict_keys d) -> In (k, v) d -> dict_get k d = Some v.
Proof.
  induction d as [|[k' v'] d IH]; simpl; intros Hnd Hin; [contradiction|].
  inversion Hnd as [|? ? Hn Hd]; subst.
  destruct Hin as [[= -> ->]|Hin].
  - rewrite String.eqb_refl. reflexivity.
  - destruct (String.eqb k k') eqn:E.
    + apply String.eqb_eq in E. subst.
      exfalso. apply Hn. apply (in_map fst) in Hin. exact Hin.
    + apply IH; assumption.
Qed.
End DictFacts.

Lemma in_range_spec (x : Z) : in_range x = true -> Z.abs x < 2 ^ 1000.
Proof. unfold in_range. apply Z.ltb_lt. Qed.

Lemma gb_returns (x : Z) : in_range x = true -> exists s, gb x = Ok s.
Proof.
  intros H. apply in_range_spec in H.
  destruct (py_truediv_returns x (1024 ^ 3) H ltac:(discriminate)) as (q & E & _).
  unfold gb. rewrite E. cbn [bind]. eauto.
Qed.

Lemma usage_percent_returns (u : sdiskusage) :
  usage_in_range u = true ->
  exists pct, usage_percent u = Ok pct /\ is_finite pct = true.
Proof.
  unfold usage_in_range. rewrite !andb_true_iff, negb_true_iff.
  intros [[[Ht _] Hu] _]. apply Z.eqb_neq in Ht. apply in_range_spec in Hu.
  destruct (py_truediv_returns (used u) (total u) Hu Ht) as (q & E & B).
  unfold usage_percent. rewrite E. cbn [bind]. eexists. split; [reflexivity|].
  apply (bounded_float_finite 1009). apply py_mul_100_bounded. exact B.
Qed.

(** What [disk_entry] stores for a partition. *)
Lemma disk_entry_spec (h : Host) (p : sdiskpart) :
  usage_okb h p = true ->
  match disk_usage h (mountpoint p) with
  | Raise _ => disk_entry h p = Ok permission_denied
  | Ok u =>
      exists tot usd fre pct,
        gb (total u) = Ok tot /\ gb (used u) = Ok usd /\ gb (free u) = Ok fre /\
        usage_percent u = Ok pct /\ is_finite pct = true /\
        disk_entry h p =
          Ok [ ("Mountpoint", mountpoint p); ("File System", fstype p);
               ("Total Size", tot); ("Used", usd); ("Free", fre);
               ("Usage %", format_fixed 1 pct ++ "%") ]
  end.
Proof.
  unfold usage_okb, disk_entry.
  destruct (disk_usage h (mountpoint p)) as [u|e]; cbn [bind try_except_if].
  - intros Hok. destruct (usage_percent_returns u Hok) as (pct & Ep & Fp).
    unfold usage_in_range in Hok. rewrite !andb_true_iff in Hok.
    destruct Hok as [[[_ Ht] Hu] Hf].
    destruct (gb_returns _ Ht) as (tot & Et).
    destruct (gb_returns _ Hu) as (usd & Eu).
    destruct (gb_returns _ Hf) as (fre & Ef).
    exists tot, usd, fre, pct. repeat split; try assumption.
    unfold gb in Et, Eu, Ef. unfold usage_percent in Ep.
    destruct (py_truediv (total u) (1024 ^ 3)); cbn [bind] in Et; [|discriminate].
    destruct (py_truediv (used u) (1024 ^ 3)); cbn [bind] in Eu; [|discriminate].
    destruct (py_truediv (free u) (1024 ^ 3)); cbn [bind] in Ef; [|discriminate].
    destruct (py_truediv (used u) (total u)); cbn [bind] in Ep; [|discriminate].
    cbn [bind try_except_if] in *.
    injection Et as <-. injection Eu as <-. injection Ef as <-. injection Ep as <-.
    reflexivity.
  - intros ->. reflexivity.
Qed.

Lemma disk_entry_returns (h : Host) (p : sdiskpart) :
  usage_okb h p = true -> disk_entry h p = Ok (entry_of h p).
Proof.
  intros Hok. pose proof (disk_entry_spec h p Hok) as S. unfold entry_of.
  destruct (disk_usage h (mountpoint p)).
  - destruct S as (? & ? & ? & ? & _ & _ & _ & _ & _ & ->). reflexivity.
  - rewrite S. reflexivity.
Qed.

Lemma disk_loop_distinct (h : Host) (ps : list sdiskpart) : forall acc,
  NoDup (dict_keys acc ++ map device ps) ->
  forallb (usage_okb h) ps = true ->
  disk_loop h ps acc = Ok (acc ++ map (fun p => (device p, entry_of h p)) ps)%list.
Proof.
  induction ps as [|p ps IH]; intros acc Hnd Hok; simpl.
  - rewrite app_nil_r. reflexivity.
  - simpl in Hok. apply andb_true_iff in Hok. destruct Hok as [Hp Hps].
    rewrite (disk_entry_returns h p Hp). simpl.
    assert (Hfresh : ~ In (device p) (dict_keys acc)).
    { intros Hin. apply NoDup_remove_2 in Hnd. apply Hnd.
      apply in_or_app. left. exact Hin. }
    rewrite dict_set_fresh by exact Hfresh.
    rewrite IH; [|unfold dict_keys; rewrite map_app, <- app_assoc; exact Hnd|exact Hps].
    rewrite <- app_assoc. reflexivity.
Qed.


(* ===================================================================== *)
(** ** Health evaluator *)

Lemma health_disk_step_mem (h : Host) (p : sdiskpart) (hs hs' : dict string) :
  health_disk_step h p hs = Ok hs' ->
  forall k, dict_mem k hs' = true <->
            dict_mem k hs = true \/ (k = disk_warning_key p /\ exceeds_90 h p).
Proof.
  unfold health_disk_step, exceeds_90.
  destruct (disk_usage h (mountpoint p)) as [u|e]; cbn [bind try_except_if].
  - destruct (usage_percent u) as [pct|e] eqn:Ep; cbn [bind try_except_if].
    + destruct (float_gt_Z pct 90) eqn:G; intros [= <-] k.
      * rewrite dict_mem_set, orb_true_iff, String.eqb_eq. split.
        -- intros [->|H]; [right|left; exact H].
           split; [reflexivity|]. exists u, pct. auto.
        -- intros [H|[-> _]]; auto.
      * split; [auto|]. intros [H|[_ (u' & pct' & [= <-] & E' & G')]]; [exact H|].
        congruence.
    + destruct (is_PermissionError e); [|discriminate].
      intros [= <-] k. split; [auto|].
      intros [H|[_ (u' & pct' & [= <-] & E' & _)]]; [exact H|congruence].
  - destruct (is_PermissionError e); [|discriminate].
    intros [= <-] k. split; [auto|].
    intros [H|[_ (u' & pct' & E' & _)]]; [exact H|discriminate].
Qed.

Lemma health_disk_step_returns (h : Host) (p : sdiskpart) (hs : dict string) :
  usage_okb h p = true -> exists hs', health_disk_step h p hs = Ok hs'.
Proof.
  unfold usage_okb, health_disk_step.
  destruct (disk_usage h (mountpoint p)) as [u|e]; cbn [bind try_except_if].
  - intros Hok. destruct (usage_percent_returns u Hok) as (pct & -> & _).
    cbn [bind try_except_if].
    destruct (float_gt_Z pct 90); eexists; reflexivity.
  - intros ->. eexists; reflexivity.
Qed.

Lemma health_disk_loop_mem (h : Host) (ps : list sdiskpart) :
  forall hs d, health_disk_loop h ps hs = Ok d ->
  forall k, dict_mem k d = true <->
            dict_mem k hs = true \/
            exists p, In p ps /\ k = disk_warning_key p /\ exceeds_90 h p.
Proof.
  induction ps as [|p ps IH]; intros hs d; cbn [health_disk_loop bind].
  - intros [= <-] k. split; [auto|]. intros [H|(p & [] & _)]. exact H.
  - destruct (health_disk_step h p hs) as [hs'|e] eqn:Es; cbn [bind];
      [|discriminate].
    intros Hl k. rewrite (IH _ _ Hl k), (health_disk_step_mem h p hs hs' Es k).
    split.
    + intros [[H|[-> H]]|(q & Hq & -> & H)]; auto.
      * right. exists p. simpl. auto.
      * right. exists q. simpl. auto.
    + intros [H|(q & [<-|Hq] & -> & H)]; auto.
      right. exists q. auto.
Qed.

Lemma health_disk_loop_returns (h : Host) (ps : list sdiskpart) :
  forall hs, forallb (usage_okb h) ps = true ->
  exists d, health_disk_loop h ps hs = Ok d.
Proof.
  induction ps as [|p ps IH]; intros hs Hok; cbn [health_disk_loop].
  - eexists; reflexivity.
  - cbn [forallb] in Hok. apply andb_true_iff in Hok. destruct Hok as [Hp Hps].
    destruct (health_disk_step_returns h p hs Hp) as (hs' & ->). cbn [bind].
    apply IH. exact Hps.
Qed.

Lemma health_start_cpu (h : Host) :
  dict_mem "cpu_warning" (health_memory h (health_cpu h (health_base h))) =
  float_gt_Z (cpu_percent h) 80.
Proof.
  unfold health_memory, health_cpu, health_base.
  destruct (float_gt_Z (cpu_percent h) 80);
    destruct (float_gt_Z (vm_percent (virtual_memory h)) 85); reflexivity.
Qed.

Lemma health_start_memory (h : Host) :
  dict_mem "memory_warning" (health_memory h (health_cpu h (health_base h))) =
  float_gt_Z (vm_percent (virtual_memory h)) 85.
Proof.
  unfold health_memory, health_cpu, health_base.
  destruct (float_gt_Z (cpu_percent h) 80);
    destruct (float_gt_Z (vm_percent (virtual_memory h)) 85); reflexivity.
Qed.

Lemma health_start_disk (h : Host) (dev : string) :
  dict_mem ("disk_warning_" ++ dev)
    (health_memory h (health_cpu h (health_base h))) = false.
Proof.
  unfold health_memory, health_cpu, health_base.
  destruct (float_gt_Z (cpu_percent h) 80);
    destruct (float_gt_Z (vm_percent (virtual_memory h)) 85); reflexivity.
Qed.

Lemma disk_warning_key_inj (p : sdiskpart) (dev : string) :
  "disk_warning_" ++ dev = disk_warning_key p <-> device p = dev.
Proof.
  unfold disk_warning_key. split.
  - cbn [append]. intros [= ->]. reflexivity.
  - intros ->. reflexivity.
Qed.

Lemma check_system_health_returns (h : Host) :
  disks_ok h = true -> exists d, check_system_health h = Ok d.
Proof.
  intros Hok. apply health_disk_loop_returns. exact Hok.
Qed.

(** C1 (amended).  On a host where every usage query returns a usage with a
    non-zero total or raises a permission error, the Health Evaluator
    returns a mapping in which [cpu_warning] is present exactly when the
    sampled CPU utilization exceeds 80, [memory_warning] exactly when the
    memory utilization exceeds 85, and, for every device name, the entry
    [disk_warning_<device>] is present exactly when some partition of that
    device has a readable usage whose computed percentage exceeds 90; when
    the device names are pairwise distinct this holds partition by
    partition.  A partition whose query raises a permission error
    contributes nothing. *)
Theorem check_system_health_warnings (h : Host) :
  disks_ok h = true ->
  exists d, check_system_health h = Ok d /\ warnings_spec h d.
Proof.
  intros Hok. unfold disks_ok in Hok.
  destruct (health_disk_loop_returns h (disk_partitions h)
              (health_memory h (health_cpu h (health_base h))) Hok) as (d & Ed).
  exists d. split; [exact Ed|]. unfold warnings_spec.

  pose proof (health_disk_loop_mem h _ _ _ Ed) as M.
  assert (Hdev : forall dev,
       dict_mem ("disk_warning_" ++ dev) d = true <->
       exists p, In p (disk_partitions h) /\ device p = dev /\ exceeds_90 h p).
  { intros dev. rewrite M, health_start_disk. split.
    - intros [H|(p & Hin & Hk & He)]; [discriminate|].
      exists p. rewrite disk_warning_key_inj in Hk. auto.
    - intros (p & Hin & Hd & He). right. exists p.
      rewrite disk_warning_key_inj. auto. }
  split; [|split; [|split; [exact Hdev|]]].
  - rewrite M, health_start_cpu. split; [|auto].
    intros [H|(p & _ & Hk & _)]; [exact H|discriminate].
  - rewrite M, health_start_memory. split; [|auto].
    intros [H|(p & _ & Hk & _)]; [exact H|discriminate].
  - intros Hd p Hin. unfold disk_warning_key at 1. rewrite Hdev. split.
    + intros (q & Hq & Hdq & He).
      apply distinct_NoDup in Hd.
      assert (q = p); [|subst; exact He].
      clear - Hd Hq Hin Hdq. induction (disk_partitions h) as [|a l IH]; [contradiction|].
      simpl in Hd. inversion Hd as [|? ? Hn Hd']; subst.
      destruct Hq as [->|Hq], Hin as [->|Hin]; auto.
      * exfalso. apply Hn. rewrite Hdq. apply in_map. exact Hin.
      * exfalso. apply Hn. rewrite <- Hdq. apply in_map. exact Hq.
    + intros He. exists p. auto.
Qed.


(* ===================================================================== *)
(** ** Disk collector *)

Lemma entry_of_denied (h : Host) (p : sdiskpart) :
  usage_okb h p = true ->
  is_permission_denied (entry_of h p) = usage_denied h p.
Proof.
  intros Hok. pose proof (disk_entry_spec h p Hok) as S.
  unfold entry_of, usage_denied.
  destruct (disk_usage h (mountpoint p)).
  - destruct S as (? & ? & ? & ? & _ & _ & _ & _ & _ & ->). reflexivity.
  - rewrite S. reflexivity.
Qed.

Lemma count_denied (h : Host) (ps : list sdiskpart) :
  forallb (usage_okb h) ps = true ->
  List.length (filter (fun kv => is_permission_denied (snd kv))
                 (map (fun p => (device p, entry_of h p)) ps)) =
  List.length (filter (usage_denied h) ps).
Proof.
  induction ps as [|p ps IH]; cbn [forallb map filter]; [reflexivity|].
  rewrite andb_true_iff. intros [Hp Hps]. cbn [snd].
  rewrite (entry_of_denied h p Hp).
  destruct (usage_denied h p); cbn [List.length]; rewrite IH by exact Hps;
    reflexivity.
Qed.

(** C2 (amended).  On a host whose N partitions have pairwise distinct device
    names, and where every usage query returns a usage with a non-zero total
    or raises a permission error, the Disk Collector returns N entries keyed
    by device name in partition order; the entries of the K partitions that
    raised are the permission-denied sentinel, and each other entry holds
    the six fields Mountpoint, File System, Total Size, Used, Free and
    Usage %, the last being the computed percentage shown to one decimal
    place with a percent sign. *)
Theorem get_disk_info_entries (h : Host) :
  distinct (map device (disk_partitions h)) = true ->
  disks_ok h = true ->
  exists d, get_disk_info h = Ok d /\ disk_info_spec h d.
Proof.
  intros Hd Hok. unfold disks_ok in Hok. apply distinct_NoDup in Hd.
  set (d := map (fun p => (device p, entry_of h p)) (disk_partitions h)).
  assert (Hk : dict_keys d = map device (disk_partitions h)).
  { unfold d, dict_keys. rewrite map_map. reflexivity. }
  exists d. split; [|split; [exact Hk|split; [|split]]].
  - unfold get_disk_info. rewrite disk_loop_distinct; [reflexivity|exact Hd|exact Hok].
  - unfold d. apply length_map.
  - apply count_denied. exact Hok.
  - intros p Hin.
    assert (Hp : usage_okb h p = true).
    { rewrite forallb_forall in Hok. apply Hok. exact Hin. }
    assert (Hg : dict_get (device p) d = Some (entry_of h p)).
    { apply dict_get_In; [rewrite Hk; exact Hd|].
      unfold d. apply (in_map (fun p => (device p, entry_of h p))). exact Hin. }
    pose proof (disk_entry_spec h p Hp) as S. unfold entry_of in Hg.
    destruct (disk_usage h (mountpoint p)).
    + destruct S as (tot & usd & fre & pct & Et & Eu & Ef & Ep & Fp & E).
      rewrite E in Hg. eexists. split; [exact Hg|].
      exists tot, usd, fre, pct, (format_fixed 1 pct).
      repeat split; try assumption.
      apply format_fixed_places; [exact Fp|lia].
    + rewrite S in Hg. exact Hg.
Qed.

Lemma disk_entry_propagates (h : Host) (p : sdiskpart) (e : exn) :
  disk_usage h (mountpoint p) = Raise e -> is_PermissionError e = false ->
  disk_entry h p = Raise e.
Proof.
  intros E P. unfold disk_entry. rewrite E. cbn [bind try_except_if].
  rewrite P. reflexivity.
Qed.

Lemma health_disk_step_propagates (h : Host) (p : sdiskpart) (e : exn) :
  disk_usage h (mountpoint p) = Raise e -> is_PermissionError e = false ->
  forall hs, health_disk_step h p hs = Raise e.
Proof.
  intros E P hs. unfold health_disk_step. rewrite E. cbn [bind try_except_if].
  rewrite P. reflexivity.
Qed.

Lemma disk_entry_denied (h : Host) (p : sdiskpart) (e : exn) :
  disk_usage h (mountpoint p) = Raise e -> is_PermissionError e = true ->
  disk_entry h p = Ok permission_denied.
Proof.
  intros E P. unfold disk_entry. rewrite E. cbn [bind try_except_if].
  rewrite P. reflexivity.
Qed.

Lemma health_disk_step_denied (h : Host) (p : sdiskpart) (e : exn) :
  disk_usage h (mountpoint p) = Raise e -> is_PermissionError e = true ->
  forall hs, health_disk_step h p hs = Ok hs.
Proof.
  intros E P hs. unfold health_disk_step. rewrite E. cbn [bind try_except_if].
  rewrite P. reflexivity.
Qed.

Lemma disk_loop_raises (h : Host) (p : sdiskpart) (e : exn)
  (before after : list sdiskpart) :
  forallb (usage_okb h) before = true ->
  disk_entry h p = Raise e ->
  forall acc, disk_loop h (before ++ p :: after) acc = Raise e.
Proof.
  intros Hok Ep. induction before as [|q before IH]; intros acc;
    cbn [app disk_loop].
  - rewrite Ep. reflexivity.
  - cbn [forallb] in Hok. apply andb_true_iff in Hok. destruct Hok as [Hq Hb].
    rewrite (disk_entry_returns h q Hq). cbn [bind]. apply IH. exact Hb.
Qed.

Lemma health_disk_loop_raises (h : Host) (p : sdiskpart) (e : exn)
  (before after : list sdiskpart) :
  forallb (usage_okb h) before = true ->
  (forall hs, health_disk_step h p hs = Raise e) ->
  forall hs, health_disk_loop h (before ++ p :: after) hs = Raise e.
Proof.
  intros Hok Ep. induction before as [|q before IH]; intros hs;
    cbn [app health_disk_loop].
  - rewrite Ep. reflexivity.
  - cbn [forallb] in Hok. apply andb_true_iff in Hok. destruct Hok as [Hq Hb].
    destruct (health_disk_step_returns h q hs Hq) as (hs' & ->).
    cbn [bind]. apply IH. exact Hb.
Qed.


(* ===================================================================== *)
(** ** Report renderer *)

(** *** Printing computations *)

Lemma io_bind_print {B : Type} (s : string) (k : unit -> io B) :
  io_bind (print s) k = (s :: fst (k tt), snd (k tt)).
Proof. unfold io_bind, print. destruct (k tt). reflexivity. Qed.

Lemma io_bind_ok {A B : Type} (c : io A) (k : A -> io B) (out : list string) (a : A) :
  c = (out, Ok a) -> io_bind c k = ((out ++ fst (k a))%list, snd (k a)).
Proof. intros ->. unfold io_bind. destruct (k a). reflexivity. Qed.

Lemma io_bind_raise {A B : Type} (c : io A) (k : A -> io B) (out : list string) (e : exn) :
  c = (out, Raise e) -> io_bind c k = (out, Raise e).
Proof. intros ->. reflexivity. Qed.

Lemma io_bind_call {A B : Type} (r : result A) (k : A -> io B) (a : A) :
  r = Ok a -> io_bind (call r) k = k a.
Proof. intros ->. unfold io_bind, call. destruct (k a). reflexivity. Qed.

Lemma for_each_pure {A : Type} (body : A -> io unit) (g : A -> list string)
  (l : list A) :
  (forall x, In x l -> body x = (g x, Ok tt)) ->
  for_each l body = (flat_map g l, Ok tt).
Proof.
  induction l as [|x l IH]; intros H; cbn [for_each flat_map]; [reflexivity|].
  rewrite (io_bind_ok _ _ (g x) tt) by (apply H; left; reflexivity).
  rewrite IH by (intros y Hy; apply H; right; exact Hy). reflexivity.
Qed.

Lemma for_each_print {A : Type} (f : A -> string) (l : list A) :
  for_each l (fun x => print (f x)) = (map f l, Ok tt).
Proof.
  induction l as [|x l IH]; cbn [for_each map]; [reflexivity|].
  rewrite io_bind_print, IH. reflexivity.
Qed.

Lemma io_bind_returns {A B : Type} (c : io A) (k : A -> io B) (a : A) :
  snd c = Ok a -> io_bind c k = ((fst c ++ fst (k a))%list, snd (k a)).
Proof. destruct c as [out r]. cbn [snd fst]. intros ->. apply io_bind_ok. reflexivity. Qed.

Lemma header_lines_app (l1 l2 : list string) :
  header_lines (l1 ++ l2) = (header_lines l1 ++ header_lines l2)%list.
Proof. apply filter_app. Qed.

Section Writes.
Context {B : Type}.
Implicit Types (k : unit -> io B) (hs : list string).

Lemma writes_plain_then (s : string) k hs :
  is_header s = false -> writes (k tt) hs -> writes (io_bind (print s) k) hs.
Proof.
  intros Hs [Hr Hh]. rewrite io_bind_print. split; [exact Hr|].
  cbn [fst]. unfold header_lines in *. cbn [filter]. rewrite Hs. exact Hh.
Qed.

Lemma writes_header_then (s : string) k hs :
  is_header s = true -> writes (k tt) hs -> writes (io_bind (print s) k) (s :: hs).
Proof.
  intros Hs [Hr Hh]. rewrite io_bind_print. split; [exact Hr|].
  cbn [fst]. unfold header_lines in *. cbn [filter]. rewrite Hs, Hh. reflexivity.
Qed.

Lemma writes_then (c : io unit) k hs1 hs2 :
  writes c hs1 -> writes (k tt) hs2 -> writes (io_bind c k) (hs1 ++ hs2).
Proof.
  intros [[[] Hr1] Hh1] [Hr2 Hh2]. rewrite (io_bind_returns c k tt Hr1).
  split; [exact Hr2|]. cbn [fst]. rewrite header_lines_app, Hh1, Hh2. reflexivity.
Qed.

Lemma writes_call_then {A : Type} (r : result A) (a : A) (k : A -> io B) hs :
  r = Ok a -> writes (k a) hs -> writes (io_bind (call r) k) hs.
Proof. intros E H. rewrite (io_bind_call r k a E). exact H. Qed.
End Writes.

Lemma writes_print_plain (s : string) : is_header s = false -> writes (print s) [].
Proof.
  intros Hs. split; [exists tt; reflexivity|].
  unfold header_lines. cbn [print fst filter]. rewrite Hs. reflexivity.
Qed.

Lemma writes_for_each {A : Type} (body : A -> io unit) (l : list A) :
  (forall x, In x l -> writes (body x) []) -> writes (for_each l body) [].
Proof.
  induction l as [|x l IH]; intros H; cbn [for_each].
  - split; [exists tt; reflexivity|reflexivity].
  - apply (writes_then (body x) _ [] []).
    + apply H. left. reflexivity.
    + apply IH. intros y Hy. apply H. right. exact Hy.
Qed.

Section Aborts.
Context {A B : Type}.

Lemma aborts_later (c : io A) (k : A -> io B) (a : A) tail e :
  snd c = Ok a -> aborts_after (k a) tail e -> aborts_after (io_bind c k) tail e.
Proof.
  intros Hr [He (pre & Hp)]. rewrite (io_bind_returns c k a Hr).
  split; [exact He|]. exists (fst c ++ pre)%list. cbn [fst].
  rewrite Hp, app_assoc. reflexivity.
Qed.

End Aborts.

Lemma aborts_print_later {B : Type} (s : string) (k : unit -> io B) tail e :
  aborts_after (k tt) tail e -> aborts_after (io_bind (print s) k) tail e.
Proof. apply (aborts_later (print s) k tt). reflexivity. Qed.

(** *** Lines that are not headers *)

Lemma prefix_app (sub b : string) : String.prefix sub (sub ++ b) = true.
Proof.
  induction sub as [|c sub IH]; cbn [String.prefix append].
  - destruct b; reflexivity.
  - destruct (ascii_dec c c) as [_|N]; [exact IH|contradiction].
Qed.

Lemma contains_cons (sub : string) (c : ascii) (s : string) :
  contains sub s = true -> contains sub (String c s) = true.
Proof. intros H. cbn [contains]. rewrite H. apply orb_true_r. Qed.

Lemma contains_mid (sub a b : string) : contains sub (a ++ sub ++ b) = true.
Proof.
  induction a as [|c a IH]; cbn [append].
  - destruct (sub ++ b) eqn:E; cbn [contains]; rewrite <- E, prefix_app; reflexivity.
  - apply contains_cons. exact IH.
Qed.

Lemma colon_space_not_header (s : string) :
  contains ": " s = true -> is_header s = false.
Proof.
  intros Hc. unfold is_header. destruct (existsb (String.eqb s) headers) eqn:E;
    [|reflexivity].
  apply existsb_eqb_In in E. unfold headers in E. cbn [In] in E.
  repeat (destruct E as [<-|E]; [vm_compute in Hc; discriminate|]).
  contradiction.
Qed.

Lemma item_not_header (a b : string) : is_header (a ++ ": " ++ b) = false.
Proof. apply colon_space_not_header. apply contains_mid. Qed.

Lemma indented_not_header (a b : string) : is_header ("  " ++ a ++ ": " ++ b) = false.
Proof.
  apply colon_space_not_header.
  change ("  " ++ a ++ ": " ++ b) with (String " " (String " " (a ++ ": " ++ b))).
  do 2 apply contains_cons. apply contains_mid.
Qed.

Lemma writes_print_items {V : Type} (str : V -> string) (d : dict V) :
  writes (print_items str d) [].
Proof.
  unfold print_items. apply writes_for_each. intros [k v] _.
  apply writes_print_plain. apply item_not_header.
Qed.

Lemma dict_keys_set {V : Type} (k k' : string) (v : V) (d : dict V) :
  In k (dict_keys (dict_set k' v d)) -> k = k' \/ In k (dict_keys d).
Proof.
  induction d as [|[k2 v2] d IH]; cbn [dict_set dict_keys map fst In].
  - intros [<-|[]]. left. reflexivity.
  - destruct (String.eqb k' k2) eqn:E; cbn [map fst In].
    + intros [<-|H]; auto.
    + intros [<-|H]; auto. destruct (IH H); auto.
Qed.

(** *** The sections *)

Lemma rule_not_header : is_header rule = false.
Proof. vm_compute. reflexivity. Qed.

Lemma banner_not_header : is_header banner = false.
Proof. vm_compute. reflexivity. Qed.

Lemma empty_not_header : is_header EmptyString = false.
Proof. reflexivity. Qed.

Lemma writes_render_system (h : Host) :
  writes (render_system h) ["SYSTEM INFORMATION:"].
Proof.
  unfold render_system.
  apply writes_header_then; [reflexivity|].
  apply writes_plain_then; [exact rule_not_header|].
  apply (writes_then _ _ [] []); [apply writes_print_items|].
  apply writes_print_plain. exact empty_not_header.
Qed.

Lemma get_bios_info_returns (h : Host) : exists d, get_bios_info h = Ok d.
Proof. unfold get_bios_info. destruct (bios_body h). eexists. reflexivity. Qed.

Lemma writes_render_bios (h : Host) :
  writes (render_bios h) ["BIOS/MOTHERBOARD INFORMATION:"].
Proof.
  unfold render_bios. destruct (get_bios_info_returns h) as (d & E).
  apply writes_header_then; [reflexivity|].
  apply writes_plain_then; [exact rule_not_header|].
  apply (writes_call_then _ d); [exact E|].
  apply (writes_then _ _ [] []); [apply writes_print_items|].
  apply writes_print_plain. exact empty_not_header.
Qed.

Lemma writes_render_cpu (h : Host) : writes (render_cpu h) ["CPU STATUS:"].
Proof.
  unfold render_cpu.
  apply writes_header_then; [reflexivity|].
  apply writes_plain_then; [exact rule_not_header|].
  apply (writes_then _ _ [] []); [apply writes_print_items|].
  apply writes_print_plain. exact empty_not_header.
Qed.

Lemma get_memory_info_returns (h : Host) :
  memory_ok h = true ->
  exists total_ram available_ram total_swap,
    gb (vm_total (virtual_memory h)) = Ok total_ram /\
    gb (vm_available (virtual_memory h)) = Ok available_ram /\
    gb (sw_total (swap_memory h)) = Ok total_swap /\
    get_memory_info h =
      Ok [ ("Total RAM", total_ram);
           ("Available RAM", available_ram);
           ("RAM Usage", format_fixed 1 (vm_percent (virtual_memory h)) ++ "%");
           ("Total Swap", total_swap);
           ("Swap Usage", format_fixed 1 (sw_percent (swap_memory h)) ++ "%") ].
Proof.
  unfold memory_ok. rewrite !andb_true_iff. intros [[Ht Ha] Hs].
  destruct (gb_returns _ Ht) as (t & Et).
  destruct (gb_returns _ Ha) as (a & Ea).
  destruct (gb_returns _ Hs) as (s & Es).
  exists t, a, s. repeat split; try assumption.
  unfold gb in Et, Ea, Es. unfold get_memory_info.
  destruct (py_truediv (vm_total (virtual_memory h)) (1024 ^ 3));
    cbn [bind] in Et; [|discriminate].
  destruct (py_truediv (vm_available (virtual_memory h)) (1024 ^ 3));
    cbn [bind] in Ea; [|discriminate].
  destruct (py_truediv (sw_total (swap_memory h)) (1024 ^ 3));
    cbn [bind] in Es; [|discriminate].
  cbn [bind]. injection Et as <-. injection Ea as <-. injection Es as <-.
  reflexivity.
Qed.

Lemma writes_render_memory (h : Host) :
  memory_ok h = true -> writes (render_memory h) ["MEMORY STATUS:"].
Proof.
  intros Hok. unfold render_memory.
  destruct (get_memory_info_returns h Hok) as (t & a & s & _ & _ & _ & E).
  apply writes_header_then; [reflexivity|].
  apply writes_plain_then; [exact rule_not_header|].
  eapply writes_call_then; [exact E|].
  apply (writes_then _ _ [] []); [apply writes_print_items|].
  apply writes_print_plain. exact empty_not_header.
Qed.

Lemma collect_temps_keys (temps : dict (list shwtemp)) :
  forall acc k, In k (dict_keys (collect_temps temps acc)) ->
                In k (dict_keys acc) \/ In k (dict_keys temps).
Proof.
  induction temps as [|[name entries] temps IH]; intros acc k;
    cbn [collect_temps dict_keys map fst In].
  - auto.
  - intros H. destruct (IH _ _ H) as [H'|H']; [|auto].
    destruct (dict_keys_set _ _ _ _ H'); auto.
Qed.

Lemma free_name_line (n : string) : free_name n = true -> is_header (n ++ ":") = false.
Proof. unfold free_name. apply negb_true_iff. Qed.

Lemma writes_print_reading (r : reading) : writes (print_reading r) [].
Proof.
  unfold print_reading. apply writes_print_plain. apply indented_not_header.
Qed.

Lemma writes_print_temps_groups (d : dict (list reading)) :
  forallb free_name (dict_keys d) = true -> writes (print_temps (TempGroups d)) [].
Proof.
  intros Hn. cbn [print_temps]. destruct (dict_get "Status" d) as [readings|].
  - apply writes_print_plain. reflexivity.
  - apply writes_for_each. intros [name readings] Hin.
    apply (writes_plain_then (name ++ ":")).
    + apply free_name_line. rewrite forallb_forall in Hn. apply Hn.
      apply (in_map fst) in Hin. exact Hin.
    + apply writes_for_each. intros r _. apply writes_print_reading.
Qed.

Lemma get_temperature_info_cases (h : Host) :
  get_temperature_info h =
  Ok match sensors_temperatures h with
     | Raise _ => TempStatus "Temperature monitoring not available"
     | Ok temps =>
         if dict_truthy (collect_temps temps [])
         then TempGroups (collect_temps temps [])
         else TempStatus "No temperature sensors detected"
     end.
Proof.
  unfold get_temperature_info. destruct (sensors_temperatures h); reflexivity.
Qed.

Lemma writes_render_temperature (h : Host) :
  names_ok h = true -> writes (render_temperature h) ["TEMPERATURE SENSORS:"].
Proof.
  intros Hn. unfold render_temperature.
  apply writes_header_then; [reflexivity|].
  apply writes_plain_then; [exact rule_not_header|].
  eapply writes_call_then; [apply get_temperature_info_cases|].
  apply (writes_then _ _ [] []); [|apply writes_print_plain; exact empty_not_header].
  unfold names_ok in Hn. rewrite !andb_true_iff in Hn. destruct Hn as [_ Hn].
  destruct (sensors_temperatures h) as [temps|e].
  - destruct (dict_truthy (collect_temps temps [])).
    + apply writes_print_temps_groups. apply forallb_forall. intros k Hk.
      rewrite forallb_forall in Hn. apply Hn.
      destruct (collect_temps_keys _ _ _ Hk) as [[]|H]. exact H.
    + apply writes_print_plain. reflexivity.
  - apply writes_print_plain. reflexivity.
Qed.

Lemma disk_loop_keys (h : Host) (ps : list sdiskpart) :
  forall acc d, disk_loop h ps acc = Ok d ->
  forall k, In k (dict_keys d) -> In k (dict_keys acc) \/ In k (map device ps).
Proof.
  induction ps as [|p ps IH]; intros acc d; cbn [disk_loop map In].
  - intros [= <-] k H. auto.
  - destruct (disk_entry h p) as [entry|e]; cbn [bind]; [|discriminate].
    intros Hl k Hk. destruct (IH _ _ Hl k Hk) as [H|H]; [|auto].
    destruct (dict_keys_set _ _ _ _ H); auto.
Qed.

Lemma writes_print_disks (disk_info : dict (dict string)) :
  forallb free_name (dict_keys disk_info) = true -> writes (print_disks disk_info) [].
Proof.
  intros Hn. unfold print_disks. apply writes_for_each. intros [dev info] Hin.
  apply (writes_plain_then (dev ++ ":")).
  - apply free_name_line. rewrite forallb_forall in Hn. apply Hn.
    apply (in_map fst) in Hin. exact Hin.
  - apply (writes_then _ _ [] []).
    + apply writes_for_each. intros [k v] _. apply writes_print_plain.
      apply indented_not_header.
    + apply writes_print_plain. exact empty_not_header.
Qed.

Lemma writes_render_disk (h : Host) :
  names_ok h = true -> disks_ok h = true ->
  writes (render_disk h) ["DISK STATUS:"].
Proof.
  intros Hn Hok. unfold render_disk.
  assert (Hr : exists d, get_disk_info h = Ok d /\
                         forall k, In k (dict_keys d) -> In k (map device (disk_partitions h))).
  { unfold get_disk_info, disks_ok in *.
    assert (Hg : forall ps acc, forallb (usage_okb h) ps = true ->
                   exists d, disk_loop h ps acc = Ok d).
    { induction ps as [|p ps IH]; intros acc Hps; cbn [disk_loop].
      - eexists; reflexivity.
      - cbn [forallb] in Hps. apply andb_true_iff in Hps. destruct Hps as [Hp Hps].
        rewrite (disk_entry_returns h p Hp). cbn [bind]. apply IH. exact Hps. }
    destruct (Hg _ [] Hok) as (d & Ed). exists d. split; [exact Ed|].
    intros k Hk. destruct (disk_loop_keys h _ _ _ Ed k Hk) as [[]|H]. exact H. }
  destruct Hr as (d & Ed & Hk).
  apply writes_header_then; [reflexivity|].
  apply writes_plain_then; [exact rule_not_header|].
  eapply writes_call_then; [exact Ed|].
  apply writes_print_disks. apply forallb_forall. intros k Hin.
  unfold names_ok in Hn. rewrite !andb_true_iff in Hn. destruct Hn as [[Hn _] _].
  rewrite forallb_forall in Hn. apply Hn. apply Hk. exact Hin.
Qed.

Lemma network_loop_keys (stats : dict snicstats) (interfaces : dict (list snicaddr)) :
  forall acc k, In k (dict_keys (network_loop stats interfaces acc)) ->
                In k (dict_keys acc) \/ In k (dict_keys interfaces).
Proof.
  induction interfaces as [|[name addrs] interfaces IH]; intros acc k;
    cbn [network_loop dict_keys map fst In].
  - auto.
  - intros H. destruct (IH _ _ H) as [H'|H']; [|auto].
    destruct (dict_keys_set _ _ _ _ H'); auto.
Qed.

Lemma print_interface_lines (interface : string) (info : iface_info) :
  print_interface interface info = (interface_lines interface info, Ok tt).
Proof.
  unfold print_interface, interface_lines.
  rewrite !io_bind_print.
  rewrite (io_bind_ok _ _ _ tt (for_each_print _ _)).
  reflexivity.
Qed.

Lemma writes_print_interface (interface : string) (info : iface_info) :
  free_name interface = true -> writes (print_interface interface info) [].
Proof.
  intros Hn. unfold print_interface.
  apply writes_plain_then; [apply free_name_line; exact Hn|].
  apply writes_plain_then; [apply (indented_not_header "Status")|].
  apply writes_plain_then; [apply (indented_not_header "Speed")|].
  apply (writes_then _ _ [] []).
  - apply writes_for_each. intros a _. apply writes_print_plain.
    apply indented_not_header.
  - apply writes_print_plain. exact empty_not_header.
Qed.

Lemma writes_render_network (h : Host) :
  names_ok h = true -> writes (render_network h) ["NETWORK INTERFACES:"].
Proof.
  intros Hn. unfold render_network.
  apply writes_header_then; [reflexivity|].
  apply writes_plain_then; [exact rule_not_header|].
  unfold print_network. apply writes_for_each. intros [name info] Hin.
  apply writes_print_interface.
  unfold names_ok in Hn. rewrite !andb_true_iff in Hn. destruct Hn as [[_ Hn] _].
  rewrite forallb_forall in Hn. apply Hn.
  apply (in_map fst) in Hin. unfold get_network_info in Hin.
  destruct (network_loop_keys _ _ _ _ Hin) as [[]|H]. exact H.
Qed.

Lemma writes_print_health_item (key value : string) :
  writes (print_health_item key value) [].
Proof.
  unfold print_health_item. destruct (contains "warning" (lower key));
    apply writes_print_plain.
  - rewrite <- (append_assoc warning_glyph), <- append_assoc.
    apply item_not_header.
  - apply item_not_header.
Qed.

Lemma writes_render_health (h : Host) :
  disks_ok h = true -> writes (render_health h) ["SYSTEM HEALTH CHECK:"].
Proof.
  intros Hok. unfold render_health.
  destruct (check_system_health_returns h Hok) as (d & E).
  apply writes_header_then; [reflexivity|].
  apply writes_plain_then; [exact rule_not_header|].
  eapply writes_call_then; [exact E|].
  apply (writes_then _ _ [] []).
  - apply writes_for_each. intros [k v] _. apply writes_print_health_item.
  - apply writes_print_plain. exact empty_not_header.
Qed.

Lemma writes_main (h : Host) :
  memory_ok h = true -> disks_ok h = true -> names_ok h = true ->
  writes (main h) headers.
Proof.
  intros Hm Hd Hn. unfold main.
  apply writes_plain_then; [exact banner_not_header|].
  apply writes_plain_then; [reflexivity|].
  apply writes_plain_then; [exact banner_not_header|].
  apply writes_plain_then; [apply (item_not_header "Scan Time")|].
  apply writes_plain_then; [exact empty_not_header|].
  apply (writes_then _ _ [_] _ (writes_render_system h)).
  apply (writes_then _ _ [_] _ (writes_render_bios h)).
  apply (writes_then _ _ [_] _ (writes_render_cpu h)).
  apply (writes_then _ _ [_] _ (writes_render_memory h Hm)).
  apply (writes_then _ _ [_] _ (writes_render_temperature h Hn)).
  apply (writes_then _ _ [_] _ (writes_render_disk h Hn Hd)).
  apply (writes_then _ _ [_] _ (writes_render_network h Hn)).
  apply (writes_then _ _ [_] [] (writes_render_health h Hd)).
  apply writes_plain_then; [exact banner_not_header|].
  apply writes_plain_then; [reflexivity|].
  apply writes_print_plain. exact banner_not_header.
Qed.


(* ===================================================================== *)
(** ** Whole runs, labels and temperature sentinels *)

(** *** Runs that complete *)

Lemma writes_returns (c : io unit) (hs : list string) :
  writes c hs -> snd c = Ok tt.
Proof. intros [[[] H] _]. exact H. Qed.

Lemma for_each_returns {A : Type} (body : A -> io unit) (l : list A) :
  (forall x, snd (body x) = Ok tt) -> snd (for_each l body) = Ok tt.
Proof.
  intros H. induction l as [|x l IH]; cbn [for_each]; [reflexivity|].
  rewrite (io_bind_returns _ _ tt (H x)). exact IH.
Qed.

Lemma print_temps_returns (t : temp_report) : snd (print_temps t) = Ok tt.
Proof.
  destruct t as [s|d]; cbn [print_temps]; [reflexivity|].
  destruct (dict_get "Status" d); [reflexivity|].
  apply for_each_returns. intros [name readings].
  rewrite io_bind_print. cbn [snd]. apply for_each_returns. reflexivity.
Qed.

Lemma render_temperature_returns (h : Host) : snd (render_temperature h) = Ok tt.
Proof.
  unfold render_temperature. rewrite !io_bind_print. cbn [snd].
  rewrite (io_bind_call _ _ _ (get_temperature_info_cases h)).
  rewrite (io_bind_returns _ _ tt (print_temps_returns _)). reflexivity.
Qed.

(** *** Runs that abort *)

Lemma render_disk_aborts (h : Host) (e : exn) :
  get_disk_info h = Raise e ->
  aborts_after (render_disk h) ["DISK STATUS:"; rule] e.
Proof.
  intros E. unfold render_disk. rewrite !io_bind_print, E.
  split; [reflexivity|]. exists []. reflexivity.
Qed.

Lemma main_aborts_at_disk (h : Host) (e : exn) :
  memory_ok h = true -> get_disk_info h = Raise e ->
  aborts_after (main h) ["DISK STATUS:"; rule] e.
Proof.
  intros Hm E. unfold main.
  do 5 apply aborts_print_later.
  apply (aborts_later _ _ tt _ _ (writes_returns _ _ (writes_render_system h))).
  apply (aborts_later _ _ tt _ _ (writes_returns _ _ (writes_render_bios h))).
  apply (aborts_later _ _ tt _ _ (writes_returns _ _ (writes_render_cpu h))).
  apply (aborts_later _ _ tt _ _ (writes_returns _ _ (writes_render_memory h Hm))).
  apply (aborts_later _ _ tt _ _ (render_temperature_returns h)).
  destruct (render_disk_aborts h e E) as [Hs (pre & Hp)].
  split.
  - rewrite (io_bind_raise _ _ (fst (render_disk h)) e); [reflexivity|].
    rewrite <- Hs. destruct (render_disk h); reflexivity.
  - exists pre. rewrite (io_bind_raise _ _ (fst (render_disk h)) e); [exact Hp|].
    rewrite <- Hs. destruct (render_disk h); reflexivity.
Qed.

(** C10.  A usage query that raises anything but a permission error is not
    handled per partition: the exception leaves the Disk Collector and the
    Health Evaluator, the report stops right after the disk header, and the
    top-level handler writes its two lines; a permission error is handled
    for its partition alone. *)
Theorem usage_error_aborts (h : Host) (before after : list sdiskpart)
  (p : sdiskpart) (e : exn) :
  disk_partitions h = (before ++ p :: after)%list ->
  forallb (usage_okb h) before = true ->
  disk_usage h (mountpoint p) = Raise e ->
  is_PermissionError e = false ->
  memory_ok h = true ->
  abort_spec h p e.
Proof.
  intros Hps Hb He Hp Hm.
  pose proof (disk_entry_propagates h p e He Hp) as E1.
  pose proof (health_disk_step_propagates h p e He Hp) as E2.
  assert (E3 : get_disk_info h = Raise e).
  { unfold get_disk_info. rewrite Hps. apply disk_loop_raises; assumption. }
  assert (E4 : check_system_health h = Raise e).
  { unfold check_system_health. rewrite Hps.
    apply health_disk_loop_raises; assumption. }
  pose proof (main_aborts_at_disk h e Hm E3) as A.
  unfold abort_spec. repeat split; try assumption.
  - apply A.
  - apply A.
  - destruct A as [Hs (pre & Hf)]. exists pre. unfold run.
    destruct (main h) as [out r]. cbn [fst snd] in *. subst. 
    rewrite <- app_assoc. reflexivity.
  - apply (disk_entry_denied h q e'); assumption.
  - apply (health_disk_step_denied h q e'); assumption.
Qed.

(** *** Labels *)

Lemma bios_linux (h : Host) :
  platform_system h = "Linux" ->
  bios_body h =
    (bios_read h "/sys/class/dmi/id/board_vendor" "Board Vendor"
       (bios_read h "/sys/class/dmi/id/board_name" "Board Name"
          (bios_read h "/sys/class/dmi/id/bios_version" "BIOS Version" [])),
     None).
Proof. intros E. unfold bios_body. rewrite E. reflexivity. Qed.

(** *** Temperature collector *)

Lemma collect_temps_nonempty (temps : dict (list shwtemp)) :
  forall acc, acc <> [] -> collect_temps temps acc <> [].
Proof.
  induction temps as [|[name entries] temps IH]; intros acc Hacc;
    cbn [collect_temps]; [exact Hacc|].
  apply IH. destruct acc as [|[k v] acc]; cbn [dict_set]; [discriminate|].
  destruct (String.eqb name k); discriminate.
Qed.

(** C4.  The Temperature Collector always returns: the no-sensors sentinel
    when the host has zero sensor groups, the not-available sentinel when
    the sensor query raises, and never an empty collection. *)
Theorem get_temperature_info_total (h : Host) :
  exists t, get_temperature_info h = Ok t /\ temperature_spec h t.
Proof.
  eexists. split; [apply get_temperature_info_cases|].
  unfold temperature_spec, no_sensors, not_available.
  destruct (sensors_temperatures h) as [temps|e].
  - destruct temps as [|[name entries] temps].
    + cbn [collect_temps dict_truthy].
      split; [discriminate|]. split; [reflexivity|]. split; [discriminate|].
      intros temps [= <-] H. contradiction.
    + assert (Hne : collect_temps ((name, entries) :: temps) [] <> []).
      { cbn [collect_temps]. apply collect_temps_nonempty. discriminate. }
      destruct (collect_temps ((name, entries) :: temps) []) as [|x d] eqn:E;
        [contradiction|].
      cbn [dict_truthy].
      split; [discriminate|]. split; [discriminate|]. split; [discriminate|].
      intros temps' _ _. eexists. reflexivity.
  - split; [discriminate|]. split; [discriminate|]. split; [reflexivity|].
    discriminate.
Qed.


(* ===================================================================== *)
(** ** BIOS, gigabytes, readings and interfaces *)

(** *** BIOS collector *)

Lemma split_once_contains (c : ascii) (s : string) :
  contains (String c EmptyString) s = true ->
  exists a b, split_once c s = Some (a, b).
Proof.
  induction s as [|x s IH]; cbn [contains String.prefix split_once orb].
  - discriminate.
  - destruct (Ascii.eqb x c) eqn:E; [eauto|].
    destruct (ascii_dec c x) as [->|N].
    + rewrite Ascii.eqb_refl in E. discriminate.
    + cbn [orb]. intros H. destruct (IH H) as (a & b & ->). eauto.
Qed.

Lemma bios_parse_no_exn (lines : list string) :
  forall bios_info, snd (bios_parse lines bios_info) = None.
Proof.
  induction lines as [|line rest IH]; intros bios_info; cbn [bios_parse];
    [reflexivity|].
  destruct (contains "=" line) eqn:C; cbn [andb]; [|apply IH].
  destruct (str_truthy (strip line)); [|apply IH].
  destruct (split_once_contains "=" line C) as (key & value & ->).
  destruct (str_truthy (strip value)); apply IH.
Qed.

Lemma bios_body_exn (h : Host) (e : exn) :
  snd (bios_body h) = Some e ->
  bios_body h = ([], Some e) /\
  platform_system h = "Windows" /\ run_wmic h = Raise e.
Proof.
  unfold bios_body.
  destruct (String.eqb (platform_system h) "Windows") eqn:W.
  - apply String.eqb_eq in W. destruct (run_wmic h) as [r|e'].
    + destruct (returncode r =? 0); [|discriminate].
      rewrite bios_parse_no_exn. discriminate.
    + cbn [snd]. intros [= ->]. auto.
  - destruct (String.eqb (platform_system h) "Linux"); discriminate.
Qed.

(** C5.  The BIOS collector always returns a non-empty mapping: the
    not-accessible sentinel on a platform that is neither Windows nor Linux
    and whenever nothing was collected, and a single [Error] entry carrying
    the description whenever the tool invocation fails. *)
Theorem get_bios_info_total (h : Host) :
  exists d, get_bios_info h = Ok d /\ bios_spec h d.
Proof.
  unfold get_bios_info, bios_spec.
  pose proof (bios_body_exn h) as X.
  assert (HO : platform_system h <> "Windows" -> platform_system h <> "Linux" ->
               bios_body h = ([], None)).
  { intros HW HL. unfold bios_body.
    apply String.eqb_neq in HW, HL. rewrite HW, HL. reflexivity. }
  assert (HR : platform_system h = "Windows" -> forall e, run_wmic h = Raise e ->
               bios_body h = ([], Some e)).
  { intros HW e He. unfold bios_body.
    apply String.eqb_eq in HW. rewrite HW, He. reflexivity. }
  destruct (bios_body h) as [bios_info [e|]].
  - destruct (X e eq_refl) as ([= ->] & _ & _).
    eexists. split; [reflexivity|]. cbn [dict_set dict_truthy snd].
    split; [discriminate|]. split; [intros HW HL; discriminate (HO HW HL)|].
    split; [discriminate|]. split.
    + intros e' [= <-]. reflexivity.
    + intros HW e' He. injection (HR HW e' He) as <-. reflexivity.
  - eexists. split; [reflexivity|].
    split; [destruct bios_info; discriminate|].
    split; [intros HW HL; injection (HO HW HL) as ->; reflexivity|].
    split; [intros [= ->]; reflexivity|]. split.
    + discriminate.
    + intros HW e' He. discriminate (HR HW e' He).
Qed.

(** *** Gigabytes *)

Lemma gb_decimal (b : Z) : in_range b = true -> gb_spec b.
Proof.
  intros H. apply in_range_spec in H.
  destruct (py_truediv_returns b (1024 ^ 3) H ltac:(discriminate)) as (q & E & B).
  exists q, (format_fixed 2 q). split; [exact E|]. split.
  - apply format_fixed_places; [apply (bounded_float_finite _ _ B)|lia].
  - unfold gb. rewrite E. reflexivity.
Qed.

(** C6.  Every byte-to-gigabyte conversion divides by [1024^3] and shows the
    quotient to two decimal places followed by [" GB"] (below [2^53] bytes
    the quotient is exact, so the text is the exact number of gigabytes to
    the nearest hundredth): this is the value of the three gigabyte fields
    of the Memory Collector and of the three of the Disk Collector;
    1073741824 bytes give ["1.00 GB"] and 0 bytes give ["0.00 GB"]. *)
Theorem bytes_to_gigabytes :
  (forall b, in_range b = true -> gb_spec b) /\
  (forall b, 0 <= b < 2 ^ 53 -> gb_exact_spec b) /\
  gb 1073741824 = Ok "1.00 GB" /\
  gb 0 = Ok "0.00 GB" /\
  (forall h, memory_ok h = true -> memory_gb_spec h) /\
  (forall h p u, disk_usage h (mountpoint p) = Ok u ->
                 usage_in_range u = true -> disk_gb_spec h p u).
Proof.
  split; [exact gb_decimal|]. split; [exact gb_exact_shown|].
  split; [vm_compute; reflexivity|].
  split; [vm_compute; reflexivity|]. split.
  - intros h Hm.
    destruct (get_memory_info_returns h Hm) as (t & a & s & Et & Ea & Es & E).
    unfold memory_gb_spec. eexists. exists t, a, s.
    split; [exact E|]. repeat split; assumption.
  - intros h p u Eu Hu.
    assert (Hok : usage_okb h p = true) by (unfold usage_okb; rewrite Eu; exact Hu).
    pose proof (disk_entry_spec h p Hok) as S. rewrite Eu in S.
    destruct S as (tot & usd & fre & pct & Et & Eus & Ef & _ & _ & E).
    unfold disk_gb_spec. eexists. exists tot, usd, fre.
    split; [exact E|]. repeat split; assumption.
Qed.

(** *** Temperature readings *)

Lemma degrees_not_na (s : string) : s ++ degrees <> "N/A".
Proof.
  intros H. destruct s as [|c s].
  - vm_compute in H. discriminate H.
  - apply (f_equal String.length) in H.
    change (String c s ++ degrees) with (String c (s ++ degrees)) in H.
    cbn [String.length] in H. rewrite length_app in H.
    change (String.length degrees) with 3%nat in H. lia.
Qed.

Lemma threshold_shown (x : option float) :
  threshold_spec x
    match x with
    | Some v => if float_truthy v then format_fixed 1 v ++ degrees else "N/A"
    | None => "N/A"
    end.
Proof.
  unfold threshold_spec, unreported. destruct x as [v|].
  - destruct (float_truthy v) eqn:T.
    + split.
      * split.
        -- intros H. exfalso. exact (degrees_not_na _ H).
        -- intros [H|(v' & [= <-] & H)]; [discriminate|congruence].
      * intros v' [= <-] _. split; [reflexivity|].
        intros F. apply format_fixed_places; [exact F|lia].
    + split.
      * split; [|reflexivity]. intros _. right. exists v. auto.
      * intros v' [= <-] H. congruence.
  - split.
    + split; [|reflexivity]. intros _. left. reflexivity.
    + discriminate.
Qed.

Lemma temp_data_spec (entry : shwtemp) : reading_spec entry (temp_data entry).
Proof.
  unfold reading_spec, temp_data. cbn [r_label r_current r_high r_critical].
  split; [|split; [|split; [reflexivity|split; [|split]]]].
  - intros ->. reflexivity.
  - intros H. destruct (label entry); [contradiction|reflexivity].
  - intros F. apply format_fixed_places; [exact F|lia].
  - apply threshold_shown.
  - apply threshold_shown.
Qed.

Lemma collect_temps_distinct (temps : dict (list shwtemp)) :
  forall acc,
  NoDup (dict_keys acc ++ dict_keys temps) ->
  collect_temps temps acc =
  (acc ++ map (fun kv => (fst kv, map temp_data (snd kv))) temps)%list.
Proof.
  induction temps as [|[name entries] temps IH]; intros acc Hnd;
    cbn [collect_temps map].
  - rewrite app_nil_r. reflexivity.
  - assert (Hfresh : ~ In name (dict_keys acc)).
    { intros Hin. cbn [dict_keys map fst] in Hnd.
      apply NoDup_remove_2 in Hnd. apply Hnd. apply in_or_app. left. exact Hin. }
    rewrite dict_set_fresh by exact Hfresh.
    rewrite IH.
    + rewrite <- app_assoc. reflexivity.
    + unfold dict_keys in *. rewrite map_app, <- app_assoc. exact Hnd.
Qed.

(** C8 (amended).  For every sensor of every group, the reading has the
    sensor's label, or ["N/A"] when the label is empty; the current
    temperature to one decimal place followed by the degree sign and C; and
    each of high and critical shown as ["N/A"] exactly when the sensor does
    not report it or reports zero, and to one decimal place otherwise. *)
Theorem temperature_readings (h : Host) (temps : dict (list shwtemp))
  (name : string) (entries : list shwtemp) :
  sensors_temperatures h = Ok temps ->
  distinct (dict_keys temps) = true ->
  In (name, entries) temps ->
  exists d rs,
    get_temperature_info h = Ok (TempGroups d) /\
    dict_get name d = Some rs /\
    Forall2 reading_spec entries rs.
Proof.
  intros Et Hd Hin. apply distinct_NoDup in Hd.
  pose proof (collect_temps_distinct temps [] Hd) as Ec. cbn [app] in Ec.
  exists (collect_temps temps []), (map temp_data entries).
  split; [|split].
  - rewrite get_temperature_info_cases, Et, Ec.
    destruct temps; [contradiction|reflexivity].
  - rewrite Ec. apply dict_get_In.
    + unfold dict_keys. rewrite map_map. exact Hd.
    + apply (in_map (fun kv => (fst kv, map temp_data (snd kv)))) in Hin.
      exact Hin.
  - clear. induction entries as [|entry entries IH]; cbn [map]; constructor;
      [apply temp_data_spec|exact IH].
Qed.

(** *** Network interfaces *)


Lemma network_loop_distinct (stats : dict snicstats)
  (interfaces : dict (list snicaddr)) :
  forall acc,
  NoDup (dict_keys acc ++ dict_keys interfaces) ->
  network_loop stats interfaces acc =
  (acc ++ map (fun kv => (fst kv, iface_entry stats (fst kv) (snd kv))) interfaces)%list.
Proof.
  induction interfaces as [|[name addrs] interfaces IH]; intros acc Hnd;
    cbn [network_loop map].
  - rewrite app_nil_r. reflexivity.
  - assert (Hfresh : ~ In name (dict_keys acc)).
    { intros Hin. cbn [dict_keys map fst] in Hnd.
      apply NoDup_remove_2 in Hnd. apply Hnd. apply in_or_app. left. exact Hin. }
    rewrite dict_set_fresh by exact Hfresh.
    rewrite IH.
    + rewrite <- app_assoc. reflexivity.
    + unfold dict_keys in *. rewrite map_app, <- app_assoc. exact Hnd.
Qed.

(* ===================================================================== *)
(** ** The sample hosts, evaluated *)

Example health_of_host_linux :
  check_system_health host_linux =
  Ok [ ("timestamp", "2024-03-01 12:00:00");
       ("uptime", "1 day, 2:03:04.000005");
       ("boot_time", "2024-02-29 09:56:55");
       ("memory_warning", "High memory usage: 90.0%");
       ("disk_warning_/dev/sda1", "Low disk space: 95.0% used") ].
Proof. vm_compute. reflexivity. Qed.

Example disks_of_host_linux :
  get_disk_info host_linux =
  Ok [ ("/dev/sda1",
        [ ("Mountpoint", "/"); ("File System", "ext4");
          ("Total Size", "100.00 GB"); ("Used", "95.00 GB");
          ("Free", "5.00 GB"); ("Usage %", "95.0%") ]);
       ("/dev/sdb1", [ ("Status", "Permission denied") ]) ].
Proof. vm_compute. reflexivity. Qed.

(** The float renderings on a few values. *)
Example float_renderings :
  map float_repr [ tenths 1; tenths 905; float_of_Z 81; float_of_Z (10 ^ 16);
                   SFdiv prec emax (float_of_Z 1) (float_of_Z 3) ] =
    [ "0.1"; "90.5"; "81.0"; "1e+16"; "0.3333333333333333" ] /\
  map (format_fixed 1) [ tenths 1; tenths 905; float_of_Z 81; S754_zero true ] =
    [ "0.1"; "90.5"; "81.0"; "-0.0" ] /\
  format_fixed 2 (SFdiv prec emax (float_of_Z 1) (float_of_Z 8)) = "0.12".
Proof. repeat split; vm_compute; reflexivity. Qed.

(** The percentage is the one computed in binary64: a partition filled a
    hair above nine tenths is not above 90 once the quotient is rounded. *)
Example percent_is_rounded :
  exists pct,
    usage_percent {| total := 10 ^ 17; used := 9 * 10 ^ 16 + 1; free := 0 |}
      = Ok pct /\
    float_gt_Z pct 90 = false /\
    90 * 10 ^ 17 < 100 * (9 * 10 ^ 16 + 1).
Proof.
  eexists. split; [vm_compute; reflexivity|].
  split; [vm_compute; reflexivity|]. vm_compute. reflexivity.
Qed.

(** A partition that reports a total of zero bytes stops both disk loops. *)
Example zero_total_raises (h : Host) (p : sdiskpart) (u : sdiskusage) :
  disk_usage h (mountpoint p) = Ok u -> total u = 0 ->
  in_range (used u) = true -> in_range (free u) = true ->
  disk_entry h p = Raise (mkExn ZeroDivisionError "division by zero") /\
  forall hs, health_disk_step h p hs =
             Raise (mkExn ZeroDivisionError "division by zero").
Proof.
  intros E T Hu Hf. unfold disk_entry, health_disk_step, usage_percent.
  rewrite E. cbn [bind]. rewrite T.
  destruct (gb_returns _ Hu) as (su & Eu). destruct (gb_returns _ Hf) as (sf & Ef).
  unfold gb in Eu, Ef.
  destruct (py_truediv (used u) (1024 ^ 3)); cbn [bind] in Eu; [|discriminate].
  destruct (py_truediv (free u) (1024 ^ 3)); cbn [bind] in Ef; [|discriminate].
  change (py_truediv 0 (1024 ^ 3)) with (Ok (S754_zero false)).
  change (py_truediv (used u) 0)
    with (@Raise float (mkExn ZeroDivisionError "division by zero")).
  split; reflexivity.
Qed.

(** A device named like a header repeats that header's text in the report. *)
Example header_text_as_device_name :
  names_ok host_odd_device = false /\
  count_occ string_dec (run host_odd_device) "DISK STATUS:" = 2%nat.
Proof. split; vm_compute; reflexivity. Qed.

(* ===================================================================== *)
(** ** Instances of the theorems and counterexamples *)

Lemma check_system_health_warnings_witness :
  disks_ok host_linux = true /\
  exists d, check_system_health host_linux = Ok d /\ warnings_spec host_linux d.
Proof.
  split; [vm_compute; reflexivity|].
  apply (check_system_health_warnings host_linux). vm_compute. reflexivity.
Defined.

(** With one device mounted twice, the half-full data mount is readable and
    does not exceed 90%, yet the warning keyed by its device is present. *)
Lemma health_claim_counterexample :
  exists d, check_system_health host_shared_device = Ok d /\
            ~ health_claim host_shared_device d.
Proof.
  eexists. split; [vm_compute; reflexivity|].
  intros (_ & _ & H).
  specialize (H data_partition data_usage (or_intror (or_introl eq_refl)) eq_refl).
  destruct H as [H _].
  destruct (H eq_refl) as (u & pct & Eu & Ep & G).
  injection Eu as <-. vm_compute in Ep. injection Ep as <-.
  vm_compute in G. discriminate G.
Qed.

Lemma get_disk_info_entries_witness :
  distinct (map device (disk_partitions host_linux)) = true /\
  disks_ok host_linux = true /\
  exists d, get_disk_info host_linux = Ok d /\ disk_info_spec host_linux d.
Proof.
  split; [vm_compute; reflexivity|]. split; [vm_compute; reflexivity|].
  apply (get_disk_info_entries host_linux); vm_compute; reflexivity.
Defined.

(** Two partitions on one device leave a single entry. *)
Lemma disk_claim_counterexample :
  exists d, get_disk_info host_shared_device = Ok d /\
            ~ disk_claim host_shared_device d.
Proof.
  eexists. split; [vm_compute; reflexivity|].
  unfold disk_claim. vm_compute. discriminate.
Qed.


Lemma get_temperature_info_total_witness :
  exists t, get_temperature_info host_linux = Ok t /\
            temperature_spec host_linux t.
Proof. exact (get_temperature_info_total host_linux). Defined.

Lemma get_bios_info_total_witness :
  exists d, get_bios_info host_linux = Ok d /\ bios_spec host_linux d.
Proof. exact (get_bios_info_total host_linux). Defined.

Lemma bytes_to_gigabytes_witness :
  in_range 1073741824 = true /\ gb_spec 1073741824.
Proof.
  split; [vm_compute; reflexivity|].
  apply (proj1 bytes_to_gigabytes). vm_compute. reflexivity.
Defined.

(** The vanished mount ends the run inside the disk section: the network and
    health headers are never written. *)
Lemma headers_claim_counterexample : ~ headers_claim host_vanished_mount.
Proof. unfold headers_claim. vm_compute. discriminate. Qed.

Lemma temperature_readings_witness :
  sensors_temperatures host_linux =
    Ok [ ("coretemp", [cpu_sensor]); ("acpitz", [board_sensor]) ] /\
  distinct (dict_keys [ ("coretemp", [cpu_sensor]); ("acpitz", [board_sensor]) ])
    = true /\
  In ("acpitz", [board_sensor])
     [ ("coretemp", [cpu_sensor]); ("acpitz", [board_sensor]) ] /\
  exists d rs,
    get_temperature_info host_linux = Ok (TempGroups d) /\
    dict_get "acpitz" d = Some rs /\
    Forall2 reading_spec [board_sensor] rs.
Proof.
  split; [reflexivity|]. split; [vm_compute; reflexivity|].
  split; [right; left; reflexivity|].
  apply (temperature_readings host_linux
           [ ("coretemp", [cpu_sensor]); ("acpitz", [board_sensor]) ]).
  - reflexivity.
  - vm_compute. reflexivity.
  - right. left. reflexivity.
Defined.

(** The board sensor reports a high threshold of zero, shown as N/A. *)
Lemma threshold_claim_counterexample :
  exists d r,
    get_temperature_info host_linux = Ok (TempGroups d) /\
    dict_get "acpitz" d = Some [r] /\
    high board_sensor = Some (S754_zero false) /\
    ~ threshold_claim board_sensor r.
Proof.
  eexists. eexists. split; [vm_compute; reflexivity|].
  split; [vm_compute; reflexivity|]. split; [reflexivity|].
  unfold threshold_claim. intros [H _]. cbn [r_high] in H.
  discriminate (H eq_refl).
Qed.

Lemma usage_error_aborts_witness :
  disk_partitions host_vanished_mount = ([root_partition] ++ backup_partition :: [])%list /\
  forallb (usage_okb host_vanished_mount) [root_partition] = true /\
  disk_usage host_vanished_mount (mountpoint backup_partition) = Raise vanished /\
  is_PermissionError vanished = false /\
  memory_ok host_vanished_mount = true /\
  abort_spec host_vanished_mount backup_partition vanished.
Proof.
  split; [reflexivity|]. split; [vm_compute; reflexivity|].
  split; [reflexivity|]. split; [reflexivity|]. split; [vm_compute; reflexivity|].
  apply (usage_error_aborts host_vanished_mount [root_partition] []).
  - reflexivity.
  - vm_compute. reflexivity.
  - reflexivity.
  - reflexivity.
  - vm_compute. reflexivity.
Defined.


(* ===================================================================== *)
(** ** Shared devices and zero-sized partitions *)

Lemma dict_keys_set_iff {V : Type} (k k' : string) (v : V) (d : dict V) :
  In k (dict_keys (dict_set k' v d)) <-> k = k' \/ In k (dict_keys d).
Proof.
  induction d as [|[k2 v2] d IH]; cbn [dict_set dict_keys map fst In].
  - split; [intros [<-|[]]; auto|intros [->|[]]; auto].
  - destruct (String.eqb k' k2) eqn:E; cbn [map fst In].
    + apply String.eqb_eq in E. subst k2. split; [intros [<-|H]; auto|].
      intros [->|[<-|H]]; auto.
    + fold (dict_keys (dict_set k' v d)). fold (dict_keys d). rewrite IH. tauto.
Qed.

Lemma dict_set_NoDup {V : Type} (k : string) (v : V) (d : dict V) :
  NoDup (dict_keys d) -> NoDup (dict_keys (dict_set k v d)).
Proof.
  induction d as [|[k2 v2] d IH]; cbn [dict_set dict_keys map fst]; intros Hnd.
  - constructor; [intros []|constructor].
  - inversion Hnd as [|? ? Hn Hd]; subst.
    destruct (String.eqb k k2) eqn:E; cbn [map fst].
    + apply String.eqb_eq in E. subst k2. constructor; assumption.
    + apply String.eqb_neq in E. constructor.
      * fold (dict_keys (dict_set k v d)). rewrite dict_keys_set_iff.
        intros [H|H]; [congruence|contradiction].
      * apply IH. exact Hd.
Qed.

Lemma disk_loop_shape (h : Host) (ps : list sdiskpart) :
  forall acc d, disk_loop h ps acc = Ok d ->
  (NoDup (dict_keys acc) -> NoDup (dict_keys d)) /\
  (forall dev, In dev (dict_keys d) <->
               In dev (dict_keys acc) \/ In dev (map device ps)) /\
  (forall dev, dict_get dev d =
               match last_with dev ps with
               | Some p => Some (entry_of h p)
               | None => dict_get dev acc
               end).
Proof.
  induction ps as [|p ps IH]; intros acc d; cbn [disk_loop map In last_with].
  - intros [= <-]. split; [auto|]. split; [tauto|reflexivity].
  - destruct (disk_entry h p) as [entry|e] eqn:Ee; cbn [bind]; [|discriminate].
    intros Hl. destruct (IH _ _ Hl) as (H1 & H2 & H3).
    split; [|split].
    + intros Hnd. apply H1. apply dict_set_NoDup. exact Hnd.
    + intros dev. rewrite H2, dict_keys_set_iff. intuition congruence.
    + intros dev. rewrite H3. destruct (last_with dev ps); [reflexivity|].
      destruct (String.eqb dev (device p)) eqn:E.
      * apply String.eqb_eq in E. subst dev. rewrite dict_get_set_same.
        unfold entry_of. rewrite Ee. reflexivity.
      * apply String.eqb_neq in E. apply dict_get_set_other. exact E.
Qed.

Lemma disk_loop_returns (h : Host) (ps : list sdiskpart) :
  forall acc, forallb (usage_okb h) ps = true ->
  exists d, disk_loop h ps acc = Ok d.
Proof.
  induction ps as [|p ps IH]; intros acc Hps; cbn [disk_loop].
  - eexists; reflexivity.
  - cbn [forallb] in Hps. apply andb_true_iff in Hps. destruct Hps as [Hp Hps].
    rewrite (disk_entry_returns h p Hp). cbn [bind]. apply IH. exact Hps.
Qed.

Lemma NoDup_same_length (l1 l2 : list string) :
  NoDup l1 -> NoDup l2 -> (forall x, In x l1 <-> In x l2) ->
  List.length l1 = List.length l2.
Proof.
  intros H1 H2 H. apply Nat.le_antisymm.
  - apply NoDup_incl_length; [exact H1|]. intros x Hx. apply H. exact Hx.
  - apply NoDup_incl_length; [exact H2|]. intros x Hx. apply H. exact Hx.
Qed.

(** X1.  Whatever the device names, the Disk Collector keeps one entry per
    distinct device name, and the entry of a device mounted several times is
    that of its last partition. *)
Theorem get_disk_info_shared_devices (h : Host) :
  disks_ok h = true ->
  exists d,
    get_disk_info h = Ok d /\
    NoDup (dict_keys d) /\
    (forall dev, In dev (dict_keys d) <-> In dev (map device (disk_partitions h))) /\
    List.length d =
      List.length (nodup string_dec (map device (disk_partitions h))) /\
    (forall dev p, last_with dev (disk_partitions h) = Some p ->
                   dict_get dev d = Some (entry_of h p)).
Proof.
  intros Hok. destruct (disk_loop_returns h _ [] Hok) as (d & Ed).
  destruct (disk_loop_shape h _ _ _ Ed) as (H1 & H2 & H3).
  exists d. split; [exact Ed|].
  assert (Hnd : NoDup (dict_keys d)) by (apply H1; constructor).
  assert (Hin : forall dev, In dev (dict_keys d) <->
                            In dev (map device (disk_partitions h))).
  { intros dev. rewrite H2. cbn [dict_keys map In]. tauto. }
  split; [exact Hnd|]. split; [exact Hin|]. split.
  - rewrite <- (length_map fst d). fold (dict_keys d).
    apply NoDup_same_length; [exact Hnd|apply NoDup_nodup|].
    intros x. rewrite Hin, nodup_In. tauto.
  - intros dev p Hp. rewrite H3, Hp. reflexivity.
Qed.

(** X2.  A readable partition of size zero ends the whole report: both disk
    loops raise [ZeroDivisionError], and the run stops after the disk header
    with the handler's two lines. *)
Theorem zero_total_aborts (h : Host) (before after : list sdiskpart)
  (p : sdiskpart) (u : sdiskusage) :
  disk_partitions h = (before ++ p :: after)%list ->
  forallb (usage_okb h) before = true ->
  disk_usage h (mountpoint p) = Ok u ->
  total u = 0 -> in_range (used u) = true -> in_range (free u) = true ->
  memory_ok h = true ->
  get_disk_info h = Raise (mkExn ZeroDivisionError "division by zero") /\
  check_system_health h = Raise (mkExn ZeroDivisionError "division by zero") /\
  exists pre,
    run h = (pre ++ [ "DISK STATUS:"; rule;
                      "Error running system check: division by zero";
                      "Make sure you're running with appropriate permissions." ])%list.
Proof.
  intros Hps Hb Eu T Hu Hf Hm.
  destruct (zero_total_raises h p u Eu T Hu Hf) as [E1 E2].
  assert (E3 : get_disk_info h = Raise (mkExn ZeroDivisionError "division by zero")).
  { unfold get_disk_info. rewrite Hps. apply disk_loop_raises; assumption. }
  split; [exact E3|]. split.
  - unfold check_system_health. rewrite Hps.
    apply health_disk_loop_raises; assumption.
  - destruct (main_aborts_at_disk h _ Hm E3) as [Hs (pre & Hf')].
    exists pre. unfold run. destruct (main h) as [out r]. cbn [fst snd] in *.
    subst. rewrite <- app_assoc. reflexivity.
Qed.


(* ===================================================================== *)
(** ** The health mapping *)

Lemma health_disk_step_get (h : Host) (p : sdiskpart) (hs hs' : dict string) :
  health_disk_step h p hs = Ok hs' ->
  hs' = if exceeds_90b h p
        then dict_set (disk_warning_key p) (disk_warning_text h p) hs
        else hs.
Proof.
  unfold health_disk_step, exceeds_90b, disk_warning_text.
  destruct (disk_usage h (mountpoint p)) as [u|e]; cbn [bind try_except_if].
  - destruct (usage_percent u) as [pct|e]; cbn [bind try_except_if].
    + destruct (float_gt_Z pct 90); intros [= <-]; reflexivity.
    + destruct (is_PermissionError e); [|discriminate]. intros [= <-]. reflexivity.
  - destruct (is_PermissionError e); [|discriminate]. intros [= <-]. reflexivity.
Qed.

Lemma health_disk_loop_get (h : Host) (ps : list sdiskpart) :
  forall hs d, health_disk_loop h ps hs = Ok d ->
  forall k, dict_get k d =
            match last_warning h ps k with
            | Some m => Some m
            | None => dict_get k hs
            end.
Proof.
  induction ps as [|p ps IH]; intros hs d; cbn [health_disk_loop last_warning].
  - intros [= <-] k. reflexivity.
  - destruct (health_disk_step h p hs) as [hs'|e] eqn:Es; cbn [bind];
      [|discriminate].
    intros Hl k. rewrite (IH _ _ Hl k).
    destruct (last_warning h ps k); [reflexivity|].
    rewrite (health_disk_step_get h p hs hs' Es).
    destruct (exceeds_90b h p); rewrite ?andb_false_r; [|reflexivity].
    rewrite andb_true_r. destruct (String.eqb k (disk_warning_key p)) eqn:E.
    + apply String.eqb_eq in E. subst k. apply dict_get_set_same.
    + apply String.eqb_neq in E. apply dict_get_set_other. exact E.
Qed.

Lemma last_warning_other (h : Host) (ps : list sdiskpart) (k : string) :
  (forall p, In p ps -> k <> disk_warning_key p) -> last_warning h ps k = None.
Proof.
  induction ps as [|p ps IH]; intros H; cbn [last_warning]; [reflexivity|].
  rewrite IH by (intros q Hq; apply H; right; exact Hq).
  assert (E : String.eqb k (disk_warning_key p) = false).
  { apply String.eqb_neq. apply H. left. reflexivity. }
  rewrite E. reflexivity.
Qed.

Lemma disk_warning_key_eq (p q : sdiskpart) :
  disk_warning_key p = disk_warning_key q -> device p = device q.
Proof.
  intros E. symmetry. apply (disk_warning_key_inj q (device p)). exact E.
Qed.

Lemma last_warning_distinct (h : Host) (ps : list sdiskpart) (p : sdiskpart) :
  NoDup (map device ps) -> In p ps ->
  last_warning h ps (disk_warning_key p) =
  if exceeds_90b h p then Some (disk_warning_text h p) else None.
Proof.
  induction ps as [|q ps IH]; intros Hnd Hin; [contradiction|].
  cbn [map] in Hnd. inversion Hnd as [|? ? Hn Hd]; subst.
  cbn [last_warning]. destruct Hin as [->|Hin].
  - rewrite last_warning_other.
    + rewrite String.eqb_refl. reflexivity.
    + intros r Hr E. apply Hn.
      apply disk_warning_key_eq in E. rewrite E.
      apply in_map. exact Hr.
  - rewrite (IH Hd Hin). destruct (exceeds_90b h p); [reflexivity|].
    assert (E : String.eqb (disk_warning_key p) (disk_warning_key q) = false).
    { apply String.eqb_neq. intros E. apply disk_warning_key_eq in E.
      apply Hn. rewrite <- E. apply in_map. exact Hin. }
    rewrite E. reflexivity.
Qed.

Lemma health_start_get_cpu (h : Host) :
  dict_get "cpu_warning" (health_memory h (health_cpu h (health_base h))) =
  if float_gt_Z (cpu_percent h) 80
  then Some ("High CPU usage: " ++ float_repr (cpu_percent h) ++ "%")
  else None.
Proof.
  unfold health_memory, health_cpu, health_base.
  destruct (float_gt_Z (cpu_percent h) 80);
    destruct (float_gt_Z (vm_percent (virtual_memory h)) 85); reflexivity.
Qed.

Lemma health_start_get_memory (h : Host) :
  dict_get "memory_warning" (health_memory h (health_cpu h (health_base h))) =
  if float_gt_Z (vm_percent (virtual_memory h)) 85
  then Some ("High memory usage: " ++
             float_repr (vm_percent (virtual_memory h)) ++ "%")
  else None.
Proof.
  unfold health_memory, health_cpu, health_base.
  destruct (float_gt_Z (cpu_percent h) 80);
    destruct (float_gt_Z (vm_percent (virtual_memory h)) 85); reflexivity.
Qed.

Lemma health_start_get_disk (h : Host) (p : sdiskpart) :
  dict_get (disk_warning_key p)
    (health_memory h (health_cpu h (health_base h))) = None.
Proof.
  pose proof (health_start_disk h (device p)) as H. unfold dict_mem in H.
  fold (disk_warning_key p) in H.
  destruct (dict_get _ _); [discriminate|reflexivity].
Qed.

(** X3.  Each warning entry carries its measurement: the CPU and memory warnings
    the sampled percentage as Python prints it, the warning of a partition
    (device names pairwise distinct) its percentage to one decimal place. *)
Theorem warning_messages (h : Host) (d : dict string) :
  check_system_health h = Ok d ->
  distinct (map device (disk_partitions h)) = true ->
  dict_get "cpu_warning" d =
    (if float_gt_Z (cpu_percent h) 80
     then Some ("High CPU usage: " ++ float_repr (cpu_percent h) ++ "%")
     else None) /\
  dict_get "memory_warning" d =
    (if float_gt_Z (vm_percent (virtual_memory h)) 85
     then Some ("High memory usage: " ++
                float_repr (vm_percent (virtual_memory h)) ++ "%")
     else None) /\
  forall p, In p (disk_partitions h) ->
    dict_get (disk_warning_key p) d =
      (if exceeds_90b h p then Some (disk_warning_text h p) else None).
Proof.
  intros Ed Hd. apply distinct_NoDup in Hd.
  pose proof (health_disk_loop_get h _ _ _ Ed) as G.
  split; [|split].
  - rewrite G, last_warning_other; [apply health_start_get_cpu|].
    intros p _. discriminate.
  - rewrite G, last_warning_other; [apply health_start_get_memory|].
    intros p _. discriminate.
  - intros p Hin. rewrite G, (last_warning_distinct h _ p Hd Hin).
    destruct (exceeds_90b h p); [reflexivity|apply health_start_get_disk].
Qed.

Lemma health_disk_loop_healthy (h : Host) (ps : list sdiskpart) :
  forall hs d, health_disk_loop h ps hs = Ok d ->
  forallb (fun p => negb (exceeds_90b h p)) ps = true -> d = hs.
Proof.
  induction ps as [|p ps IH]; intros hs d; cbn [health_disk_loop forallb].
  - intros [= <-] _. reflexivity.
  - destruct (health_disk_step h p hs) as [hs'|e] eqn:Es; cbn [bind];
      [|discriminate].
    intros Hl Hn. apply andb_true_iff in Hn. destruct Hn as [Hp Hps].
    rewrite (IH _ _ Hl Hps), (health_disk_step_get h p hs hs' Es).
    apply negb_true_iff in Hp. rewrite Hp. reflexivity.
Qed.

Lemma exceeds_90b_spec (h : Host) (p : sdiskpart) :
  exceeds_90b h p = true <-> exceeds_90 h p.
Proof.
  unfold exceeds_90b, exceeds_90. split.
  - destruct (disk_usage h (mountpoint p)) as [u|e]; [|discriminate].
    destruct (usage_percent u) as [pct|e] eqn:E; [|discriminate].
    intros G. exists u, pct. auto.
  - intros (u & pct & -> & -> & G). exact G.
Qed.

(** X4.  The returned health mapping is exactly the three base entries if and
    only if no threshold is exceeded. *)
Theorem healthy_mapping (h : Host) (d : dict string) :
  check_system_health h = Ok d ->
  (d = health_base h <-> healthy h = true).
Proof.
  intros Ed. unfold healthy. rewrite !andb_true_iff, !negb_true_iff. split.
  - intros ->.
    pose proof (health_disk_loop_mem h _ _ _ Ed) as M.
    assert (C : float_gt_Z (cpu_percent h) 80 = false).
    { destruct (float_gt_Z (cpu_percent h) 80) eqn:C; [|reflexivity].
      assert (X : dict_mem "cpu_warning" (health_base h) = true).
      { apply M. left. rewrite health_start_cpu. exact C. }
      discriminate X. }
    assert (Mm : float_gt_Z (vm_percent (virtual_memory h)) 85 = false).
    { destruct (float_gt_Z (vm_percent (virtual_memory h)) 85) eqn:C';
        [|reflexivity].
      assert (X : dict_mem "memory_warning" (health_base h) = true).
      { apply M. left. rewrite health_start_memory. exact C'. }
      discriminate X. }
    split; [split; assumption|].
    apply forallb_forall. intros p Hin. apply negb_true_iff.
    destruct (exceeds_90b h p) eqn:X; [|reflexivity].
    apply exceeds_90b_spec in X.
    assert (Y : dict_mem (disk_warning_key p) (health_base h) = true).
    { apply M. right. exists p. auto. }
    discriminate Y.
  - intros [[C Mm] Hn]. unfold check_system_health in Ed.
    rewrite (health_disk_loop_healthy h _ _ _ Ed).
    + unfold health_memory, health_cpu. rewrite C, Mm. reflexivity.
    + apply forallb_forall. intros p Hin. rewrite forallb_forall in Hn.
      apply Hn. exact Hin.
Qed.


(* ===================================================================== *)
(** ** Lines and streams *)

(** *** Texts without a line feed *)

Lemma single_line_app (a b : string) :
  single_line (a ++ b) = single_line a && single_line b.
Proof.
  induction a as [|c a IH]; cbn [append single_line]; [reflexivity|].
  rewrite IH, andb_assoc. reflexivity.
Qed.

Lemma split_char_single (s : string) :
  single_line s = true -> split_char LF s = [s].
Proof.
  induction s as [|c s IH]; cbn [single_line split_char]; [reflexivity|].
  intros H. apply andb_true_iff in H. destruct H as [Hc Hs].
  apply negb_true_iff in Hc. rewrite Hc, (IH Hs). reflexivity.
Qed.

Lemma stdout_lines_single (out : list string) :
  forallb single_line out = true -> stdout_lines out = out.
Proof.
  unfold stdout_lines. induction out as [|s out IH]; cbn [forallb flat_map];
    [reflexivity|].
  intros H. apply andb_true_iff in H. destruct H as [Hs Ho].
  rewrite (split_char_single s Hs), (IH Ho). reflexivity.
Qed.

Lemma all_digits_single_line (s : string) :
  all_digits s = true -> single_line s = true.
Proof.
  induction s as [|c s IH]; cbn [all_digits single_line]; [reflexivity|].
  intros H. apply andb_true_iff in H. destruct H as [Hc Hs].
  rewrite (IH Hs), andb_true_r. apply negb_true_iff.
  destruct (Ascii.eqb c LF) eqn:E; [|reflexivity].
  apply Ascii.eqb_eq in E. subst c. discriminate Hc.
Qed.

Lemma string_of_uint_single_line (u : Decimal.uint) :
  single_line (NilEmpty.string_of_uint u) = true.
Proof. induction u; cbn [NilEmpty.string_of_uint single_line]; auto. Qed.

Lemma str_of_Z_single_line (n : Z) : single_line (str_of_Z n) = true.
Proof.
  unfold str_of_Z, NilZero.string_of_int.
  destruct (Z.to_int n) as [u|u]; unfold NilZero.string_of_uint;
    destruct u; cbn [single_line]; try reflexivity;
    try apply string_of_uint_single_line;
    cbn [NilEmpty.string_of_uint single_line];
    try apply string_of_uint_single_line.
Qed.

Lemma sign_str_single_line (s : bool) : single_line (sign_str s) = true.
Proof. destruct s; reflexivity. Qed.

Lemma render_fixed_single_line (k : nat) (n : Z) :
  single_line (render_fixed k n) = true.
Proof.
  unfold render_fixed. destruct k as [|k]; [apply str_of_Z_single_line|].
  rewrite !single_line_app, str_of_Z_single_line.
  rewrite (all_digits_single_line _ (frac_digits_all_digits _ _)). reflexivity.
Qed.

Lemma format_fixed_single_line (k : nat) (x : float) :
  single_line (format_fixed k x) = true.
Proof.
  unfold format_fixed.
  destruct x as [s|s| |s m e]; try reflexivity;
    try (rewrite single_line_app, sign_str_single_line; reflexivity).
  - cbn [float_frac]. rewrite single_line_app, sign_str_single_line.
    apply render_fixed_single_line.
  - cbn [float_frac]. destruct (0 <=? e);
      rewrite single_line_app, sign_str_single_line;
      apply render_fixed_single_line.
Qed.

Lemma substring_single_line (s : string) :
  single_line s = true -> forall n m, single_line (String.substring n m s) = true.
Proof.
  induction s as [|c s IH]; intros H n m.
  - destruct n, m; reflexivity.
  - cbn [single_line] in H. apply andb_true_iff in H. destruct H as [Hc Hs].
    destruct n as [|n]; cbn [String.substring].
    + destruct m as [|m]; [reflexivity|].
      cbn [single_line]. rewrite Hc. apply IH. exact Hs.
    + apply IH. exact Hs.
Qed.

Lemma repeat_char_single_line (c : ascii) (n : nat) :
  Ascii.eqb c LF = false -> single_line (repeat_char c n) = true.
Proof.
  intros Hc. induction n as [|n IH]; cbn [repeat_char single_line];
    [reflexivity|]. rewrite Hc, IH. reflexivity.
Qed.

Lemma exp_str_single_line (x : Z) : single_line (exp_str x) = true.
Proof.
  unfold exp_str. rewrite !single_line_app, str_of_Z_single_line.
  destruct (x <? 0), (Z.abs x <? 10); reflexivity.
Qed.

Lemma repr_layout_single_line (ds : string) (decpt : Z) :
  single_line ds = true -> single_line (repr_layout ds decpt) = true.
Proof.
  intros H. unfold repr_layout.
  destruct ((decpt <=? -4) || (16 <? decpt)).
  - rewrite !single_line_app, (substring_single_line ds H), exp_str_single_line.
    destruct (1 <? Z.of_nat (String.length ds)).
    + rewrite single_line_app, (substring_single_line ds H). reflexivity.
    + reflexivity.
  - destruct (decpt <=? 0).
    + rewrite !single_line_app, H, repeat_char_single_line by reflexivity.
      reflexivity.
    + destruct (Z.of_nat (String.length ds) <=? decpt).
      * rewrite !single_line_app, H, repeat_char_single_line by reflexivity.
        reflexivity.
      * rewrite !single_line_app, !(substring_single_line ds H). reflexivity.
Qed.

Lemma float_repr_single_line (x : float) : single_line (float_repr x) = true.
Proof.
  unfold float_repr.
  destruct x as [s|s| |s m e]; try reflexivity;
    try (rewrite single_line_app, sign_str_single_line; reflexivity).
  destruct (binary_normalize prec emax (Z.pos m) e false) as [s'|s'| |s' m' e'];
    try (rewrite single_line_app, sign_str_single_line; reflexivity).
  unfold repr_digits.
  destruct (shortest m' e' 17 1) as [D p].
  destruct (strip_zeros 20 D p) as [D' p'].
  rewrite single_line_app, sign_str_single_line.
  apply repr_layout_single_line. apply str_of_Z_single_line.
Qed.

Lemma py_str_single_line (v : scalar) :
  match v with SStr s => single_line s = true | _ => True end ->
  single_line (py_str v) = true.
Proof.
  destruct v as [|n|x|s]; cbn [py_str]; intros H.
  - reflexivity.
  - apply str_of_Z_single_line.
  - apply float_repr_single_line.
  - exact H.
Qed.

(** *** Every line of a computation *)

Lemma all_lines_print (P : string -> bool) (s : string) :
  P s = true -> all_lines P (print s).
Proof. intros H. unfold all_lines, print. cbn [fst forallb]. rewrite H. reflexivity. Qed.

Lemma all_lines_call {A : Type} (P : string -> bool) (r : result A) :
  all_lines P (call r).
Proof. reflexivity. Qed.

Lemma all_lines_bind {A B : Type} (P : string -> bool) (c : io A) (k : A -> io B) :
  all_lines P c -> (forall a, snd c = Ok a -> all_lines P (k a)) ->
  all_lines P (io_bind c k).
Proof.
  unfold all_lines. destruct c as [out [a|e]]; cbn [fst snd io_bind].
  - intros H1 H2. specialize (H2 a eq_refl). destruct (k a) as [out' r].
    cbn [fst] in *. rewrite forallb_app, H1, H2. reflexivity.
  - intros H1 _. exact H1.
Qed.

Lemma all_lines_then {B : Type} (P : string -> bool) (c : io unit) (k : unit -> io B) :
  all_lines P c -> all_lines P (k tt) -> all_lines P (io_bind c k).
Proof. intros H1 H2. apply all_lines_bind; [exact H1|intros []; intros _; exact H2]. Qed.

Lemma all_lines_for_each {A : Type} (P : string -> bool) (body : A -> io unit)
  (l : list A) :
  (forall x, In x l -> all_lines P (body x)) -> all_lines P (for_each l body).
Proof.
  induction l as [|x l IH]; intros H; cbn [for_each]; [reflexivity|].
  apply all_lines_then; [apply H; left; reflexivity|].
  apply IH. intros y Hy. apply H. right. exact Hy.
Qed.

(** *** Texts built from single lines *)

Lemma cased_not_LF (c : ascii) :
  Ascii.eqb c LF = false ->
  Ascii.eqb (to_lower c) LF = false /\ Ascii.eqb (to_upper c) LF = false.
Proof.
  destruct c as [[] [] [] [] [] [] [] []]; intros H;
    first [discriminate H | split; vm_compute; reflexivity].
Qed.

Lemma title_from_single_line (s : string) :
  forall b, single_line s = true -> single_line (title_from b s) = true.
Proof.
  induction s as [|c s IH]; intros b; cbn [title_from single_line];
    [reflexivity|].
  intros H. apply andb_true_iff in H. destruct H as [Hc Hs].
  apply negb_true_iff in Hc. destruct (cased_not_LF c Hc) as [Hl Hu].
  destruct (is_upper c || is_lower c); cbn [single_line].
  - rewrite (IH true Hs). destruct b; [rewrite Hl|rewrite Hu]; reflexivity.
  - rewrite Hc, (IH false Hs). reflexivity.
Qed.

Lemma replace_underscore_single_line (s : string) :
  single_line s = true -> single_line (replace_char "_" " " s) = true.
Proof.
  unfold replace_char.
  induction s as [|c s IH]; cbn [str_map single_line]; [reflexivity|].
  intros H. apply andb_true_iff in H. destruct H as [Hc Hs].
  rewrite (IH Hs), andb_true_r.
  destruct (Ascii.eqb c "_"); [reflexivity|exact Hc].
Qed.

Lemma health_title_single_line (k : string) :
  single_line k = true ->
  single_line (title (replace_char "_" " " k)) = true.
Proof.
  intros H. apply title_from_single_line.
  apply replace_underscore_single_line. exact H.
Qed.

Lemma lstrip_single_line (s : string) :
  single_line s = true -> single_line (lstrip s) = true.
Proof.
  induction s as [|c s IH]; cbn [lstrip]; [reflexivity|].
  intros H. destruct (is_space c); [|exact H].
  cbn [single_line] in H. apply andb_true_iff in H. apply IH. apply H.
Qed.

Lemma str_rev_onto_single_line (s acc : string) :
  single_line (str_rev_onto s acc) = single_line s && single_line acc.
Proof.
  revert acc. induction s as [|c s IH]; intros acc;
    cbn [str_rev_onto single_line]; [reflexivity|].
  rewrite IH. cbn [single_line].
  destruct (Ascii.eqb c LF); cbn [negb andb];
    [rewrite andb_false_r; reflexivity|reflexivity].
Qed.

Lemma strip_single_line (s : string) :
  single_line s = true -> single_line (strip s) = true.
Proof.
  intros H. unfold strip, rstrip, str_rev.
  rewrite str_rev_onto_single_line, andb_true_r.
  apply lstrip_single_line.
  rewrite str_rev_onto_single_line, andb_true_r.
  apply lstrip_single_line. exact H.
Qed.

Lemma split_char_single_lines (s : string) :
  forallb single_line (split_char LF s) = true.
Proof.
  induction s as [|c s IH]; cbn [split_char]; [reflexivity|].
  destruct (Ascii.eqb c LF) eqn:E; [exact IH|].
  destruct (split_char LF s) as [|w ws]; cbn [forallb single_line] in *.
  - rewrite E. reflexivity.
  - rewrite E. exact IH.
Qed.

Lemma split_once_single_line (c : ascii) (s a b : string) :
  single_line s = true -> split_once c s = Some (a, b) ->
  single_line a = true /\ single_line b = true.
Proof.
  revert a b. induction s as [|x s IH]; intros a b; cbn [split_once single_line];
    [discriminate|].
  intros H. apply andb_true_iff in H. destruct H as [Hx Hs].
  destruct (Ascii.eqb x c).
  - intros [= <- <-]. split; [reflexivity|exact Hs].
  - destruct (split_once c s) as [[a' b']|]; [|discriminate].
    intros [= <- <-]. destruct (IH a' b' Hs eq_refl) as [Ha Hb].
    cbn [single_line]. rewrite Hx, Ha. split; [reflexivity|exact Hb].
Qed.

Lemma repr_escape_single_line (c : ascii) :
  single_line (repr_escape "'" c) = true /\
  single_line (repr_escape DQUOTE c) = true.
Proof.
  destruct c as [[] [] [] [] [] [] [] []]; split; vm_compute; reflexivity.
Qed.

Lemma str_concat_map_single_line (f : ascii -> string) (s : string) :
  (forall c, single_line (f c) = true) ->
  single_line (str_concat_map f s) = true.
Proof.
  intros H. induction s as [|c s IH]; cbn [str_concat_map]; [reflexivity|].
  rewrite single_line_app, H, IH. reflexivity.
Qed.

Lemma str_repr_single_line (s : string) : single_line (str_repr s) = true.
Proof.
  unfold str_repr.
  destruct (contains "'" s && negb (contains (String DQUOTE EmptyString) s)).
  - rewrite single_line_app. cbn [single_line].
    rewrite str_concat_map_single_line
      by (intros c; apply (repr_escape_single_line c)).
    reflexivity.
  - rewrite single_line_app. cbn [single_line].
    rewrite str_concat_map_single_line
      by (intros c; apply (repr_escape_single_line c)).
    reflexivity.
Qed.

Lemma join_comma_single_line (l : list string) :
  forallb single_line l = true -> single_line (join_comma l) = true.
Proof.
  induction l as [|x l IH]; cbn [forallb]; [reflexivity|].
  intros H. apply andb_true_iff in H. destruct H as [Hx Hl].
  cbn [join_comma]. destruct l as [|y l]; [exact Hx|].
  rewrite !single_line_app, Hx, (IH Hl). reflexivity.
Qed.

Lemma readings_repr_single_line (l : list reading) :
  single_line (readings_repr l) = true.
Proof.
  unfold readings_repr. rewrite !single_line_app.
  rewrite join_comma_single_line; [reflexivity|].
  apply forallb_forall. intros x Hx. apply in_map_iff in Hx.
  destruct Hx as (r & <- & _). unfold reading_repr.
  rewrite !single_line_app, !str_repr_single_line. reflexivity.
Qed.


(* ===================================================================== *)
(** ** A host of single lines prints single lines *)

Lemma dict_set_Forall {V : Type} (P : string * V -> Prop) (k : string) (v : V)
  (d : dict V) :
  Forall P d -> P (k, v) -> Forall P (dict_set k v d).
Proof.
  intros Hd Hk. induction d as [|[k' v'] d IH]; cbn [dict_set].
  - constructor; [exact Hk|constructor].
  - inversion Hd as [|? ? H1 H2]; subst.
    destruct (String.eqb k k'); constructor; auto.
Qed.

Lemma single_line_host_parts (h : Host) :
  single_line_host h = true ->
  forallb single_line
    [ platform_system h; platform_node h; platform_release h;
      platform_version h; platform_machine h; platform_processor h;
      platform_architecture h; platform_python_version h;
      now_strftime h; uptime_str h; boot_time_strftime h ] = true /\
  (forall path text,
     In path [ "/sys/class/dmi/id/bios_version"; "/sys/class/dmi/id/board_name";
               "/sys/class/dmi/id/board_vendor" ] ->
     read_file h path = Ok text -> single_line (strip text) = true) /\
  (forall e, run_wmic h = Raise e -> single_line (exn_str e) = true) /\
  (forall temps name entries entry,
     sensors_temperatures h = Ok temps -> In (name, entries) temps ->
     single_line name = true /\
     (In entry entries -> single_line (label entry) = true)) /\
  (forall p, In p (disk_partitions h) ->
     single_line (device p) = true /\ single_line (mountpoint p) = true /\
     single_line (fstype p) = true) /\
  (forall name addrs a, In (name, addrs) (net_if_addrs h) ->
     single_line name = true /\
     (In a addrs -> single_line (family a) = true /\ single_line (address a) = true)).
Proof.
  unfold single_line_host. rewrite !andb_true_iff.
  intros [[[[[A B] C] D] E] F].
  split; [exact A|]. split; [|split; [|split; [|split]]].
  - intros path text Hin Er. rewrite forallb_forall in B.
    specialize (B path Hin). rewrite Er in B. exact B.
  - intros e Er. rewrite Er in C. exact C.
  - intros temps name entries entry Et Hin. rewrite Et in D.
    rewrite forallb_forall in D. specialize (D _ Hin). cbn [fst snd] in D.
    apply andb_true_iff in D. destruct D as [D1 D2].
    split; [exact D1|]. intros He. rewrite forallb_forall in D2. exact (D2 _ He).
  - intros p Hin. rewrite forallb_forall in E. specialize (E p Hin).
    rewrite !andb_true_iff in E. tauto.
  - intros name addrs a Hin. rewrite forallb_forall in F.
    specialize (F _ Hin). cbn [fst snd] in F.
    apply andb_true_iff in F. destruct F as [F1 F2].
    split; [exact F1|]. intros Ha. rewrite forallb_forall in F2.
    specialize (F2 _ Ha). apply andb_true_iff in F2. exact F2.
Qed.

Lemma print_items_single_lines (d : dict string) :
  single_line_entries d -> all_lines single_line (print_items (fun s => s) d).
Proof.
  intros H. unfold print_items. apply all_lines_for_each. intros [k v] Hin.
  unfold single_line_entries in H. rewrite Forall_forall in H.
  destruct (H _ Hin) as [Hk Hv]. cbn [fst snd] in *.
  apply all_lines_print. rewrite !single_line_app, Hk, Hv. reflexivity.
Qed.

Ltac one_line := apply all_lines_then; [apply all_lines_print; reflexivity|].

(** *** System *)

Lemma render_system_single_lines (h : Host) :
  single_line_host h = true -> all_lines single_line (render_system h).
Proof.
  intros H. destruct (single_line_host_parts h H) as (A & _).
  cbn [forallb] in A. rewrite !andb_true_iff in A.
  destruct A as (A1 & A2 & A3 & A4 & A5 & A6 & A7 & A8 & _).
  unfold render_system. do 2 one_line.
  apply all_lines_then; [|apply all_lines_print; reflexivity].
  apply print_items_single_lines. unfold get_system_info.
  repeat (constructor; [split; [reflexivity|assumption]|]). constructor.
Qed.

(** *** BIOS *)

Lemma bios_parse_single_lines (lines : list string) :
  forallb single_line lines = true ->
  forall acc, single_line_entries acc ->
              single_line_entries (fst (bios_parse lines acc)).
Proof.
  induction lines as [|line rest IH]; cbn [forallb bios_parse];
    intros Hl acc Ha; [exact Ha|].
  apply andb_true_iff in Hl. destruct Hl as [Hline Hrest].
  destruct (contains "=" line && str_truthy (strip line)); [|exact (IH Hrest acc Ha)].
  destruct (split_once "=" line) as [[key value]|] eqn:S; [|exact Ha].
  destruct (split_once_single_line _ _ _ _ Hline S) as [Hk Hv].
  destruct (str_truthy (strip value)); [|exact (IH Hrest acc Ha)].
  apply (IH Hrest). apply dict_set_Forall; [exact Ha|].
  split; [exact Hk|apply strip_single_line; exact Hv].
Qed.

Lemma bios_read_single_lines (h : Host) (path key : string) (acc : dict string) :
  (forall text, read_file h path = Ok text -> single_line (strip text) = true) ->
  single_line key = true ->
  single_line_entries acc -> single_line_entries (bios_read h path key acc).
Proof.
  intros Hr Hk Ha. unfold bios_read. destruct (read_file h path) as [text|e];
    [|exact Ha].
  apply dict_set_Forall; [exact Ha|]. split; [exact Hk|apply Hr; reflexivity].
Qed.

Lemma bios_body_single_lines (h : Host) :
  single_line_host h = true ->
  single_line_entries (fst (bios_body h)) /\
  forall e, snd (bios_body h) = Some e -> single_line (exn_str e) = true.
Proof.
  intros H. destruct (single_line_host_parts h H) as (_ & B & C & _).
  unfold bios_body.
  destruct (String.eqb (platform_system h) "Windows").
  - destruct (run_wmic h) as [r|e] eqn:R.
    + destruct (returncode r =? 0).
      * split.
        -- apply bios_parse_single_lines; [apply split_char_single_lines|constructor].
        -- intros e. rewrite bios_parse_no_exn. discriminate.
      * split; [constructor|discriminate].
    + split; [constructor|]. cbn [snd]. intros e' [= <-]. apply C. reflexivity.
  - destruct (String.eqb (platform_system h) "Linux").
    + split; [|discriminate]. cbn [fst].
      apply bios_read_single_lines;
        [intros t; apply B; cbn [In]; tauto|reflexivity|].
      apply bios_read_single_lines;
        [intros t; apply B; cbn [In]; tauto|reflexivity|].
      apply bios_read_single_lines;
        [intros t; apply B; cbn [In]; tauto|reflexivity|].
      constructor.
    + split; [constructor|discriminate].
Qed.

Lemma get_bios_info_single_lines (h : Host) (d : dict string) :
  single_line_host h = true -> get_bios_info h = Ok d -> single_line_entries d.
Proof.
  intros H. destruct (bios_body_single_lines h H) as [Hb He].
  unfold get_bios_info. destruct (bios_body h) as [bi [e|]]; cbn [fst snd] in *.
  - intros [= <-].
    assert (X : single_line_entries
                  (dict_set "Error" ("Could not retrieve BIOS info: " ++ exn_str e) bi)).
    { apply dict_set_Forall; [exact Hb|]. split; [reflexivity|].
      cbn [fst snd]. rewrite single_line_app, (He e eq_refl). reflexivity. }
    destruct (dict_truthy _); [exact X|].
    constructor; [split; reflexivity|constructor].
  - intros [= <-]. destruct (dict_truthy bi); [exact Hb|].
    constructor; [split; reflexivity|constructor].
Qed.

Lemma render_bios_single_lines (h : Host) :
  single_line_host h = true -> all_lines single_line (render_bios h).
Proof.
  intros H. unfold render_bios. do 2 one_line.
  apply all_lines_bind; [apply all_lines_call|]. intros d Ed.
  apply all_lines_then; [|apply all_lines_print; reflexivity].
  apply print_items_single_lines.
  exact (get_bios_info_single_lines h d H Ed).
Qed.

(** *** CPU and memory *)

Lemma render_cpu_single_lines (h : Host) : all_lines single_line (render_cpu h).
Proof.
  unfold render_cpu. do 2 one_line.
  apply all_lines_then; [|apply all_lines_print; reflexivity].
  unfold print_items. apply all_lines_for_each. intros [k v] Hin.
  apply all_lines_print. unfold get_cpu_info in Hin.
  destruct Hin as [E|[E|[E|[E|[E|[E|[]]]]]]]; injection E as <- <-;
    rewrite !single_line_app; cbn [single_line andb negb Ascii.eqb Bool.eqb LF];
    apply py_str_single_line.
  - destruct (cpu_count_physical h); exact I.
  - destruct (cpu_count_logical h); exact I.
  - destruct (cpu_freq h); [|reflexivity].
    rewrite single_line_app, format_fixed_single_line. reflexivity.
  - destruct (cpu_freq h); [|reflexivity].
    rewrite single_line_app, format_fixed_single_line. reflexivity.
  - rewrite single_line_app, format_fixed_single_line. reflexivity.
  - destruct (getloadavg h); [exact I|reflexivity].
Qed.

Lemma get_memory_info_single_lines (h : Host) (d : dict string) :
  get_memory_info h = Ok d -> single_line_entries d.
Proof.
  unfold get_memory_info.
  destruct (py_truediv (vm_total (virtual_memory h)) (1024 ^ 3)); cbn [bind];
    [|discriminate].
  destruct (py_truediv (vm_available (virtual_memory h)) (1024 ^ 3)); cbn [bind];
    [|discriminate].
  destruct (py_truediv (sw_total (swap_memory h)) (1024 ^ 3)); cbn [bind];
    [|discriminate].
  intros [= <-].
  repeat (constructor;
          [split; [reflexivity|
                   cbn [snd]; rewrite single_line_app, format_fixed_single_line;
                   reflexivity]|]).
  constructor.
Qed.

Lemma render_memory_single_lines (h : Host) :
  all_lines single_line (render_memory h).
Proof.
  unfold render_memory. do 2 one_line.
  apply all_lines_bind; [apply all_lines_call|]. intros d Ed.
  apply all_lines_then; [|apply all_lines_print; reflexivity].
  apply print_items_single_lines.
  exact (get_memory_info_single_lines h d Ed).
Qed.

(** *** Temperature *)

Lemma threshold_single_line (x : option float) :
  single_line match x with
              | Some v => if float_truthy v then format_fixed 1 v ++ degrees else "N/A"
              | None => "N/A"
              end = true.
Proof.
  destruct x as [v|]; [|reflexivity].
  destruct (float_truthy v); [|reflexivity].
  rewrite single_line_app, format_fixed_single_line. reflexivity.
Qed.

Lemma print_reading_single_lines (entry : shwtemp) :
  single_line (label entry) = true ->
  all_lines single_line (print_reading (temp_data entry)).
Proof.
  intros Hl. unfold print_reading. apply all_lines_print.
  unfold temp_data. cbn [r_label r_current r_high r_critical].
  rewrite !single_line_app, !threshold_single_line, format_fixed_single_line.
  destruct (str_truthy (label entry)); [rewrite Hl|]; reflexivity.
Qed.

(** Every group collected so far has a single-line name and readings taken
    from sensors with single-line labels. *)
Lemma collect_temps_single_lines (temps : dict (list shwtemp)) :
  (forall name entries, In (name, entries) temps ->
     single_line name = true /\
     forall entry, In entry entries -> single_line (label entry) = true) ->
  forall acc,
    Forall (fun g : string * list reading =>
              single_line (fst g) = true /\
              forall r, In r (snd g) -> all_lines single_line (print_reading r)) acc ->
    Forall (fun g : string * list reading =>
              single_line (fst g) = true /\
              forall r, In r (snd g) -> all_lines single_line (print_reading r))
           (collect_temps temps acc).
Proof.
  induction temps as [|[name entries] temps IH]; intros H acc Ha;
    cbn [collect_temps]; [exact Ha|].
  apply IH; [intros n es Hin; apply H; right; exact Hin|].
  destruct (H name entries (or_introl eq_refl)) as [Hn He].
  apply dict_set_Forall; [exact Ha|]. cbn [fst snd]. split; [exact Hn|].
  intros r Hr. apply in_map_iff in Hr. destruct Hr as (entry & <- & Hin).
  apply print_reading_single_lines. apply He. exact Hin.
Qed.

Lemma render_temperature_single_lines (h : Host) :
  single_line_host h = true -> all_lines single_line (render_temperature h).
Proof.
  intros H. destruct (single_line_host_parts h H) as (_ & _ & _ & D & _).
  unfold render_temperature. do 2 one_line.
  apply all_lines_bind; [apply all_lines_call|]. intros t Et.
  apply all_lines_then; [|apply all_lines_print; reflexivity].
  cbn [call snd] in Et. rewrite get_temperature_info_cases in Et.
  injection Et as <-.
  destruct (sensors_temperatures h) as [temps|e] eqn:Es;
    [|apply all_lines_print; reflexivity].
  destruct (dict_truthy (collect_temps temps []));
    [|apply all_lines_print; reflexivity].
  cbn [print_temps].
  destruct (dict_get "Status" (collect_temps temps [])) as [rs|].
  - apply all_lines_print. apply readings_repr_single_line.
  - assert (G := collect_temps_single_lines temps).
    specialize (G (fun name entries Hin =>
                     conj (proj1 (D temps name entries
                                    {| label := EmptyString; current := S754_nan;
                                       high := None; critical := None |}
                                    eq_refl Hin))
                          (fun entry He =>
                             proj2 (D temps name entries entry eq_refl Hin) He))
                  [] (Forall_nil _)).
    rewrite Forall_forall in G.
    apply all_lines_for_each. intros [name rs] Hin.
    destruct (G _ Hin) as [Hn Hr]. cbn [fst snd] in *.
    apply all_lines_then.
    + apply all_lines_print. rewrite single_line_app, Hn. reflexivity.
    + apply all_lines_for_each. exact Hr.
Qed.

(** *** Disk *)

Lemma disk_entry_single_lines (h : Host) (p : sdiskpart) (entry : dict string) :
  single_line (mountpoint p) = true -> single_line (fstype p) = true ->
  disk_entry h p = Ok entry -> single_line_entries entry.
Proof.
  intros Hm Hf. unfold disk_entry.
  assert (Pd : single_line_entries permission_denied).
  { constructor; [split; reflexivity|constructor]. }
  destruct (disk_usage h (mountpoint p)) as [u|e]; cbn [bind try_except_if].
  - destruct (py_truediv (total u) (1024 ^ 3)) as [t|e1]; cbn [bind try_except_if];
      [|destruct (is_PermissionError e1); [intros [= <-]; exact Pd|discriminate]].
    destruct (py_truediv (used u) (1024 ^ 3)) as [t2|e2]; cbn [bind try_except_if];
      [|destruct (is_PermissionError e2); [intros [= <-]; exact Pd|discriminate]].
    destruct (py_truediv (free u) (1024 ^ 3)) as [t3|e3]; cbn [bind try_except_if];
      [|destruct (is_PermissionError e3); [intros [= <-]; exact Pd|discriminate]].
    destruct (py_truediv (used u) (total u)) as [r|e4]; cbn [bind try_except_if];
      [|destruct (is_PermissionError e4); [intros [= <-]; exact Pd|discriminate]].
    intros [= <-].
    constructor; [split; [reflexivity|exact Hm]|].
    constructor; [split; [reflexivity|exact Hf]|].
    repeat (constructor;
            [split; [reflexivity|
                     cbn [snd]; rewrite single_line_app, format_fixed_single_line;
                     reflexivity]|]).
    constructor.
  - destruct (is_PermissionError e); [intros [= <-]; exact Pd|discriminate].
Qed.

Lemma disk_loop_single_lines (h : Host) (ps : list sdiskpart) :
  (forall p, In p ps ->
     single_line (device p) = true /\ single_line (mountpoint p) = true /\
     single_line (fstype p) = true) ->
  forall acc d,
    Forall (fun kv : string * dict string =>
              single_line (fst kv) = true /\ single_line_entries (snd kv)) acc ->
    disk_loop h ps acc = Ok d ->
    Forall (fun kv : string * dict string =>
              single_line (fst kv) = true /\ single_line_entries (snd kv)) d.
Proof.
  induction ps as [|p ps IH]; intros H acc d Ha; cbn [disk_loop].
  - intros [= <-]. exact Ha.
  - destruct (disk_entry h p) as [entry|e] eqn:E; cbn [bind]; [|discriminate].
    destruct (H p (or_introl eq_refl)) as (Hd & Hm & Hf).
    apply IH; [intros q Hq; apply H; right; exact Hq|].
    apply dict_set_Forall; [exact Ha|]. split; [exact Hd|].
    exact (disk_entry_single_lines h p entry Hm Hf E).
Qed.

Lemma render_disk_single_lines (h : Host) :
  single_line_host h = true -> all_lines single_line (render_disk h).
Proof.
  intros H. destruct (single_line_host_parts h H) as (_ & _ & _ & _ & E & _).
  unfold render_disk. do 2 one_line.
  apply all_lines_bind; [apply all_lines_call|]. intros d Ed.
  cbn [call snd] in Ed.
  pose proof (disk_loop_single_lines h _ E [] d (Forall_nil _) Ed) as G.
  rewrite Forall_forall in G.
  unfold print_disks. apply all_lines_for_each. intros [dev info] Hin.
  destruct (G _ Hin) as [Hd Hi]. cbn [fst snd] in *.
  apply all_lines_then;
    [apply all_lines_print; rewrite single_line_app, Hd; reflexivity|].
  apply all_lines_then; [|apply all_lines_print; reflexivity].
  apply all_lines_for_each. intros [k v] Hkv. apply all_lines_print.
  unfold single_line_entries in Hi. rewrite Forall_forall in Hi.
  destruct (Hi _ Hkv) as [Hk Hv]. cbn [fst snd] in *.
  rewrite !single_line_app, Hk, Hv. reflexivity.
Qed.

(** *** Network *)

Lemma In_firstn {A : Type} (x : A) (n : nat) (l : list A) :
  In x (firstn n l) -> In x l.
Proof.
  revert l. induction n as [|n IH]; intros l; destruct l as [|y l];
    cbn [firstn In]; try contradiction.
  intros [E|H]; [left; exact E|right; apply IH; exact H].
Qed.

Lemma print_interface_single_lines (stats : dict snicstats) (name : string)
  (addrs : list snicaddr) :
  single_line name = true ->
  (forall a, In a addrs ->
     single_line (family a) = true /\ single_line (address a) = true) ->
  all_lines single_line (print_interface name (iface_entry stats name addrs)).
Proof.
  intros Hn Ha. rewrite print_interface_lines. unfold all_lines. cbn [fst].
  apply forallb_forall. intros line Hl. unfold interface_lines in Hl.
  apply in_app_or in Hl. destruct Hl as [[<-|[<-|[<-|[]]]]|Hl].
  - rewrite single_line_app, Hn. reflexivity.
  - destruct (is_up _); reflexivity.
  - unfold iface_entry. cbn [if_speed].
    destruct (dict_get name stats) as [st|]; [|reflexivity].
    destruct (0 <? speed st); [|reflexivity].
    rewrite !single_line_app, str_of_Z_single_line. reflexivity.
  - apply in_app_or in Hl. destruct Hl as [Hl|[<-|[]]]; [|reflexivity].
    apply in_map_iff in Hl. destruct Hl as (r & <- & Hr).
    apply In_firstn in Hr. unfold iface_entry in Hr. cbn [addresses] in Hr.
    apply in_map_iff in Hr. destruct Hr as (a & <- & Hin).
    destruct (Ha a Hin) as [Hf Had]. cbn [address_entry a_family a_address].
    rewrite !single_line_app, Hf, Had. reflexivity.
Qed.

Lemma network_loop_single_lines (stats : dict snicstats)
  (interfaces : dict (list snicaddr)) :
  (forall name addrs, In (name, addrs) interfaces ->
     single_line name = true /\
     forall a, In a addrs ->
       single_line (family a) = true /\ single_line (address a) = true) ->
  forall acc,
    Forall (fun kv : string * iface_info =>
              all_lines single_line (print_interface (fst kv) (snd kv))) acc ->
    Forall (fun kv : string * iface_info =>
              all_lines single_line (print_interface (fst kv) (snd kv)))
           (network_loop stats interfaces acc).
Proof.
  induction interfaces as [|[name addrs] interfaces IH]; intros H acc Ha;
    cbn [network_loop]; [exact Ha|].
  apply IH; [intros n a Hin; apply H; right; exact Hin|].
  destruct (H name addrs (or_introl eq_refl)) as [Hn Had].
  apply dict_set_Forall; [exact Ha|]. cbn [fst snd].
  apply print_interface_single_lines; assumption.
Qed.

Lemma render_network_single_lines (h : Host) :
  single_line_host h = true -> all_lines single_line (render_network h).
Proof.
  intros H. destruct (single_line_host_parts h H) as (_ & _ & _ & _ & _ & F).
  unfold render_network. do 2 one_line.
  unfold print_network, get_network_info.
  assert (G := network_loop_single_lines (net_if_stats h) (net_if_addrs h)).
  specialize (G (fun name addrs Hin =>
                   conj (proj1 (F name addrs
                                  {| family := EmptyString; address := EmptyString;
                                     netmask := None |} Hin))
                        (fun a Ha => proj2 (F name addrs a Hin) Ha))
                [] (Forall_nil _)).
  rewrite Forall_forall in G.
  apply all_lines_for_each. intros [name info] Hin. exact (G _ Hin).
Qed.

(** *** Health *)

Lemma health_disk_loop_single_lines (h : Host) (ps : list sdiskpart) :
  (forall p, In p ps -> single_line (device p) = true) ->
  forall hs d, health_disk_loop h ps hs = Ok d ->
  single_line_entries hs -> single_line_entries d.
Proof.
  induction ps as [|p ps IH]; intros H hs d; cbn [health_disk_loop].
  - intros [= <-] Hs. exact Hs.
  - destruct (health_disk_step h p hs) as [hs'|e] eqn:Es; cbn [bind];
      [|discriminate].
    intros Hl Hs. apply (IH (fun q Hq => H q (or_intror Hq)) _ _ Hl).
    rewrite (health_disk_step_get h p hs hs' Es).
    destruct (exceeds_90b h p); [|exact Hs].
    apply dict_set_Forall; [exact Hs|]. cbn [fst snd]. split.
    + unfold disk_warning_key. rewrite single_line_app, (H p (or_introl eq_refl)).
      reflexivity.
    + unfold disk_warning_text.
      destruct (disk_usage h (mountpoint p)); [|reflexivity].
      destruct (usage_percent _); [|reflexivity].
      rewrite !single_line_app, format_fixed_single_line. reflexivity.
Qed.

Lemma check_system_health_single_lines (h : Host) (d : dict string) :
  single_line_host h = true -> check_system_health h = Ok d ->
  single_line_entries d.
Proof.
  intros H Ed. destruct (single_line_host_parts h H) as (A & _ & _ & _ & E & _).
  cbn [forallb] in A. rewrite !andb_true_iff in A.
  destruct A as (_ & _ & _ & _ & _ & _ & _ & _ & A9 & A10 & A11 & _).
  apply (health_disk_loop_single_lines h _ (fun p Hp => proj1 (E p Hp)) _ _ Ed).
  assert (B : single_line_entries (health_base h)).
  { unfold health_base.
    repeat (constructor; [split; [reflexivity|assumption]|]). constructor. }
  unfold health_memory, health_cpu.
  destruct (float_gt_Z (cpu_percent h) 80);
    destruct (float_gt_Z (vm_percent (virtual_memory h)) 85);
    repeat (apply dict_set_Forall;
            [|split; [reflexivity|
                      cbn [snd]; rewrite !single_line_app, float_repr_single_line;
                      reflexivity]]);
    exact B.
Qed.

Lemma render_health_single_lines (h : Host) :
  single_line_host h = true -> all_lines single_line (render_health h).
Proof.
  intros H. unfold render_health. do 2 one_line.
  apply all_lines_bind; [apply all_lines_call|]. intros d Ed.
  cbn [call snd] in Ed.
  pose proof (check_system_health_single_lines h d H Ed) as G.
  unfold single_line_entries in G. rewrite Forall_forall in G.
  apply all_lines_then; [|apply all_lines_print; reflexivity].
  apply all_lines_for_each. intros [k v] Hin.
  destruct (G _ Hin) as [Hk Hv]. cbn [fst snd] in *.
  unfold print_health_item.
  destruct (contains "warning" (lower k)); apply all_lines_print;
    rewrite !single_line_app, (health_title_single_line k Hk), Hv; reflexivity.
Qed.

(** *** The whole report *)

Lemma main_single_lines (h : Host) :
  single_line_host h = true -> all_lines single_line (main h).
Proof.
  intros H. destruct (single_line_host_parts h H) as (A & _).
  cbn [forallb] in A. rewrite !andb_true_iff in A.
  destruct A as (_ & _ & _ & _ & _ & _ & _ & _ & A9 & _).
  unfold main. do 3 one_line.
  apply all_lines_then;
    [apply all_lines_print; rewrite single_line_app, A9; reflexivity|].
  one_line.
  apply all_lines_then; [apply render_system_single_lines; exact H|].
  apply all_lines_then; [apply render_bios_single_lines; exact H|].
  apply all_lines_then; [apply render_cpu_single_lines|].
  apply all_lines_then; [apply render_memory_single_lines|].
  apply all_lines_then; [apply render_temperature_single_lines; exact H|].
  apply all_lines_then; [apply render_disk_single_lines; exact H|].
  apply all_lines_then; [apply render_network_single_lines; exact H|].
  apply all_lines_then; [apply render_health_single_lines; exact H|].
  do 2 one_line. apply all_lines_print. reflexivity.
Qed.

(* ===================================================================== *)
(** ** The exceptions of a run *)

Lemma py_truediv_gib_raises (a : Z) (e : exn) :
  py_truediv a (1024 ^ 3) = Raise e -> e = overflow.
Proof.
  unfold py_truediv. change (1024 ^ 3 =? 0) with false. cbv iota.
  destruct (SFdiv prec emax (exact_Z a) (exact_Z (1024 ^ 3)));
    try discriminate; intros [= <-]; reflexivity.
Qed.

Lemma get_memory_info_raises (h : Host) (e : exn) :
  get_memory_info h = Raise e -> e = overflow.
Proof.
  unfold get_memory_info.
  destruct (py_truediv (vm_total (virtual_memory h)) (1024 ^ 3)) eqn:E1;
    cbn [bind]; [|intros [= <-]; exact (py_truediv_gib_raises _ _ E1)].
  destruct (py_truediv (vm_available (virtual_memory h)) (1024 ^ 3)) eqn:E2;
    cbn [bind]; [|intros [= <-]; exact (py_truediv_gib_raises _ _ E2)].
  destruct (py_truediv (sw_total (swap_memory h)) (1024 ^ 3)) eqn:E3;
    cbn [bind]; [discriminate|intros [= <-]; exact (py_truediv_gib_raises _ _ E3)].
Qed.








(* ===================================================================== *)
(** ** Streams *)

Lemma write_all_takes (w : stream) (out : list string) :
  takes w out -> write_all w out = (out, None).
Proof.
  unfold takes. induction out as [|s out IH]; intros H; cbn [write_all];
    [reflexivity|].
  rewrite (H s (or_introl eq_refl)), IH by (intros x Hx; apply H; right; exact Hx).
  reflexivity.
Qed.

Lemma on_stream_takes {A : Type} (w : stream) (c : io A) :
  takes w (fst c) -> on_stream w c = c.
Proof.
  intros H. unfold on_stream. rewrite (write_all_takes w _ H).
  destruct c. reflexivity.
Qed.

Lemma takes_app (w : stream) (a b : list string) :
  takes w (a ++ b) <-> takes w a /\ takes w b.
Proof.
  unfold takes. split.
  - intros H. split; intros s Hs; apply H; apply in_or_app; auto.
  - intros [Ha Hb] s Hs. apply in_app_or in Hs. destruct Hs; auto.
Qed.

Lemma run_on_takes (w : stream) (h : Host) :
  takes w (run h) -> run_on w h = run h.
Proof.
  unfold run, run_on. destruct (main h) as [out [[]|e]] eqn:E.
  - intros H. rewrite on_stream_takes by exact H. reflexivity.
  - intros H. apply takes_app in H. destruct H as [Ho Hh].
    rewrite on_stream_takes by exact Ho.
    rewrite (write_all_takes w _ Hh). reflexivity.
Qed.



(* ===================================================================== *)
(** ** How a run ends *)

Lemma snd_io_bind {A B : Type} (c : io A) (k : A -> io B) :
  snd (io_bind c k) =
  match snd c with Ok a => snd (k a) | Raise e => Raise e end.
Proof.
  destruct c as [out [a|e]]; cbn [io_bind snd]; [|reflexivity].
  destruct (k a). reflexivity.
Qed.

Lemma print_items_returns {V : Type} (str : V -> string) (d : dict V) :
  snd (print_items str d) = Ok tt.
Proof. unfold print_items. apply for_each_returns. intros [k v]. reflexivity. Qed.

Lemma render_system_returns (h : Host) : snd (render_system h) = Ok tt.
Proof.
  unfold render_system. rewrite !snd_io_bind. cbn [print snd].
  rewrite print_items_returns. reflexivity.
Qed.

Lemma render_bios_returns (h : Host) : snd (render_bios h) = Ok tt.
Proof.
  unfold render_bios. rewrite !snd_io_bind. cbn [print snd call].
  destruct (get_bios_info_returns h) as [d ->].
  rewrite snd_io_bind, print_items_returns. reflexivity.
Qed.

Lemma render_cpu_returns (h : Host) : snd (render_cpu h) = Ok tt.
Proof.
  unfold render_cpu. rewrite !snd_io_bind. cbn [print snd].
  rewrite print_items_returns. reflexivity.
Qed.








(* ===================================================================== *)
(** ** The closing line *)



























(* ===================================================================== *)
(** ** The health section *)

Lemma dict_set_app_fresh {V : Type} (k : string) (v : V) (a b : dict V) :
  ~ In k (dict_keys a) -> dict_set k v (a ++ b)%list = (a ++ dict_set k v b)%list.
Proof.
  induction a as [|[k' v'] a IH]; intros H; cbn [app dict_set]; [reflexivity|].
  destruct (String.eqb k k') eqn:E.
  - apply String.eqb_eq in E. exfalso. apply H. left. symmetry. exact E.
  - rewrite IH by (intros X; apply H; right; exact X). reflexivity.
Qed.

Lemma warning_key_not_base (h : Host) (k : string) :
  warning_key k -> ~ In k (dict_keys (health_base h)).
Proof.
  intros [->|[->|[dev ->]]] [X|[X|[X|[]]]]; cbn in X; discriminate X.
Qed.

Lemma warning_key_flagged (k : string) :
  warning_key k -> contains "warning" (lower k) = true.
Proof.
  intros [->|[->|[dev ->]]]; [reflexivity|reflexivity|].
  exact (contains_mid "warning" "disk_" ("_" ++ lower dev)).
Qed.

Lemma dict_set_warnings (k v : string) (rest : dict string) :
  warning_key k -> Forall (fun kv => warning_key (fst kv)) rest ->
  Forall (fun kv : string * string => warning_key (fst kv)) (dict_set k v rest).
Proof.
  intros Hk. induction rest as [|[k' v'] rest IH]; intros H; cbn [dict_set].
  - constructor; [exact Hk|constructor].
  - inversion H as [|? ? H1 H2]; subst.
    destruct (String.eqb k k'); constructor; auto.
Qed.

Lemma base_then_warnings_set (h : Host) (k v : string) (d : dict string) :
  warning_key k -> base_then_warnings h d -> base_then_warnings h (dict_set k v d).
Proof.
  intros Hk (rest & -> & F). exists (dict_set k v rest). split.
  - apply dict_set_app_fresh. apply warning_key_not_base. exact Hk.
  - apply dict_set_warnings; assumption.
Qed.

Lemma health_disk_loop_warnings (h : Host) (ps : list sdiskpart) :
  forall hs d, health_disk_loop h ps hs = Ok d ->
  base_then_warnings h hs -> base_then_warnings h d.
Proof.
  induction ps as [|p ps IH]; intros hs d; cbn [health_disk_loop].
  - intros [= <-] H. exact H.
  - destruct (health_disk_step h p hs) as [hs'|e] eqn:Es; cbn [bind];
      [|discriminate].
    intros Hl Hb. apply (IH _ _ Hl).
    rewrite (health_disk_step_get h p hs hs' Es).
    destruct (exceeds_90b h p); [|exact Hb].
    apply base_then_warnings_set; [|exact Hb].
    right. right. exists (device p). reflexivity.
Qed.

Lemma check_system_health_order (h : Host) (d : dict string) :
  check_system_health h = Ok d -> base_then_warnings h d.
Proof.
  intros E. apply (health_disk_loop_warnings h _ _ _ E).
  unfold health_memory, health_cpu.
  assert (B : base_then_warnings h (health_base h)).
  { exists []. split; [symmetry; apply app_nil_r|constructor]. }
  destruct (float_gt_Z (cpu_percent h) 80);
    destruct (float_gt_Z (vm_percent (virtual_memory h)) 85);
    repeat (apply base_then_warnings_set; [unfold warning_key; auto|]);
    exact B.
Qed.

Lemma flat_map_singleton {A B : Type} (f : A -> B) (l : list A) :
  flat_map (fun x => [f x]) l = map f l.
Proof.
  induction l as [|x l IH]; cbn [flat_map map app]; [reflexivity|].
  rewrite IH. reflexivity.
Qed.

Lemma print_warnings (rest : dict string) :
  Forall (fun kv => warning_key (fst kv)) rest ->
  for_each rest (fun '(key, value) => print_health_item key value) =
  (map flagged_line rest, Ok tt).
Proof.
  intros F. rewrite (for_each_pure _ (fun kv => [flagged_line kv])).
  - rewrite flat_map_singleton. reflexivity.
  - intros [k v] Hin. rewrite Forall_forall in F.
    unfold print_health_item.
    rewrite (warning_key_flagged k (F (k, v) Hin)). reflexivity.
Qed.

Lemma render_health_lines (h : Host) (rest : dict string) :
  check_system_health h = Ok (health_base h ++ rest)%list ->
  Forall (fun kv => warning_key (fst kv)) rest ->
  render_health h =
    (app [ "SYSTEM HEALTH CHECK:"; rule;
           "Timestamp: " ++ now_strftime h;
           "Uptime: " ++ uptime_str h;
           "Boot Time: " ++ boot_time_strftime h ]
         (app (map flagged_line rest) [EmptyString]), Ok tt).
Proof.
  intros E F.
  assert (B : for_each (health_base h ++ rest)%list
                (fun '(key, value) => print_health_item key value) =
              (app [ "Timestamp: " ++ now_strftime h;
                     "Uptime: " ++ uptime_str h;
                     "Boot Time: " ++ boot_time_strftime h ]
                   (map flagged_line rest), Ok tt)).
  { cbn [health_base app for_each].
    change (print_health_item "timestamp" (now_strftime h))
      with (print ("Timestamp: " ++ now_strftime h)).
    change (print_health_item "uptime" (uptime_str h))
      with (print ("Uptime: " ++ uptime_str h)).
    change (print_health_item "boot_time" (boot_time_strftime h))
      with (print ("Boot Time: " ++ boot_time_strftime h)).
    rewrite !io_bind_print, (print_warnings rest F). reflexivity. }
  unfold render_health. rewrite !io_bind_print.
  rewrite (io_bind_call _ _ _ E), (io_bind_ok _ _ _ tt B).
  cbn [print fst snd app]. reflexivity.
Qed.

Lemma write_all_stops (w : stream) (a b : list string) (s : string) (e : exn) :
  takes w a -> w s = Raise e -> write_all w (a ++ s :: b) = (a, Some e).
Proof.
  unfold takes. induction a as [|x a IH]; intros Ha Hs; cbn [app write_all].
  - rewrite Hs. reflexivity.
  - rewrite (Ha x (or_introl eq_refl)),
            (IH (fun y Hy => Ha y (or_intror Hy)) Hs). reflexivity.
Qed.

(** X7.  A returned health mapping starts with the time stamp, the uptime
    and the boot time, in this order, and holds only warnings after them.
    With ASCII device names, the health section passes to [print] the
    header, the rule, the three base entries unmarked, one line per warning
    marked with the warning sign, and an empty line.  On a stream that
    takes them all this is what is written; on a stream that takes the
    first five but refuses the first warning line (an encoding without the
    warning sign), the section raises there, after the five lines. *)
Theorem health_section_lines (h : Host) (d : dict string) (w : stream) :
  check_system_health h = Ok d ->
  forallb is_ascii (map device (disk_partitions h)) = true ->
  exists rest,
    d = (health_base h ++ rest)%list /\
    (forall k v, In (k, v) rest -> warning_key k) /\
    (takes w (app [ "SYSTEM HEALTH CHECK:"; rule;
                    "Timestamp: " ++ now_strftime h;
                    "Uptime: " ++ uptime_str h;
                    "Boot Time: " ++ boot_time_strftime h ]
                  (app (map flagged_line rest) [EmptyString])) ->
     on_stream w (render_health h) =
       (app [ "SYSTEM HEALTH CHECK:"; rule;
              "Timestamp: " ++ now_strftime h;
              "Uptime: " ++ uptime_str h;
              "Boot Time: " ++ boot_time_strftime h ]
            (app (map flagged_line rest) [EmptyString]), Ok tt)) /\
    (forall kv rest' e,
       rest = kv :: rest' ->
       takes w [ "SYSTEM HEALTH CHECK:"; rule;
                 "Timestamp: " ++ now_strftime h;
                 "Uptime: " ++ uptime_str h;
                 "Boot Time: " ++ boot_time_strftime h ] ->
       w (flagged_line kv) = Raise e ->
       on_stream w (render_health h) =
         ([ "SYSTEM HEALTH CHECK:"; rule;
            "Timestamp: " ++ now_strftime h;
            "Uptime: " ++ uptime_str h;
            "Boot Time: " ++ boot_time_strftime h ], Raise e)).
Proof.
  intros E _. destruct (check_system_health_order h d E) as (rest & -> & F).
  exists rest. split; [reflexivity|]. split; [|split].
  - intros k v Hin. rewrite Forall_forall in F. exact (F (k, v) Hin).
  - intros Ht. rewrite (render_health_lines h rest E F).
    apply on_stream_takes. exact Ht.
  - intros kv rest' e -> Ht He. rewrite (render_health_lines h _ E F).
    unfold on_stream. cbn [fst snd map].
    change (app [ "SYSTEM HEALTH CHECK:"; rule;
                  "Timestamp: " ++ now_strftime h;
                  "Uptime: " ++ uptime_str h;
                  "Boot Time: " ++ boot_time_strftime h ]
                (app (flagged_line kv :: map flagged_line rest') [EmptyString]))
      with (app [ "SYSTEM HEALTH CHECK:"; rule;
                  "Timestamp: " ++ now_strftime h;
                  "Uptime: " ++ uptime_str h;
                  "Boot Time: " ++ boot_time_strftime h ]
                (flagged_line kv :: app (map flagged_line rest') [EmptyString])).
    rewrite (write_all_stops w _ _ _ e Ht He). reflexivity.
Qed.


(* ===================================================================== *)
(** ** The BIOS collector *)

Lemma split_once_has_nonspace (c : ascii) (s a b : string) :
  is_space c = false -> split_once c s = Some (a, b) -> has_nonspace s = true.
Proof.
  intros Hc. revert a b. induction s as [|x s IH]; intros a b;
    cbn [split_once has_nonspace]; [discriminate|].
  destruct (Ascii.eqb x c) eqn:E.
  - apply Ascii.eqb_eq in E. subst x. rewrite Hc. reflexivity.
  - destruct (split_once c s) as [[a' b']|]; [|discriminate].
    intros _. rewrite (IH a' b' eq_refl). apply orb_true_r.
Qed.

Lemma lstrip_nonspace (s : string) :
  has_nonspace s = true ->
  exists c s', lstrip s = String c s' /\ is_space c = false.
Proof.
  induction s as [|x s IH]; cbn [has_nonspace lstrip]; [discriminate|].
  destruct (is_space x) eqn:E; cbn [negb orb].
  - exact IH.
  - intros _. eauto.
Qed.

Lemma has_nonspace_rev_onto (s acc : string) :
  has_nonspace (str_rev_onto s acc) = has_nonspace s || has_nonspace acc.
Proof.
  revert acc. induction s as [|x s IH]; intros acc;
    cbn [str_rev_onto has_nonspace]; [reflexivity|].
  rewrite IH. cbn [has_nonspace].
  destruct (is_space x); cbn [negb orb]; [reflexivity|].
  apply orb_true_r.
Qed.

Lemma str_rev_onto_truthy (s acc : string) :
  str_truthy s = true -> str_truthy (str_rev_onto s acc) = true.
Proof.
  revert acc. induction s as [|x s IH]; intros acc; [discriminate|].
  intros _. cbn [str_rev_onto]. destruct s as [|y s]; [reflexivity|].
  apply IH. reflexivity.
Qed.

Lemma strip_truthy (s : string) :
  has_nonspace s = true -> str_truthy (strip s) = true.
Proof.
  intros H. destruct (lstrip_nonspace s H) as (c & s' & E & Hc).
  unfold strip, rstrip, str_rev. rewrite E.
  apply str_rev_onto_truthy.
  assert (N : has_nonspace (str_rev_onto (String c s') EmptyString) = true).
  { rewrite has_nonspace_rev_onto. cbn [has_nonspace]. rewrite Hc. reflexivity. }
  destruct (lstrip_nonspace _ N) as (c2 & s2 & -> & _). reflexivity.
Qed.

Lemma split_once_found (c : ascii) (s a b : string) :
  split_once c s = Some (a, b) -> contains (String c EmptyString) s = true.
Proof.
  revert a b. induction s as [|x s IH]; intros a b;
    cbn [split_once contains String.prefix]; [discriminate|].
  destruct (ascii_dec c x) as [->|N].
  - destruct s; reflexivity.
  - destruct (Ascii.eqb x c) eqn:E.
    + apply Ascii.eqb_eq in E. congruence.
    + destruct (split_once c s) as [[a' b']|]; [|discriminate].
      intros _. cbn [orb]. exact (IH a' b' eq_refl).
Qed.

Lemma bios_parse_get (key : string) (lines : list string) :
  forall acc,
    dict_get key (fst (bios_parse lines acc)) =
    match last_value lines key with
    | Some v => Some v
    | None => dict_get key acc
    end.
Proof.
  induction lines as [|line rest IH]; intros acc;
    cbn [bios_parse last_value]; [reflexivity|].
  destruct (split_once "=" line) as [[k raw]|] eqn:S.
  - rewrite (split_once_found _ _ _ _ S).
    rewrite (strip_truthy line (split_once_has_nonspace "=" line k raw eq_refl S)).
    cbn [andb].
    destruct (str_truthy (strip raw)); rewrite IH;
      destruct (last_value rest key); try reflexivity.
    + rewrite andb_true_r. destruct (String.eqb key k) eqn:E.
      * apply String.eqb_eq in E. subst k. apply dict_get_set_same.
      * apply String.eqb_neq in E. apply dict_get_set_other. exact E.
    + rewrite andb_false_r. reflexivity.
  - destruct (contains "=" line) eqn:C.
    + destruct (split_once_contains "=" line C) as (a & b & X).
      rewrite X in S. discriminate S.
    + cbn [andb]. rewrite IH. destruct (last_value rest key); reflexivity.
Qed.

Lemma bios_windows (h : Host) (r : completed_process) :
  platform_system h = "Windows" -> run_wmic h = Ok r ->
  get_bios_info h =
  Ok (if returncode r =? 0
      then let d := fst (bios_parse (split_char LF (stdout r)) []) in
           if dict_truthy d then d else bios_not_accessible
      else bios_not_accessible).
Proof.
  intros W R. unfold get_bios_info, bios_body. rewrite W, R.
  cbn [String.eqb Ascii.eqb Bool.eqb].
  destruct (returncode r =? 0); [|reflexivity].
  pose proof (bios_parse_no_exn (split_char LF (stdout r)) []) as N.
  destruct (bios_parse (split_char LF (stdout r)) []) as [d x].
  cbn [snd fst] in *. subst x. reflexivity.
Qed.

(** X8.  On Windows, when the tool ran and its answer is ASCII text: a
    non-zero return code gives the not-accessible mapping, and so does an
    answer without any line [key=value] of non-blank value; otherwise the
    mapping holds, for each key, the stripped value of the last such line
    with that key, and nothing for a key without one. *)
Theorem bios_windows_entries (h : Host) (r : completed_process) :
  platform_system h = "Windows" -> run_wmic h = Ok r ->
  is_ascii (stdout r) = true ->
  exists d, get_bios_info h = Ok d /\
    (returncode r <> 0 -> d = bios_not_accessible) /\
    (returncode r = 0 -> (forall key, wmic_value (stdout r) key = None) ->
     d = bios_not_accessible) /\
    (returncode r = 0 -> forall key0 v0, wmic_value (stdout r) key0 = Some v0 ->
     forall key, dict_get key d = wmic_value (stdout r) key).
Proof.
  intros W R _. rewrite (bios_windows h r W R). eexists. split; [reflexivity|].
  assert (G : forall key,
             dict_get key (fst (bios_parse (split_char LF (stdout r)) [])) =
             wmic_value (stdout r) key).
  { intros key. rewrite bios_parse_get. unfold wmic_value.
    destruct (last_value _ key); reflexivity. }
  split; [|split].
  - intros N. apply Z.eqb_neq in N. rewrite N. reflexivity.
  - intros Z0 Hn. rewrite Z0. cbn [Z.eqb]. cbv zeta.
    destruct (fst (bios_parse (split_char LF (stdout r)) [])) as [|[k v] d] eqn:E;
      [reflexivity|].
    exfalso. specialize (G k). rewrite Hn in G. cbn [dict_get] in G.
    rewrite String.eqb_refl in G. discriminate G.
  - intros Z0 key0 v0 H0 key. rewrite Z0. cbn [Z.eqb]. cbv zeta.
    destruct (fst (bios_parse (split_char LF (stdout r)) [])) as [|[k v] d] eqn:E.
    + exfalso. specialize (G key0). rewrite H0 in G. discriminate G.
    + cbn [dict_truthy]. apply G.
Qed.

(** X9.  On Linux with at least one readable pseudo-file, the readable
    ones holding ASCII text, the mapping holds, in the order BIOS version,
    board name, board vendor, one entry per readable file, its value the
    stripped content: a readable file that is blank gives an entry with an
    empty value. *)
Theorem bios_linux_values (h : Host) :
  platform_system h = "Linux" ->
  existsb (fun pl => readable h (fst pl)) bios_files = true ->
  forallb (fun pl => match read_file h (fst pl) with
                     | Ok text => is_ascii text
                     | Raise _ => true
                     end) bios_files = true ->
  get_bios_info h = Ok (dmi_entries h) /\
  forall path l text, In (path, l) bios_files -> read_file h path = Ok text ->
    dict_get l (dmi_entries h) = Some (strip text).
Proof.
  intros El. unfold get_bios_info. rewrite (bios_linux h El).
  unfold dmi_entries, bios_read, readable, bios_files.
  cbn [existsb flat_map fst].
  destruct (read_file h "/sys/class/dmi/id/bios_version") eqn:E1;
    destruct (read_file h "/sys/class/dmi/id/board_name") eqn:E2;
    destruct (read_file h "/sys/class/dmi/id/board_vendor") eqn:E3;
    cbn [dict_set dict_truthy String.eqb Ascii.eqb Bool.eqb app orb];
    intros Hr _; try discriminate Hr;
    (split; [reflexivity|]);
    intros path l text [[= <- <-]|[[= <- <-]|[[= <- <-]|[]]]];
    rewrite ?E1, ?E2, ?E3; intros [= <-]; reflexivity.
Qed.


(* ===================================================================== *)
(** ** Sections of the report *)

Lemma collect_temps_all (temps : dict (list shwtemp)) :
  NoDup (dict_keys temps) ->
  collect_temps temps [] = map (fun kv => (fst kv, map temp_data (snd kv))) temps.
Proof. intros Hd. exact (collect_temps_distinct temps [] Hd). Qed.

Lemma dict_get_map {V W : Type} (f : string -> V -> W) (k : string) (d : dict V) :
  dict_get k (map (fun kv => (fst kv, f (fst kv) (snd kv))) d) =
  option_map (f k) (dict_get k d).
Proof.
  induction d as [|[k' v] d IH]; cbn [map dict_get fst snd]; [reflexivity|].
  destruct (String.eqb k k') eqn:E; [|exact IH].
  apply String.eqb_eq in E. subst k'. reflexivity.
Qed.

(** X10.  A sensor group that is itself called [Status] (group names
    distinct, the labels of its sensors ASCII) is taken for the status
    message: the section shows the list of that group's readings as Python
    prints a list of dicts, and no other group. *)
Theorem status_group_printed_raw (h : Host) (temps : dict (list shwtemp))
  (entries : list shwtemp) :
  sensors_temperatures h = Ok temps ->
  distinct (dict_keys temps) = true ->
  In ("Status", entries) temps ->
  forallb (fun entry => is_ascii (label entry)) entries = true ->
  render_temperature h =
    ([ "TEMPERATURE SENSORS:"; rule;
       readings_repr (map temp_data entries); EmptyString ], Ok tt).
Proof.
  intros Et Hd Hin _. apply distinct_NoDup in Hd.
  unfold render_temperature. rewrite !io_bind_print.
  rewrite (io_bind_call _ _ _ (get_temperature_info_cases h)).
  rewrite Et, (collect_temps_all temps Hd).
  destruct temps as [|kv temps]; [contradiction|].
  cbn [map dict_truthy print_temps].
  change ((fst kv, map temp_data (snd kv)) ::
          map (fun kv0 => (fst kv0, map temp_data (snd kv0))) temps)
    with (map (fun kv0 : string * list shwtemp =>
                 (fst kv0, (fun _ => map temp_data) (fst kv0) (snd kv0)))
              (kv :: temps)).
  rewrite dict_get_map, (dict_get_In _ _ _ Hd Hin).
  reflexivity.
Qed.

(** X11.  With sensor groups of distinct names, none of them [Status], the
    section shows for each group, in the order of the sensor source, its
    name with a colon and one indented line per reading. *)
Theorem temperature_section_lines (h : Host) (temps : dict (list shwtemp)) :
  sensors_temperatures h = Ok temps ->
  distinct (dict_keys temps) = true ->
  temps <> [] ->
  ~ In "Status" (dict_keys temps) ->
  render_temperature h =
    (app [ "TEMPERATURE SENSORS:"; rule ]
         (app (flat_map group_block temps) [EmptyString]), Ok tt).
Proof.
  intros Et Hd Hne Hs. apply distinct_NoDup in Hd.
  unfold render_temperature. rewrite !io_bind_print.
  rewrite (io_bind_call _ _ _ (get_temperature_info_cases h)).
  rewrite Et, (collect_temps_all temps Hd).
  assert (G : dict_get "Status"
                (map (fun kv : string * list shwtemp =>
                        (fst kv, map temp_data (snd kv))) temps) = None).
  { apply dict_get_None. unfold dict_keys in *. rewrite map_map. exact Hs. }
  assert (T : dict_truthy (map (fun kv : string * list shwtemp =>
                                  (fst kv, map temp_data (snd kv))) temps) = true).
  { destruct temps; [contradiction|reflexivity]. }
  rewrite T. cbn [print_temps]. rewrite G.
  assert (B : for_each
                (map (fun kv : string * list shwtemp =>
                        (fst kv, map temp_data (snd kv))) temps)
                (fun '(sensor_name, readings) =>
                   io_bind (print (sensor_name ++ ":"))
                     (fun _ => for_each readings print_reading)) =
              (flat_map group_block temps, Ok tt)).
  { clear. induction temps as [|[name entries] temps IH];
      cbn [map for_each flat_map fst snd]; [reflexivity|].
    rewrite io_bind_print.
    assert (R : for_each (map temp_data entries) print_reading =
                (map reading_line (map temp_data entries), Ok tt)).
    { apply (for_each_print reading_line). }
    rewrite R. cbn [fst snd].
    rewrite (io_bind_ok _ _ _ tt eq_refl), IH. cbn [fst snd].
    unfold group_block at 1. cbn [fst snd app]. rewrite map_map. reflexivity. }
  rewrite (io_bind_ok _ _ _ tt B). reflexivity.
Qed.

Lemma for_each_print_pair {V : Type} (f : string -> V -> string) (d : dict V) :
  for_each d (fun '(k, v) => print (f k v)) =
  (map (fun kv => f (fst kv) (snd kv)) d, Ok tt).
Proof.
  induction d as [|[k v] d IH]; cbn [for_each map fst snd]; [reflexivity|].
  rewrite io_bind_print, IH. reflexivity.
Qed.

Lemma print_disks_blocks (h : Host) (ps : list sdiskpart) :
  print_disks (map (fun p => (device p, entry_of h p)) ps) =
  (flat_map (disk_block h) ps, Ok tt).
Proof.
  unfold print_disks. induction ps as [|p ps IH];
    cbn [map for_each flat_map]; [reflexivity|].
  assert (B : io_bind (print (device p ++ ":"))
                (fun _ => io_bind
                   (for_each (entry_of h p)
                      (fun '(key, value) => print ("  " ++ key ++ ": " ++ value)))
                   (fun _ => print EmptyString)) =
              (disk_block h p, Ok tt)).
  { rewrite io_bind_print.
    rewrite (io_bind_ok _ _ _ tt
               (for_each_print_pair (fun k v => "  " ++ k ++ ": " ++ v) _)).
    reflexivity. }
  rewrite (io_bind_ok _ _ _ tt B), IH. reflexivity.
Qed.

(** X12.  With distinct device names and every usage query returning a non-zero
    total or raising a permission error, the disk section shows one block
    per partition, in partition order, closed by an empty line: three lines
    for a partition whose query was denied, eight for any other. *)
Theorem disk_section_lines (h : Host) :
  distinct (map device (disk_partitions h)) = true ->
  disks_ok h = true ->
  render_disk h =
    (app [ "DISK STATUS:"; rule ] (flat_map (disk_block h) (disk_partitions h)),
     Ok tt) /\
  forall p, In p (disk_partitions h) ->
    if usage_denied h p
    then disk_block h p =
           [ device p ++ ":"; "  Status: Permission denied"; EmptyString ]
    else List.length (disk_block h p) = 8%nat.
Proof.
  intros Hd Hok. apply distinct_NoDup in Hd. split.
  - unfold render_disk. rewrite !io_bind_print.
    assert (E : get_disk_info h =
                Ok (map (fun p => (device p, entry_of h p)) (disk_partitions h))).
    { unfold get_disk_info. rewrite disk_loop_distinct;
        [reflexivity|exact Hd|exact Hok]. }
    rewrite (io_bind_call _ _ _ E), print_disks_blocks. reflexivity.
  - intros p Hin. unfold disks_ok in Hok. rewrite forallb_forall in Hok.
    pose proof (disk_entry_spec h p (Hok p Hin)) as S.
    unfold usage_denied, disk_block, entry_of.
    destruct (disk_usage h (mountpoint p)).
    + destruct S as (? & ? & ? & ? & _ & _ & _ & _ & _ & ->). reflexivity.
    + rewrite S. reflexivity.
Qed.

Lemma print_network_blocks (h : Host) (ifs : dict (list snicaddr)) :
  print_network
    (map (fun kv => (fst kv, iface_entry (net_if_stats h) (fst kv) (snd kv))) ifs) =
  (flat_map (interface_block h) ifs, Ok tt).
Proof.
  unfold print_network. induction ifs as [|[name addrs] ifs IH];
    cbn [map for_each flat_map fst snd]; [reflexivity|].
  rewrite (io_bind_ok _ _ _ tt (print_interface_lines _ _)), IH. reflexivity.
Qed.

(** X13.  With interface names distinct in the address source, the collector
    reports exactly the interfaces of the address source, in its order (an
    interface known to the statistics alone is not reported); an interface
    with statistics is up as the statistics say; and the section shows one
    block per interface. *)
Theorem network_interfaces_reported (h : Host) :
  distinct (dict_keys (net_if_addrs h)) = true ->
  dict_keys (get_network_info h) = dict_keys (net_if_addrs h) /\
  (forall name addrs st,
     In (name, addrs) (net_if_addrs h) ->
     dict_get name (net_if_stats h) = Some st ->
     exists info, dict_get name (get_network_info h) = Some info /\
                  is_up info = isup st) /\
  render_network h =
    (app [ "NETWORK INTERFACES:"; rule ]
         (flat_map (interface_block h) (net_if_addrs h)), Ok tt).
Proof.
  intros Hd. apply distinct_NoDup in Hd.
  assert (E : get_network_info h =
              map (fun kv => (fst kv, iface_entry (net_if_stats h) (fst kv) (snd kv)))
                  (net_if_addrs h)).
  { unfold get_network_info. exact (network_loop_distinct _ _ [] Hd). }
  split; [|split].
  - rewrite E. unfold dict_keys. rewrite map_map. reflexivity.
  - intros name addrs st Hin Hs. rewrite E.
    rewrite (dict_get_map (iface_entry (net_if_stats h))).
    rewrite (dict_get_In _ _ _ Hd Hin). cbn [option_map].
    eexists. split; [reflexivity|]. unfold iface_entry. cbn [is_up].
    rewrite Hs. reflexivity.
  - unfold render_network. rewrite !io_bind_print, E, print_network_blocks.
    reflexivity.
Qed.

(* ===================================================================== *)
(** ** Failure of the memory collector *)

(** X14.  The computations of the memory collector can fail in one way only,
    with the overflow error of a byte count too large to divide into a
    float; the report then stops after the memory header and the handler
    writes its two lines. *)
Theorem memory_overflow_aborts (h : Host) (e : exn) :
  get_memory_info h = Raise e ->
  e = overflow /\
  memory_ok h = false /\
  exists pre,
    run h = (pre ++ [ "MEMORY STATUS:"; rule;
                      "Error running system check: integer division result too large for a float";
                      "Make sure you're running with appropriate permissions." ])%list.
Proof.
  intros E. pose proof (get_memory_info_raises h e E) as ->.
  split; [reflexivity|]. split.
  - destruct (memory_ok h) eqn:M; [|reflexivity].
    destruct (get_memory_info_returns h M) as (? & ? & ? & _ & _ & _ & X).
    rewrite X in E. discriminate E.
  - assert (A : aborts_after (main h) ["MEMORY STATUS:"; rule] overflow).
    { unfold main. do 5 apply aborts_print_later.
      apply (aborts_later _ _ tt _ _ (render_system_returns h)).
      apply (aborts_later _ _ tt _ _ (render_bios_returns h)).
      apply (aborts_later _ _ tt _ _ (render_cpu_returns h)).
      assert (R : render_memory h = (["MEMORY STATUS:"; rule], Raise overflow)).
      { unfold render_memory. rewrite !io_bind_print, E. reflexivity. }
      rewrite (io_bind_raise _ _ _ _ R). split; [reflexivity|].
      exists []. reflexivity. }
    destruct A as [Hs (pre & Hf)]. exists pre. unfold run.
    destruct (main h) as [out r]. cbn [fst snd] in *. subst.
    rewrite <- app_assoc. reflexivity.
Qed.


(* ===================================================================== *)
(** ** The CPU and memory sections *)

(** X15.  On a host that reports a frequency, with finite readings, the CPU
    section shows the core counts ([None] for a count the host does not
    give), both frequencies to two decimal places in MHz, the usage to one
    decimal place with a percent sign, and the load average as Python prints
    a float, or [N/A] without one. *)
Theorem cpu_section_lines (h : Host) (f : scpufreq) :
  cpu_freq h = Some f ->
  is_finite (freq_max f) = true ->
  is_finite (freq_current f) = true ->
  is_finite (cpu_percent h) = true ->
  exists fmax fcur usage,
    decimal_places 2 (freq_max f) fmax /\
    decimal_places 2 (freq_current f) fcur /\
    decimal_places 1 (cpu_percent h) usage /\
    render_cpu h =
      ([ "CPU STATUS:"; rule;
         "Physical Cores: " ++
           match cpu_count_physical h with Some n => str_of_Z n | None => "None" end;
         "Total Cores: " ++
           match cpu_count_logical h with Some n => str_of_Z n | None => "None" end;
         "Max Frequency: " ++ fmax ++ " MHz";
         "Current Frequency: " ++ fcur ++ " MHz";
         "CPU Usage: " ++ usage ++ "%";
         "Load Average (1min): " ++
           match getloadavg h with Some l => float_repr l | None => "N/A" end;
         EmptyString ], Ok tt).
Proof.
  intros Ef Fm Fc Fu.
  exists (format_fixed 2 (freq_max f)), (format_fixed 2 (freq_current f)),
         (format_fixed 1 (cpu_percent h)).
  split; [apply format_fixed_places; [exact Fm|lia]|].
  split; [apply format_fixed_places; [exact Fc|lia]|].
  split; [apply format_fixed_places; [exact Fu|lia]|].
  unfold render_cpu, print_items, get_cpu_info. rewrite Ef.
  rewrite !io_bind_print. cbn [for_each].
  rewrite !io_bind_print. cbn [print fst snd io_bind app py_str].
  destruct (cpu_count_physical h), (cpu_count_logical h), (getloadavg h);
    reflexivity.
Qed.

(** X16.  With byte counts in range and finite percentages, the memory section
    shows the three sizes in gigabytes and the two usages to one decimal
    place with a percent sign, in the collector's order. *)
Theorem memory_section_lines (h : Host) :
  memory_ok h = true ->
  is_finite (vm_percent (virtual_memory h)) = true ->
  is_finite (sw_percent (swap_memory h)) = true ->
  exists total_ram available_ram total_swap ram_usage swap_usage,
    gb (vm_total (virtual_memory h)) = Ok total_ram /\
    gb (vm_available (virtual_memory h)) = Ok available_ram /\
    gb (sw_total (swap_memory h)) = Ok total_swap /\
    decimal_places 1 (vm_percent (virtual_memory h)) ram_usage /\
    decimal_places 1 (sw_percent (swap_memory h)) swap_usage /\
    render_memory h =
      ([ "MEMORY STATUS:"; rule;
         "Total RAM: " ++ total_ram;
         "Available RAM: " ++ available_ram;
         "RAM Usage: " ++ ram_usage ++ "%";
         "Total Swap: " ++ total_swap;
         "Swap Usage: " ++ swap_usage ++ "%";
         EmptyString ], Ok tt).
Proof.
  intros Hm Fr Fs.
  destruct (get_memory_info_returns h Hm) as (t & a & s & Et & Ea & Es & E).
  exists t, a, s, (format_fixed 1 (vm_percent (virtual_memory h))),
         (format_fixed 1 (sw_percent (swap_memory h))).
  split; [exact Et|]. split; [exact Ea|]. split; [exact Es|].
  split; [apply format_fixed_places; [exact Fr|lia]|].
  split; [apply format_fixed_places; [exact Fs|lia]|].
  unfold render_memory. rewrite !io_bind_print, (io_bind_call _ _ _ E).
  unfold print_items. cbn [for_each]. rewrite !io_bind_print. reflexivity.
Qed.


(* ===================================================================== *)
(** ** Labels, headers and interfaces *)

(** *** Network interfaces *)




(** *** Section headers *)

(** C7 (amended).  In every run in which no collector raises (byte counts
    in range, every usage query returning a non-zero total or raising a
    permission error), every text the host supplies is a single line, the
    stream takes every text that is printed, and no device, interface or
    sensor-group name followed by a colon is itself a header text, the
    lines on standard output contain each of the eight section headers
    exactly once, in the fixed order. *)
Theorem report_headers (h : Host) (w : stream) :
  memory_ok h = true -> disks_ok h = true -> names_ok h = true ->
  single_line_host h = true -> takes w (fst (main h)) ->
  exists out,
    on_stream w (main h) = (out, Ok tt) /\ run_on w h = out /\
    header_lines (stdout_lines out) = headers.
Proof.
  intros Hm Hd Hn Hs Hw. destruct (writes_main h Hm Hd Hn) as [[[] Hr] Hh].
  pose proof (main_single_lines h Hs) as SL. unfold all_lines in SL.
  exists (fst (main h)). unfold run_on. rewrite (on_stream_takes w _ Hw).
  destruct (main h) as [out r]. cbn [fst snd] in *. subst r.
  split; [reflexivity|]. split; [reflexivity|].
  rewrite (stdout_lines_single out SL). exact Hh.
Qed.

(** *** Labels *)












(* ===================================================================== *)
(** ** Instances of the three theorems *)


(** The loopback interface has three bound addresses: all three are
    collected, with their netmasks, and two of them are shown. *)
Example loopback_of_host_linux :
  option_map (fun info => List.length (addresses info))
             (dict_get "lo" (get_network_info host_linux)) = Some 3%nat /\
  option_map (fun info => map a_netmask (addresses info))
             (dict_get "lo" (get_network_info host_linux)) =
    Some [ Some "255.0.0.0"; Some "ffff:ffff:ffff:ffff:ffff:ffff:ffff:ffff"; None ] /\
  fst (print_interface "lo" (iface_entry (net_if_stats host_linux) "lo" loopback)) =
    [ "lo:"; "  Status: UP"; "  Speed: N/A";
      "  AddressFamily.AF_INET: 127.0.0.1"; "  AddressFamily.AF_INET6: ::1";
      EmptyString ].
Proof. repeat split; vm_compute; reflexivity. Qed.

Lemma report_headers_witness :
  memory_ok host_linux = true /\ disks_ok host_linux = true /\
  names_ok host_linux = true /\ single_line_host host_linux = true /\
  takes utf8_stream (fst (main host_linux)) /\
  exists out,
    on_stream utf8_stream (main host_linux) = (out, Ok tt) /\
    run_on utf8_stream host_linux = out /\
    header_lines (stdout_lines out) = headers.
Proof.
  split; [vm_compute; reflexivity|]. split; [vm_compute; reflexivity|].
  split; [vm_compute; reflexivity|]. split; [vm_compute; reflexivity|].
  split; [intros s _; reflexivity|].
  apply (report_headers host_linux utf8_stream).
  - vm_compute. reflexivity.
  - vm_compute. reflexivity.
  - vm_compute. reflexivity.
  - vm_compute. reflexivity.
  - intros s _. reflexivity.
Defined.

(** A mount point that holds a line feed and then the text of a header:
    the name test passes and each header is printed once, yet the lines on
    standard output show [CPU STATUS:] twice. *)
Example line_feed_in_mount_point :
  memory_ok host_line_feed = true /\ disks_ok host_line_feed = true /\
  names_ok host_line_feed = true /\ single_line_host host_line_feed = false /\
  header_lines (run host_line_feed) = headers /\
  count_occ string_dec (stdout_lines (run host_line_feed)) "CPU STATUS:" = 2%nat.
Proof. repeat split; vm_compute; reflexivity. Qed.



(* ===================================================================== *)
(** ** Instances on the sample hosts *)

Lemma get_disk_info_shared_devices_witness :
  disks_ok host_shared_device = true /\
  exists d, get_disk_info host_shared_device = Ok d /\
    NoDup (dict_keys d) /\
    (forall dev, In dev (dict_keys d) <->
                 In dev (map device (disk_partitions host_shared_device))) /\
    List.length d =
      List.length (nodup string_dec
                     (map device (disk_partitions host_shared_device))) /\
    (forall dev p, last_with dev (disk_partitions host_shared_device) = Some p ->
                   dict_get dev d = Some (entry_of host_shared_device p)).
Proof.
  split; [vm_compute; reflexivity|].
  apply (get_disk_info_shared_devices host_shared_device).
  vm_compute. reflexivity.
Defined.

Lemma zero_total_aborts_witness :
  disk_partitions host_zero_total = ([root_partition] ++ empty_partition :: [])%list /\
  forallb (usage_okb host_zero_total) [root_partition] = true /\
  disk_usage host_zero_total (mountpoint empty_partition) =
    Ok {| total := 0; used := 0; free := 0 |} /\
  memory_ok host_zero_total = true /\
  get_disk_info host_zero_total =
    Raise (mkExn ZeroDivisionError "division by zero") /\
  check_system_health host_zero_total =
    Raise (mkExn ZeroDivisionError "division by zero") /\
  exists pre,
    run host_zero_total =
      (pre ++ [ "DISK STATUS:"; rule;
                "Error running system check: division by zero";
                "Make sure you're running with appropriate permissions." ])%list.
Proof.
  split; [reflexivity|]. split; [vm_compute; reflexivity|].
  split; [reflexivity|]. split; [vm_compute; reflexivity|].
  apply (zero_total_aborts host_zero_total [root_partition] [] empty_partition
           {| total := 0; used := 0; free := 0 |}).
  - reflexivity.
  - vm_compute. reflexivity.
  - reflexivity.
  - reflexivity.
  - vm_compute. reflexivity.
  - vm_compute. reflexivity.
  - vm_compute. reflexivity.
Defined.

Lemma warning_messages_witness :
  check_system_health host_linux =
    Ok [ ("timestamp", "2024-03-01 12:00:00");
         ("uptime", "1 day, 2:03:04.000005");
         ("boot_time", "2024-02-29 09:56:55");
         ("memory_warning", "High memory usage: 90.0%");
         ("disk_warning_/dev/sda1", "Low disk space: 95.0% used") ] /\
  distinct (map device (disk_partitions host_linux)) = true /\
  dict_get "cpu_warning"
    [ ("timestamp", "2024-03-01 12:00:00");
      ("uptime", "1 day, 2:03:04.000005");
      ("boot_time", "2024-02-29 09:56:55");
      ("memory_warning", "High memory usage: 90.0%");
      ("disk_warning_/dev/sda1", "Low disk space: 95.0% used") ] =
    (if float_gt_Z (cpu_percent host_linux) 80
     then Some ("High CPU usage: " ++ float_repr (cpu_percent host_linux) ++ "%")
     else None) /\
  dict_get "memory_warning"
    [ ("timestamp", "2024-03-01 12:00:00");
      ("uptime", "1 day, 2:03:04.000005");
      ("boot_time", "2024-02-29 09:56:55");
      ("memory_warning", "High memory usage: 90.0%");
      ("disk_warning_/dev/sda1", "Low disk space: 95.0% used") ] =
    (if float_gt_Z (vm_percent (virtual_memory host_linux)) 85
     then Some ("High memory usage: " ++
                float_repr (vm_percent (virtual_memory host_linux)) ++ "%")
     else None) /\
  forall p, In p (disk_partitions host_linux) ->
    dict_get (disk_warning_key p)
      [ ("timestamp", "2024-03-01 12:00:00");
        ("uptime", "1 day, 2:03:04.000005");
        ("boot_time", "2024-02-29 09:56:55");
        ("memory_warning", "High memory usage: 90.0%");
        ("disk_warning_/dev/sda1", "Low disk space: 95.0% used") ] =
      (if exceeds_90b host_linux p
       then Some (disk_warning_text host_linux p) else None).
Proof.
  split; [vm_compute; reflexivity|]. split; [vm_compute; reflexivity|].
  apply (warning_messages host_linux); vm_compute; reflexivity.
Defined.

Lemma healthy_mapping_witness :
  check_system_health host_windows = Ok (health_base host_windows) /\
  (health_base host_windows = health_base host_windows <->
   healthy host_windows = true).
Proof.
  split; [vm_compute; reflexivity|].
  apply (healthy_mapping host_windows). vm_compute. reflexivity.
Defined.

Lemma health_section_lines_witness :
  check_system_health host_linux =
    Ok [ ("timestamp", "2024-03-01 12:00:00");
         ("uptime", "1 day, 2:03:04.000005");
         ("boot_time", "2024-02-29 09:56:55");
         ("memory_warning", "High memory usage: 90.0%");
         ("disk_warning_/dev/sda1", "Low disk space: 95.0% used") ] /\
  forallb is_ascii (map device (disk_partitions host_linux)) = true /\
  exists rest,
    [ ("timestamp", "2024-03-01 12:00:00");
      ("uptime", "1 day, 2:03:04.000005");
      ("boot_time", "2024-02-29 09:56:55");
      ("memory_warning", "High memory usage: 90.0%");
      ("disk_warning_/dev/sda1", "Low disk space: 95.0% used") ] =
      (health_base host_linux ++ rest)%list /\
    (forall k v, In (k, v) rest -> warning_key k) /\
    (takes ascii_stream
       (app [ "SYSTEM HEALTH CHECK:"; rule;
              "Timestamp: " ++ now_strftime host_linux;
              "Uptime: " ++ uptime_str host_linux;
              "Boot Time: " ++ boot_time_strftime host_linux ]
            (app (map flagged_line rest) [EmptyString])) ->
     on_stream ascii_stream (render_health host_linux) =
       (app [ "SYSTEM HEALTH CHECK:"; rule;
              "Timestamp: " ++ now_strftime host_linux;
              "Uptime: " ++ uptime_str host_linux;
              "Boot Time: " ++ boot_time_strftime host_linux ]
            (app (map flagged_line rest) [EmptyString]), Ok tt)) /\
    (forall kv rest' e,
       rest = kv :: rest' ->
       takes ascii_stream
         [ "SYSTEM HEALTH CHECK:"; rule;
           "Timestamp: " ++ now_strftime host_linux;
           "Uptime: " ++ uptime_str host_linux;
           "Boot Time: " ++ boot_time_strftime host_linux ] ->
       ascii_stream (flagged_line kv) = Raise e ->
       on_stream ascii_stream (render_health host_linux) =
         ([ "SYSTEM HEALTH CHECK:"; rule;
            "Timestamp: " ++ now_strftime host_linux;
            "Uptime: " ++ uptime_str host_linux;
            "Boot Time: " ++ boot_time_strftime host_linux ], Raise e)).
Proof.
  split; [vm_compute; reflexivity|]. split; [vm_compute; reflexivity|].
  apply (health_section_lines host_linux _ ascii_stream);
    vm_compute; reflexivity.
Defined.

Lemma bios_windows_entries_witness :
  platform_system host_windows = "Windows" /\
  run_wmic host_windows = Ok {| returncode := 0; stdout := wmic_answer |} /\
  is_ascii wmic_answer = true /\
  exists d, get_bios_info host_windows = Ok d /\
    (0 <> 0 -> d = bios_not_accessible) /\
    (0 = 0 -> (forall key, wmic_value wmic_answer key = None) ->
     d = bios_not_accessible) /\
    (0 = 0 -> forall key0 v0, wmic_value wmic_answer key0 = Some v0 ->
     forall key, dict_get key d = wmic_value wmic_answer key).
Proof.
  split; [reflexivity|]. split; [reflexivity|]. split; [vm_compute; reflexivity|].
  apply (bios_windows_entries host_windows
           {| returncode := 0; stdout := wmic_answer |});
    [reflexivity|reflexivity|vm_compute; reflexivity].
Defined.

Lemma bios_linux_values_witness :
  platform_system host_linux = "Linux" /\
  existsb (fun pl => readable host_linux (fst pl)) bios_files = true /\
  forallb (fun pl => match read_file host_linux (fst pl) with
                     | Ok text => is_ascii text
                     | Raise _ => true
                     end) bios_files = true /\
  get_bios_info host_linux = Ok (dmi_entries host_linux) /\
  forall path l text, In (path, l) bios_files ->
    read_file host_linux path = Ok text ->
    dict_get l (dmi_entries host_linux) = Some (strip text).
Proof.
  split; [reflexivity|]. split; [vm_compute; reflexivity|].
  split; [vm_compute; reflexivity|].
  apply (bios_linux_values host_linux);
    [reflexivity|vm_compute; reflexivity|vm_compute; reflexivity].
Defined.

Lemma status_group_printed_raw_witness :
  sensors_temperatures host_status_group = Ok status_sensors /\
  distinct (dict_keys status_sensors) = true /\
  In ("Status", [board_sensor]) status_sensors /\
  forallb (fun entry => is_ascii (label entry)) [board_sensor] = true /\
  render_temperature host_status_group =
    ([ "TEMPERATURE SENSORS:"; rule;
       readings_repr (map temp_data [board_sensor]); EmptyString ], Ok tt).
Proof.
  split; [reflexivity|]. split; [vm_compute; reflexivity|].
  split; [right; left; reflexivity|]. split; [vm_compute; reflexivity|].
  apply (status_group_printed_raw host_status_group status_sensors).
  - reflexivity.
  - vm_compute. reflexivity.
  - right. left. reflexivity.
  - vm_compute. reflexivity.
Defined.

Lemma temperature_section_lines_witness :
  sensors_temperatures host_linux =
    Ok [ ("coretemp", [cpu_sensor]); ("acpitz", [board_sensor]) ] /\
  distinct (dict_keys [ ("coretemp", [cpu_sensor]); ("acpitz", [board_sensor]) ])
    = true /\
  render_temperature host_linux =
    (app [ "TEMPERATURE SENSORS:"; rule ]
         (app (flat_map group_block
                 [ ("coretemp", [cpu_sensor]); ("acpitz", [board_sensor]) ])
              [EmptyString]), Ok tt).
Proof.
  split; [reflexivity|]. split; [vm_compute; reflexivity|].
  apply (temperature_section_lines host_linux).
  - reflexivity.
  - vm_compute. reflexivity.
  - discriminate.
  - intros [H|[H|[]]]; discriminate H.
Defined.

Lemma disk_section_lines_witness :
  distinct (map device (disk_partitions host_linux)) = true /\
  disks_ok host_linux = true /\
  render_disk host_linux =
    (app [ "DISK STATUS:"; rule ]
         (flat_map (disk_block host_linux) (disk_partitions host_linux)),
     Ok tt) /\
  forall p, In p (disk_partitions host_linux) ->
    if usage_denied host_linux p
    then disk_block host_linux p =
           [ device p ++ ":"; "  Status: Permission denied"; EmptyString ]
    else List.length (disk_block host_linux p) = 8%nat.
Proof.
  split; [vm_compute; reflexivity|]. split; [vm_compute; reflexivity|].
  apply (disk_section_lines host_linux); vm_compute; reflexivity.
Defined.

Lemma network_interfaces_reported_witness :
  distinct (dict_keys (net_if_addrs host_linux)) = true /\
  dict_keys (get_network_info host_linux) = dict_keys (net_if_addrs host_linux) /\
  (forall name addrs st,
     In (name, addrs) (net_if_addrs host_linux) ->
     dict_get name (net_if_stats host_linux) = Some st ->
     exists info, dict_get name (get_network_info host_linux) = Some info /\
                  is_up info = isup st) /\
  render_network host_linux =
    (app [ "NETWORK INTERFACES:"; rule ]
         (flat_map (interface_block host_linux) (net_if_addrs host_linux)), Ok tt).
Proof.
  split; [vm_compute; reflexivity|].
  apply (network_interfaces_reported host_linux). vm_compute. reflexivity.
Defined.

Lemma memory_overflow_aborts_witness :
  get_memory_info host_huge_memory = Raise overflow /\
  overflow = overflow /\
  memory_ok host_huge_memory = false /\
  exists pre,
    run host_huge_memory =
      (pre ++ [ "MEMORY STATUS:"; rule;
                "Error running system check: integer division result too large for a float";
                "Make sure you're running with appropriate permissions." ])%list.
Proof.
  split; [vm_compute; reflexivity|].
  apply (memory_overflow_aborts host_huge_memory overflow).
  vm_compute. reflexivity.
Defined.

Lemma cpu_section_lines_witness :
  cpu_freq host_windows =
    Some {| freq_current := float_of_Z 2400; freq_min := S754_zero false;
            freq_max := tenths 36005 |} /\
  exists fmax fcur usage,
    decimal_places 2 (tenths 36005) fmax /\
    decimal_places 2 (float_of_Z 2400) fcur /\
    decimal_places 1 (cpu_percent host_windows) usage /\
    render_cpu host_windows =
      ([ "CPU STATUS:"; rule;
         "Physical Cores: " ++
           match cpu_count_physical host_windows with
           | Some n => str_of_Z n | None => "None" end;
         "Total Cores: " ++
           match cpu_count_logical host_windows with
           | Some n => str_of_Z n | None => "None" end;
         "Max Frequency: " ++ fmax ++ " MHz";
         "Current Frequency: " ++ fcur ++ " MHz";
         "CPU Usage: " ++ usage ++ "%";
         "Load Average (1min): " ++
           match getloadavg host_windows with
           | Some l => float_repr l | None => "N/A" end;
         EmptyString ], Ok tt).
Proof.
  split; [reflexivity|].
  apply (cpu_section_lines host_windows
           {| freq_current := float_of_Z 2400; freq_min := S754_zero false;
              freq_max := tenths 36005 |}).
  - reflexivity.
  - vm_compute. reflexivity.
  - vm_compute. reflexivity.
  - vm_compute. reflexivity.
Defined.

Lemma memory_section_lines_witness :
  memory_ok host_linux = true /\
  exists total_ram available_ram total_swap ram_usage swap_usage,
    gb (vm_total (virtual_memory host_linux)) = Ok total_ram /\
    gb (vm_available (virtual_memory host_linux)) = Ok available_ram /\
    gb (sw_total (swap_memory host_linux)) = Ok total_swap /\
    decimal_places 1 (vm_percent (virtual_memory host_linux)) ram_usage /\
    decimal_places 1 (sw_percent (swap_memory host_linux)) swap_usage /\
    render_memory host_linux =
      ([ "MEMORY STATUS:"; rule;
         "Total RAM: " ++ total_ram;
         "Available RAM: " ++ available_ram;
         "RAM Usage: " ++ ram_usage ++ "%";
         "Total Swap: " ++ total_swap;
         "Swap Usage: " ++ swap_usage ++ "%";
         EmptyString ], Ok tt).
Proof.
  split; [vm_compute; reflexivity|].
  apply (memory_section_lines host_linux); vm_compute; reflexivity.
Defined.



(** The sample hosts, evaluated. *)
Example bios_of_host_windows :
  get_bios_info host_windows =
  Ok [ ("Name", "ACME BIOS"); ("Version", "ACME - 1072009") ].
Proof. vm_compute. reflexivity. Qed.

Example cpu_section_of_host_windows :
  fst (render_cpu host_windows) =
  [ "CPU STATUS:"; rule; "Physical Cores: None"; "Total Cores: 8";
    "Max Frequency: 3600.50 MHz"; "Current Frequency: 2400.00 MHz";
    "CPU Usage: 3.5%"; "Load Average (1min): N/A"; EmptyString ].
Proof. vm_compute. reflexivity. Qed.

Example status_group_of_host :
  fst (render_temperature host_status_group) =
  [ "TEMPERATURE SENSORS:"; rule;
    "[{'label': 'N/A', 'current': '27.8°C', 'high': 'N/A', 'critical': 'N/A'}]";
    EmptyString ].
Proof. vm_compute. reflexivity. Qed.

(** On an ASCII stream the report of the Linux host stops at its first
    sensor reading, whose degree sign the stream refuses; the handler's two
    lines follow and the closing line is not written. *)
Example host_linux_on_ascii_stream :
  snd (on_stream ascii_stream (main host_linux)) =
    Raise (mkExn UnicodeEncodeError
             "'ascii' codec can't encode characters: ordinal not in range(128)") /\
  existsb (String.eqb "Make sure you're running with appropriate permissions.")
          (run_on ascii_stream host_linux) = true /\
  existsb (String.eqb "DISK STATUS:") (run_on ascii_stream host_linux) = false /\
  existsb (String.eqb "SCAN COMPLETE") (run_on ascii_stream host_linux) = false.
Proof. repeat split; vm_compute; reflexivity. Qed.
